(** * Personal Boardroom: the board-meeting orchestration engine

  A shallow embedding of [src/server/services/llm-client.js] (response
  parsing, the retry wrapper) and [src/server/services/orchestrator.js]
  (prompt rendering, persistence of responses, the three-phase run),
  followed by the properties of the specification that concern them.

  Conventions of the embedding.
  - A JavaScript string is a [string]: a sequence of code units below 256.
  - A JavaScript number that counts something (tokens, attempts, an HTTP
    status, milliseconds) is a [Z]: an integer in the range in which the
    arithmetic of the language is exact.  A number inside a JSON document
    is an integer [Z] as well; fractions are outside the model.
  - [undefined] is the [None] of an [option].
  - A function that may throw returns a [Result]; the thrown value is kept.
  - [JSON.parse], the provider behind [fetch], the prompt files and the
    identifier generator are the environment: they are arguments.  The
    provider is given as the exchange that each invocation of each call
    gets, with the time it takes; a call is known by its arguments.
  - The memo is the decoded row of the [memos] table, typed as the memo
    route writes it.  The database takes every statement it is given. *)

From Stdlib Require Import ZArith List String Ascii Bool Lia DecimalString.
Import ListNotations.

Set Implicit Arguments.

Open Scope list_scope.
Open Scope Z_scope.
Open Scope string_scope.

(* ================================================================== *)
(** ** JavaScript strings *)

Module JsString.

Definition chr (n : nat) : string := String (ascii_of_nat n) EmptyString.

(** Line feed, and the double quote. *)
Definition nl : string := chr 10.
Definition dq : string := chr 34.

(** [WhiteSpace] and [LineTerminator] code units below 256: TAB, LF, VT,
    FF, CR, SP and NBSP. *)
Definition isWhiteSpace (c : ascii) : bool :=
  existsb (Nat.eqb (nat_of_ascii c)) [9; 10; 11; 12; 13; 32; 160]%nat.

Fixpoint trimStart (s : string) : string :=
  match s with
  | EmptyString => EmptyString
  | String c r => if isWhiteSpace c then trimStart r else s
  end.

Fixpoint trimEnd (s : string) : string :=
  match s with
  | EmptyString => EmptyString
  | String c r =>
      match trimEnd r with
      | EmptyString => if isWhiteSpace c then EmptyString else String c EmptyString
      | r' => String c r'
      end
  end.

(** [String.prototype.trim]. *)
Definition trim (s : string) : string := trimEnd (trimStart s).

(** [hay.includes(needle)]. *)
Fixpoint includes (needle hay : string) : bool :=
  prefix needle hay ||
  match hay with
  | EmptyString => false
  | String _ r => includes needle r
  end.

(** [Array.prototype.join] on an array of strings. *)
Definition join (sep : string) (l : list string) : string := concat sep l.

Definition upperChar (c : ascii) : ascii :=
  let n := nat_of_ascii c in
  if ((97 <=? n) && (n <=? 122))%nat then ascii_of_nat (n - 32) else c.

(** [String.prototype.toUpperCase] on ASCII letters. *)
Fixpoint toUpperCase (s : string) : string :=
  match s with
  | EmptyString => EmptyString
  | String c r => String (upperChar c) (toUpperCase r)
  end.

(** The text of an integer number, as a template literal prints it. *)
Definition ofZ (z : Z) : string := NilZero.string_of_int (Z.to_int z).

(** Truthiness of a string. *)
Definition nonEmpty (s : string) : bool :=
  match s with EmptyString => false | _ => true end.

(** [s || d] for a property that may be absent. *)
Definition orElse (s : option string) (d : string) : string :=
  match s with
  | Some v => if nonEmpty v then v else d
  | None => d
  end.

End JsString.

Import JsString.

(* ================================================================== *)
(** ** JSON values *)

Module Json.

#[warnings="-register-all"]
Inductive JsValue : Type :=
| JNull
| JBool (b : bool)
| JNum (n : Z)
| JStr (s : string)
| JArr (items : list JsValue)
| JObj (fields : list (string * JsValue)).

(** [ToBoolean]; [None] is [undefined]. *)
Definition truthy (v : JsValue) : bool :=
  match v with
  | JNull => false
  | JBool b => b
  | JNum n => negb (n =? 0)%Z
  | JStr s => nonEmpty s
  | JArr _ | JObj _ => true
  end.

Definition truthyOpt (v : option JsValue) : bool :=
  match v with Some x => truthy x | None => false end.

(** [a || b]. *)
Definition or (a : option JsValue) (b : option JsValue) : option JsValue :=
  if truthyOpt a then a else b.

Fixpoint lookup (k : string) (fs : list (string * JsValue)) : option JsValue :=
  match fs with
  | [] => None
  | (k', v) :: r => if String.eqb k k' then Some v else lookup k r
  end.

(** [v.k] for one of the property names the program reads (none of them
    is a built-in property of a string, a number, a boolean or an array).
    The receiver is never [null] or [undefined] where this is used. *)
Definition get (v : JsValue) (k : string) : option JsValue :=
  match v with
  | JObj fs => lookup k fs
  | _ => None
  end.

(** [v?.k]. *)
Definition getOpt (v : option JsValue) (k : string) : option JsValue :=
  match v with
  | None | Some JNull => None
  | Some x => get x k
  end.

(** [ToString], with [Array.prototype.join] for arrays: [null] items of
    an array print as the empty string. *)
Fixpoint toString (v : JsValue) : string :=
  match v with
  | JNull => "null"
  | JBool true => "true"
  | JBool false => "false"
  | JNum n => ofZ n
  | JStr s => s
  | JArr l =>
      join "," (map (fun x => match x with JNull => "" | _ => toString x end) l)
  | JObj _ => "[object Object]"
  end.

Definition joinItems (sep : string) (l : list JsValue) : string :=
  join sep (map (fun x => match x with JNull => "" | _ => toString x end) l).

(** ** [JSON.stringify] *)

Definition hexDigit (n : nat) : string :=
  String (ascii_of_nat (if (n <? 10)%nat then 48 + n else 87 + n)) EmptyString.

Definition quoteChar (c : ascii) : string :=
  let n := nat_of_ascii c in
  if (n =? 34)%nat then "\" ++ dq
  else if (n =? 92)%nat then "\\"
  else if (n =? 8)%nat then "\b"
  else if (n =? 12)%nat then "\f"
  else if (n =? 10)%nat then "\n"
  else if (n =? 13)%nat then "\r"
  else if (n =? 9)%nat then "\t"
  else if (n <? 32)%nat then "\u00" ++ hexDigit (n / 16) ++ hexDigit (n mod 16)
  else String c EmptyString.

Fixpoint quoteBody (s : string) : string :=
  match s with
  | EmptyString => EmptyString
  | String c r => quoteChar c ++ quoteBody r
  end.

Definition quote (s : string) : string := dq ++ quoteBody s ++ dq.

Fixpoint stringify (v : JsValue) : string :=
  match v with
  | JNull => "null"
  | JBool true => "true"
  | JBool false => "false"
  | JNum n => ofZ n
  | JStr s => quote s
  | JArr l => "[" ++ join "," (map stringify l) ++ "]"
  | JObj fs =>
      "{" ++ join "," (map (fun kv => quote (fst kv) ++ ":" ++ stringify (snd kv)) fs) ++ "}"
  end.

End Json.

Import Json.

(* ================================================================== *)
(** ** Regular expressions, as [String.prototype.match] runs them

    A backtracking matcher for the fragment the program uses.  [run r st]
    lists the states in which a match of [r] started in [st] can end, in
    the order in which the backtracking of the language tries them; the
    head of the list is the match that is taken. *)

Module Regex.

Inductive Regex : Type :=
| Eps
| Chr (c : ascii)
| AnyChar
| Seq (r1 r2 : Regex)
| Opt (r : Regex)
| LazyStar (r : Regex)
| Group (r : Regex).

(** A literal run of characters. *)
Fixpoint lit (s : string) : Regex :=
  match s with
  | EmptyString => Eps
  | String c r => Seq (Chr c) (lit r)
  end.

(** The input still to be read and the text of capture group 1. *)
Record MState : Type := { rest : string; cap : option string }.

(** What was read between two inputs. *)
Definition consumed (before after : string) : string :=
  substring 0 (String.length before - String.length after) before.

(** The iterations of a lazy star whose body is matched by [step]: stop
    here first, then try one more iteration; an iteration that reads
    nothing is not taken.  [n] bounds the iterations by the input length. *)
Fixpoint star (step : MState -> list MState) (n : nat) (st : MState) {struct n}
  : list MState :=
  st ::
  match n with
  | O => []
  | S n' =>
      flat_map
        (fun st' =>
           if (String.length (rest st') <? String.length (rest st))%nat
           then star step n' st' else [])
        (step st)
  end.

Fixpoint run (r : Regex) (st : MState) : list MState :=
  match r with
  | Eps => [st]
  | Chr c =>
      match rest st with
      | String c' s' =>
          if Ascii.eqb c c' then [{| rest := s'; cap := cap st |}] else []
      | EmptyString => []
      end
  | AnyChar =>
      match rest st with
      | String _ s' => [{| rest := s'; cap := cap st |}]
      | EmptyString => []
      end
  | Seq r1 r2 => flat_map (run r2) (run r1 st)
  | Opt r1 => (run r1 st ++ [st])%list
  | LazyStar r1 => star (run r1) (String.length (rest st)) st
  | Group r1 =>
      map (fun st' =>
             {| rest := rest st'; cap := Some (consumed (rest st) (rest st')) |})
          (run r1 st)
  end.

(** [s.match(r)] for a regular expression without the global flag: the
    first start position with a match; the result is capture group 1. *)
Fixpoint exec (r : Regex) (s : string) : option (option string) :=
  match run r {| rest := s; cap := None |} with
  | st :: _ => Some (cap st)
  | [] =>
      match s with
      | EmptyString => None
      | String _ s' => exec r s'
      end
  end.

End Regex.

(* ================================================================== *)
(** ** llm-client.js *)

Module LlmClient.

Import Regex.

(** A thrown [Error]. *)
Record JsError : Type := { name : string; message : string }.

(** [new Error(msg)]. *)
Definition mkError (msg : string) : JsError := {| name := "Error"; message := msg |}.

(** What a [throw] carries: [lastError] of the retry loop starts out
    [undefined]. *)
Inductive Thrown : Type :=
| ThrownUndefined
| ThrownError (e : JsError).

Inductive Result (A : Type) : Type :=
| Return (a : A)
| Throw (t : Thrown).

Arguments Return {A} a.
Arguments Throw {A} t.

(** *** The provider response *)

Record Usage : Type := {
  input_tokens : option Z;
  output_tokens : option Z;
  reasoning_tokens : option Z;     (* usage.output_tokens_details?.reasoning_tokens *)
  total_tokens : option Z
}.

Record ContentPart : Type := { part_type : string; part_text : option string }.

Record OutputItem : Type := { item_type : string; item_content : option (list ContentPart) }.

Record ResponseData : Type := {
  data_output_text : option string;
  data_output : option (list OutputItem);
  data_usage : option Usage;
  data_id : option string
}.

(** *** The completion outcome *)

Record Tokens : Type := { input : Z; output : Z; reasoning : Z; total : Z }.

Record CompletionOutcome : Type := {
  parsed : JsValue;                (* [JNull] is [null] *)
  raw : string;
  tokens : Tokens;
  responseId : option string
}.

(** [n || 0] for a counter that may be absent. *)
Definition numOr0 (n : option Z) : Z :=
  match n with Some v => v | None => 0 end.

Definition partText (c : ContentPart) : string :=
  if (String.eqb (part_type c) "output_text" || String.eqb (part_type c) "text")%bool
  then orElse (part_text c) "" else "".

Definition itemText (i : OutputItem) : string :=
  if String.eqb (item_type i) "message" then
    match item_content i with
    | Some parts => fold_left (fun acc c => acc ++ partText c) parts ""
    | None => ""
    end
  else "".

(** The flattened text: [output_text] when it is there and not empty, else
    the text parts of the message items of [output]. *)
Definition rawTextOf (data : ResponseData) : string :=
  let rawText := orElse (data_output_text data) "" in
  if nonEmpty rawText then rawText
  else
    match data_output data with
    | Some items => fold_left (fun acc i => acc ++ itemText i) items rawText
    | None => rawText
    end.

Definition tokensOf (data : ResponseData) : Tokens :=
  {| input := numOr0 (match data_usage data with Some u => input_tokens u | None => None end);
     output := numOr0 (match data_usage data with Some u => output_tokens u | None => None end);
     reasoning := numOr0 (match data_usage data with Some u => reasoning_tokens u | None => None end);
     total := numOr0 (match data_usage data with Some u => total_tokens u | None => None end) |}.

(** The fence followed by json, an optional line feed, a lazy capture of
    anything, an optional line feed and the closing fence. *)
Definition fenceJson : Regex :=
  Seq (lit "```json")
    (Seq (Opt (Chr "010"))
       (Seq (Group (LazyStar AnyChar)) (Seq (Opt (Chr "010")) (lit "```")))).

(** The same without the label. *)
Definition fenceAny : Regex :=
  Seq (lit "```")
    (Seq (Opt (Chr "010"))
       (Seq (Group (LazyStar AnyChar)) (Seq (Opt (Chr "010")) (lit "```")))).

(** [rawText.match(fenceJson) || rawText.match(fenceAny)]. *)
Definition jsonMatch (rawText : string) : option (option string) :=
  match exec fenceJson rawText with
  | Some m => Some m
  | None => exec fenceAny rawText
  end.

(** [jsonMatch ? jsonMatch[1].trim() : rawText.trim()]; [None] when group 1
    is [undefined], which throws inside the [try]. *)
Definition jsonStr (rawText : string) : option string :=
  match jsonMatch rawText with
  | Some (Some g) => Some (trim g)
  | Some None => None
  | None => Some (trim rawText)
  end.

Section Parsing.

(** [JSON.parse]: [None] when it throws. *)
Variable JSON_parse : string -> option JsValue.

(** The [try] block: whatever it throws leaves [parsed] at [null]. *)
Definition parsedOf (rawText : string) : JsValue :=
  match jsonStr rawText with
  | Some str =>
      match JSON_parse str with
      | Some v => v
      | None => JNull
      end
  | None => JNull
  end.

Definition parseResponse (data : ResponseData) (expectJson : bool) : CompletionOutcome :=
  let rawText := rawTextOf data in
  {| parsed := if (expectJson && nonEmpty rawText)%bool then parsedOf rawText else JNull;
     raw := rawText;
     tokens := tokensOf data;
     responseId := data_id data |}.

(** *** One call *)

Record Response : Type := {
  status : Z;
  text : string;                          (* await response.text() *)
  json : JsError + ResponseData           (* await response.json() *)
}.

Definition ok (r : Response) : bool := ((200 <=? status r) && (status r <=? 299))%Z.

Inductive FetchOutcome : Type :=
| Rejected (e : JsError)                  (* network failure, timeout *)
| Resolved (r : Response).

(** One exchange with the provider: how long it took and how it ended. *)
Record Exchange : Type := { latency : Z; fetched : FetchOutcome }.

Record JsonSchema : Type := { schema_name : string }.

Definition complete (x : Exchange) (jsonSchema : option JsonSchema)
  : JsError + CompletionOutcome :=
  match fetched x with
  | Rejected e => inl e
  | Resolved response =>
      if negb (ok response) then
        inl (mkError ("OpenAI Responses API error (" ++ ofZ (status response) ++ "): "
                        ++ text response))
      else
        match json response with
        | inl e => inl e
        | inr data =>
            inr (parseResponse data (match jsonSchema with Some _ => true | None => false end))
        end
  end.

(** *** The retry wrapper *)

Inductive RetryEvent : Type :=
| Fetched (latency : Z)                           (* one provider invocation *)
| Warned (attempt retries : Z) (message : string) (* console.warn *)
| Slept (ms : Z).                                 (* the backoff timer *)

(** The [for] loop from [attempt] on; [k] provider invocations were made
    before.  [provider k] is the exchange that invocation number [k] of
    this call gets.  [fuel] bounds the iterations left. *)
Fixpoint retryLoop (provider : nat -> Exchange) (jsonSchema : option JsonSchema)
    (retries : Z) (fuel : nat) (attempt : Z) (k : nat) (lastError : Thrown)
  : list RetryEvent * Result CompletionOutcome :=
  match fuel with
  | O => ([], Throw lastError)
  | S fuel' =>
      if (attempt <=? retries)%Z then
        let x := provider k in
        match complete x jsonSchema with
        | inr outcome => ([Fetched (latency x)], Return outcome)
        | inl error =>
            let warned := [Fetched (latency x); Warned attempt retries (message error)] in
            if includes "(4" (message error) then (warned, Throw (ThrownError error))
            else
              let pause :=
                if (attempt <? retries)%Z then [Slept (2 ^ attempt * 1000)] else [] in
              let '(later, res) :=
                retryLoop provider jsonSchema retries fuel' (attempt + 1) (S k)
                  (ThrownError error) in
              ((warned ++ pause ++ later)%list, res)
        end
      else ([], Throw lastError)
  end.

(** [maxRetries ?? this.retryAttempts]; the loop runs at most [retries]
    times, which is the fuel. *)
Definition completeWithRetry (retryAttempts : Z) (provider : nat -> Exchange)
    (jsonSchema : option JsonSchema) (maxRetries : option Z)
  : list RetryEvent * Result CompletionOutcome :=
  let retries := match maxRetries with Some n => n | None => retryAttempts end in
  retryLoop provider jsonSchema retries (Z.to_nat retries) 1 0%nat ThrownUndefined.

End Parsing.

(** How many times the provider was invoked, and the time the call took. *)
Definition invocations (tr : list RetryEvent) : nat :=
  List.length (filter (fun e => match e with Fetched _ => true | _ => false end) tr).

Definition elapsed (tr : list RetryEvent) : Z :=
  fold_right (fun e acc =>
                match e with
                | Fetched ms | Slept ms => ms + acc
                | Warned _ _ _ => acc
                end) 0 tr.

Definition sleeps (tr : list RetryEvent) : list Z :=
  flat_map (fun e => match e with Slept ms => [ms] | _ => [] end) tr.

End LlmClient.

(* ================================================================== *)
(** ** orchestrator.js *)

Module Orchestrator.

Import LlmClient.

(** *** The memo

    The row of the [memos] table once its JSON columns are decoded; a
    column that is [NULL] decodes to the empty collection.  An option is a
    plain text or an object that may carry a description. *)

Inductive MemoOption : Type :=
| OptionText (s : string)
| OptionObject (id description : option string).

Record Constraints : Type := {
  time : option string;
  budget : option string;
  risk_tolerance : option string;
  politics : option string
}.

Record Memo : Type := {
  context : list string;
  decision_required : string;
  options : list MemoOption;
  constraints : Constraints;
  success_metrics : list string;
  questions_for_board : list string
}.

(** [l.map((x, i) => f(i, x))], the index counted from [i]. *)
Fixpoint mapIndexed (A : Type) (f : Z -> A -> string) (i : Z) (l : list A) : list string :=
  match l with
  | [] => []
  | x :: r => f i x :: mapIndexed f (i + 1) r
  end.

(** [o.description || o], printed. *)
Definition optionText (o : MemoOption) : string :=
  match o with
  | OptionText s => s
  | OptionObject _ d => orElse d "[object Object]"
  end.

Definition formatMemoForPrompt (memo : Memo) : string :=
  trim (nl ++
    "## Board Memo" ++ nl ++
    nl ++
    "### Context" ++ nl ++
    join nl (map (fun c => "- " ++ c) (context memo)) ++ nl ++
    nl ++
    "### Decision Required" ++ nl ++
    decision_required memo ++ nl ++
    nl ++
    "### Options" ++ nl ++
    join nl (mapIndexed (fun i o => ofZ (i + 1) ++ ". " ++ optionText o) 0 (options memo)) ++ nl ++
    nl ++
    "### Constraints" ++ nl ++
    "- Time: " ++ orElse (time (constraints memo)) "Not specified" ++ nl ++
    "- Budget: " ++ orElse (budget (constraints memo)) "Not specified" ++ nl ++
    "- Risk Tolerance: " ++ orElse (risk_tolerance (constraints memo)) "Medium" ++ nl ++
    (if nonEmpty (orElse (politics (constraints memo)) "")
     then "- Political considerations: " ++ orElse (politics (constraints memo)) ""
     else "") ++ nl ++
    nl ++
    "### Success Metrics" ++ nl ++
    join nl (map (fun m => "- " ++ m) (success_metrics memo)) ++ nl ++
    nl ++
    "### Questions for the Board" ++ nl ++
    join nl (mapIndexed (fun i q => ofZ (i + 1) ++ ". " ++ q) 0 (questions_for_board memo)) ++ nl).

(** *** The synthesis input *)

(** [result.parsed || {}]. *)
Definition parsedOrEmpty (result : CompletionOutcome) : JsValue :=
  if truthy (parsed result) then parsed result else JObj [].

(** [`${v || d}`] for a property [v]. *)
Definition textOr (v : option JsValue) (d : string) : string :=
  match v with
  | Some x => if truthy x then toString x else d
  | None => d
  end.

Definition notAFunction : JsError :=
  {| name := "TypeError"; message := "(intermediate value).join is not a function" |}.

(** [(v || []).join(sep)]: only an array has [join]. *)
Definition joinOr (v : option JsValue) (sep : string) : Result string :=
  match Json.or v (Some (JArr [])) with
  | Some (JArr l) => Return (joinItems sep l)
  | _ => Throw (ThrownError notAFunction)
  end.

(** One reviewer block of the board summary. *)
Definition boardBlock (persona : string) (result : CompletionOutcome) : Result string :=
  let p := parsedOrEmpty result in
  match joinOr (get p "top_reasons") "; " with
  | Throw t => Throw t
  | Return reasons =>
      match joinOr (get p "top_risks") "; " with
      | Throw t => Throw t
      | Return risks =>
          Return (nl ++
            "### " ++ toUpperCase persona ++ nl ++
            "- **Position:** " ++ textOr (get p "position") "N/A" ++ nl ++
            "- **Top Reasons:** " ++ reasons ++ nl ++
            "- **Top Risks:** " ++ risks ++ nl ++
            "- **Confidence:** " ++ textOr (get p "confidence") "N/A" ++ nl)
      end
  end.

(** [boardResults.map(block)]: the first block that throws ends the map. *)
Fixpoint boardBlocks (boardResults : list (string * CompletionOutcome))
  : Result (list string) :=
  match boardResults with
  | [] => Return []
  | (persona, result) :: r =>
      match boardBlock persona result with
      | Throw t => Throw t
      | Return b =>
          match boardBlocks r with
          | Throw t => Throw t
          | Return bs => Return (b :: bs)
          end
      end
  end.

Definition formatSynthesisInput (memo : Memo)
    (boardResults : list (string * CompletionOutcome)) : Result string :=
  match boardBlocks boardResults with
  | Throw t => Throw t
  | Return blocks =>
      let boardSummary := join nl blocks in
      Return (trim (nl ++
        "## Original Memo" ++ nl ++
        formatMemoForPrompt memo ++ nl ++
        nl ++
        "---" ++ nl ++
        nl ++
        "## Board Member Responses" ++ nl ++
        boardSummary ++ nl ++
        nl ++
        "---" ++ nl ++
        nl ++
        "Please synthesize these perspectives into a single, coherent recommendation." ++ nl))
  end.

(** *** The database *)

(** A row of [responses], as the values bound to the INSERT. *)
Record ResponseRow : Type := {
  row_id : string;
  row_session_id : string;
  row_persona_id : string;
  row_position : JsValue;
  row_top_reasons : string;
  row_top_risks : string;
  row_recommended_modifications : string;
  row_validation_metrics : string;
  row_confidence : JsValue;
  row_raw_analysis : string;
  row_tokens_used : Z
}.

(** [sessions] gives the status column by session id, [memos] the memo of
    a session; [responses] grows at its end. *)
Record Db : Type := {
  sessions : string -> option string;
  memos : string -> option Memo;
  responses : list ResponseRow
}.

(** [UPDATE sessions SET status = ? WHERE id = ?]. *)
Definition updateStatus (db : Db) (sessionId status : string) : Db :=
  {| sessions := fun i =>
       if String.eqb i sessionId
       then match sessions db i with Some _ => Some status | None => None end
       else sessions db i;
     memos := memos db;
     responses := responses db |}.

Definition insertResponse (db : Db) (row : ResponseRow) : Db :=
  {| sessions := sessions db;
     memos := memos db;
     responses := (responses db ++ [row])%list |}.

(** [v || d]. *)
Definition orDefault (v : option JsValue) (d : JsValue) : JsValue :=
  match Json.or v (Some d) with
  | Some x => x
  | None => d
  end.

(** The row that [saveResponse] binds, given the identifier drawn. *)
Definition responseRow (responseId sessionId personaId : string)
    (result : CompletionOutcome) : ResponseRow :=
  let parsed := parsedOrEmpty result in
  {| row_id := responseId;
     row_session_id := sessionId;
     row_persona_id := personaId;
     row_position :=
       orDefault (Json.or (get parsed "position")
                    (getOpt (get parsed "integrated_recommendation") "decision"))
         (JStr "");
     row_top_reasons := stringify (orDefault (get parsed "top_reasons") (JArr []));
     row_top_risks := stringify (orDefault (get parsed "top_risks") (JArr []));
     row_recommended_modifications :=
       stringify (orDefault (get parsed "recommended_modifications") (JArr []));
     row_validation_metrics :=
       stringify (orDefault (get parsed "validation_metrics") (JObj []));
     row_confidence := orDefault (get parsed "confidence") (JStr "medium");
     row_raw_analysis := raw result;
     row_tokens_used := total (tokens result) |}.

(** *** The run: state, log and exceptions *)

Record Options : Type := {
  jsonSchema : option JsonSchema;
  personaId : string;
  verbosity : string;
  includeReasoning : bool
}.

(** The arguments of one [completeWithRetry] call. *)
Record Request : Type := {
  req_instructions : string;
  req_input : string;
  req_options : Options
}.

(** What the run does to the outside, in program order; the four calls of
    phase 2 run concurrently and are listed in the order of the personas. *)
Inductive Event : Type :=
| SetStatus (sessionId status : string)
| Inserted (row : ResponseRow)
| Called (req : Request) (trace : list RetryEvent) (res : Result CompletionOutcome).

(** The environment of a run. *)
Record Env : Type := {
  JSON_parse : string -> option JsValue;
  retryAttempts : Z;                          (* llm.retryAttempts *)
  prompts : string -> option string;          (* the files of ../prompts *)
  provider : Request -> nat -> Exchange;      (* the exchange that invocation k of a call gets *)
  uuidv4 : nat -> string                      (* the n-th identifier drawn *)
}.

Record RunState : Type := {
  db : Db;
  log : list Event;
  drawn : nat
}.

Definition M (A : Type) : Type := RunState -> RunState * Result A.

Definition ret (A : Type) (a : A) : M A := fun st => (st, Return a).

Definition throw (A : Type) (t : Thrown) : M A := fun st => (st, Throw t).

Arguments throw {A} t.

Definition bind (A B : Type) (m : M A) (f : A -> M B) : M B :=
  fun st =>
    match m st with
    | (st', Return a) => f a st'
    | (st', Throw t) => (st', Throw t)
    end.

Notation "x <- m ;; k" := (bind m (fun x => k))
  (at level 61, m at next level, right associativity).
Notation "m ;;; k" := (bind m (fun _ => k))
  (at level 61, right associativity).

Definition emit (e : Event) (st : RunState) : RunState :=
  {| db := db st; log := (log st ++ [e])%list; drawn := drawn st |}.

Definition setStatus (sessionId status : string) : M unit :=
  fun st =>
    (emit (SetStatus sessionId status)
       {| db := updateStatus (db st) sessionId status; log := log st; drawn := drawn st |},
     Return tt).

Definition getMemo (sessionId : string) : M (option Memo) :=
  fun st => (st, Return (memos (db st) sessionId)).

Definition SCHEMAS_board_member : JsonSchema := {| schema_name := "board_member_output" |}.
Definition SCHEMAS_strategist : JsonSchema := {| schema_name := "strategist_synthesis" |}.

Definition boardPersonas : list (string * string) :=
  [("operator", "operator.txt"); ("finance", "finance.txt");
   ("craft-expert", "craft-expert.txt"); ("contrarian", "contrarian.txt")].

(** The arguments of the three kinds of call. *)
Definition secretaryRequest (prompt memoText : string) : Request :=
  {| req_instructions := prompt;
     req_input := memoText;
     req_options := {| jsonSchema := None; personaId := "secretary";
                      verbosity := "low"; includeReasoning := false |} |}.

Definition reviewRequest (prompt memoText id : string) : Request :=
  {| req_instructions := prompt;
     req_input := memoText;
     req_options := {| jsonSchema := Some SCHEMAS_board_member; personaId := id;
                      verbosity := "medium"; includeReasoning := false |} |}.

Definition strategistRequest (prompt synthesisInput : string) : Request :=
  {| req_instructions := prompt;
     req_input := synthesisInput;
     req_options := {| jsonSchema := Some SCHEMAS_strategist; personaId := "strategist";
                      verbosity := "medium"; includeReasoning := true |} |}.

Section Run.

Variable env : Env.

Definition noSuchFile (filename : string) : JsError :=
  mkError ("ENOENT: no such file or directory, open '" ++ filename ++ "'").

Definition loadPrompt (filename : string) : Result string :=
  match prompts env filename with
  | Some txt => Return txt
  | None => Throw (ThrownError (noSuchFile filename))
  end.

(** [llm.completeWithRetry(instructions, input, options)]. *)
Definition call (req : Request) : list RetryEvent * Result CompletionOutcome :=
  completeWithRetry (JSON_parse env) (retryAttempts env) (provider env req)
    (jsonSchema (req_options req)) None.

Definition callM (req : Request) : M CompletionOutcome :=
  fun st => let '(tr, res) := call req in (emit (Called req tr res) st, res).

Definition saveResponse (sessionId personaId : string) (result : CompletionOutcome) : M unit :=
  fun st =>
    let row := responseRow (uuidv4 env (drawn st)) sessionId personaId result in
    (emit (Inserted row)
       {| db := insertResponse (db st) row; log := log st; drawn := S (drawn st) |},
     Return tt).

Fixpoint saveAll (sessionId : string) (boardResults : list (string * CompletionOutcome))
  : M unit :=
  match boardResults with
  | [] => ret tt
  | (persona, result) :: r => saveResponse sessionId persona result ;;; saveAll sessionId r
  end.

(** *** Phase 2: the reviewers, concurrently *)

(** One reviewer task: the call it made if it got that far, the time at
    which it settled counted from the start of the phase, and how it
    settled. *)
Record Task : Type := {
  task_events : list Event;
  task_time : Z;
  task_result : Result (string * CompletionOutcome)
}.

Definition reviewTask (memoText : string) (p : string * string) : Task :=
  let '(id, file) := p in
  match loadPrompt file with
  | Throw t => {| task_events := []; task_time := 0; task_result := Throw t |}
  | Return prompt =>
      let req := reviewRequest prompt memoText id in
      let '(tr, res) := call req in
      {| task_events := [Called req tr res];
         task_time := elapsed tr;
         task_result :=
           match res with
           | Return result => Return (id, result)
           | Throw t => Throw t
           end |}
  end.

(** The rejection that [Promise.all] reports: the earliest one, and among
    rejections at the same instant the one of the earlier persona. *)
Fixpoint firstRejection (tasks : list Task) : option (Z * Thrown) :=
  match tasks with
  | [] => None
  | task :: r =>
      match task_result task with
      | Return _ => firstRejection r
      | Throw t =>
          match firstRejection r with
          | Some (time', t') =>
              if (time' <? task_time task)%Z then Some (time', t')
              else Some (task_time task, t)
          | None => Some (task_time task, t)
          end
      end
  end.

Fixpoint fulfilled (tasks : list Task) : list (string * CompletionOutcome) :=
  match tasks with
  | [] => []
  | task :: r =>
      match task_result task with
      | Return v => v :: fulfilled r
      | Throw _ => fulfilled r
      end
  end.

Definition promiseAll (tasks : list Task) : M (list (string * CompletionOutcome)) :=
  fun st =>
    ({| db := db st;
        log := (log st ++ flat_map task_events tasks)%list;
        drawn := drawn st |},
     match firstRejection tasks with
     | Some (_, t) => Throw t
     | None => Return (fulfilled tasks)
     end).

Definition liftR (A : Type) (r : Result A) : M A := fun st => (st, r).

(** *** The three phases *)

Record BoardRunResult : Type := {
  sessionId : string;
  status_of : string;
  secretary : CompletionOutcome;
  board : list (string * CompletionOutcome);
  strategist : CompletionOutcome;
  totalTokens : Z
}.

(** PHASE 1: the secretary. *)
Definition phase1 (memoText : string) : M CompletionOutcome :=
  secretaryPrompt <- liftR (loadPrompt "secretary.txt") ;;
  callM (secretaryRequest secretaryPrompt memoText).

(** PHASE 2: the board members in parallel, then their responses saved. *)
Definition phase2 (sessionId memoText : string) : M (list (string * CompletionOutcome)) :=
  boardResults <- promiseAll (map (reviewTask memoText) boardPersonas) ;;
  saveAll sessionId boardResults ;;;
  ret boardResults.

(** PHASE 3: the strategist, then its response saved. *)
Definition phase3 (sessionId : string) (memoData : Memo)
    (boardResults : list (string * CompletionOutcome)) : M CompletionOutcome :=
  strategistPrompt <- liftR (loadPrompt "strategist.txt") ;;
  synthesisInput <- liftR (formatSynthesisInput memoData boardResults) ;;
  strategistResult <- callM (strategistRequest strategistPrompt synthesisInput) ;;
  saveResponse sessionId "strategist" strategistResult ;;;
  ret strategistResult.

Definition runBoardMeeting (sessionId : string) : M BoardRunResult :=
  setStatus sessionId "running" ;;;
  memo <- getMemo sessionId ;;
  match memo with
  | None => throw (ThrownError (mkError "No memo found for session"))
  | Some memoData =>
      let memoText := formatMemoForPrompt memoData in
      secretaryResult <- phase1 memoText ;;
      boardResults <- phase2 sessionId memoText ;;
      strategistResult <- phase3 sessionId memoData boardResults ;;
      setStatus sessionId "complete" ;;;
      let totalTokens :=
        total (tokens secretaryResult) +
        fold_left (fun sum r => sum + total (tokens (snd r))) boardResults 0 +
        total (tokens strategistResult) in
      ret {| sessionId := sessionId;
             status_of := "complete";
             secretary := secretaryResult;
             board := boardResults;
             strategist := strategistResult;
             totalTokens := totalTokens |}
  end.

End Run.

(** A run starts with an empty log. *)
Definition fresh (d : Db) : RunState := {| db := d; log := []; drawn := 0 |}.

(** *** Reading the log *)

(** The values thrown by the calls that failed for good. *)
Definition failedCalls (l : list Event) : list Thrown :=
  flat_map (fun e => match e with Called _ _ (Throw t) => [t] | _ => [] end) l.

(** The calls that returned: persona and outcome. *)
Definition succeeded (l : list Event) : list (string * CompletionOutcome) :=
  flat_map (fun e =>
              match e with
              | Called req _ (Return o) => [(personaId (req_options req), o)]
              | _ => []
              end) l.

(** The personas for which a call was started. *)
Definition called (l : list Event) : list string :=
  flat_map (fun e =>
              match e with
              | Called req _ _ => [personaId (req_options req)]
              | _ => []
              end) l.

(** The rows inserted. *)
Definition inserted (l : list Event) : list ResponseRow :=
  flat_map (fun e => match e with Inserted row => [row] | _ => [] end) l.

End Orchestrator.

(* ================================================================== *)
(** ** Vocabulary of the properties *)

(** *** Searching a text, without regular expressions *)

Module TextSearch.

Fixpoint drop (n : nat) (s : string) : string :=
  match n, s with
  | O, _ => s
  | S n', String _ r => drop n' r
  | S _, EmptyString => EmptyString
  end.

(** The first occurrence of [needle] cuts the text in two: what comes
    before it and what comes after it. *)
Fixpoint splitAt (needle s : string) : option (string * string) :=
  if prefix needle s then Some (EmptyString, drop (String.length needle) s)
  else
    match s with
    | EmptyString => None
    | String c r =>
        match splitAt needle r with
        | Some (b, a) => Some (String c b, a)
        | None => None
        end
    end.

(** What stands between the first [opener] and the first [closer] after it. *)
Definition between (opener closer txt : string) : option string :=
  match splitAt opener txt with
  | Some (_, after) =>
      match splitAt closer after with
      | Some (body, _) => Some body
      | None => None
      end
  | None => None
  end.

(** The three places where the JSON is looked for, in order. *)
Definition candidate (rawText : string) : string :=
  match between "```json" "```" rawText with
  | Some b => b
  | None =>
      match between "```" "```" rawText with
      | Some b => b
      | None => rawText
      end
  end.

Definition hasFence (s : string) : bool :=
  match splitAt "```" s with Some _ => true | None => false end.

Fixpoint suffixes (s : string) : list string :=
  s :: match s with EmptyString => [] | String _ r => suffixes r end.

End TextSearch.

(** *** The parts of the two fence expressions *)

Module Fence.

Import Regex.

Definition closing : Regex := Seq (Opt (Chr "010")) (lit "```").
Definition inner : Regex := Seq (Group (LazyStar AnyChar)) closing.
Definition body_re : Regex := Seq (Opt (Chr "010")) inner.

End Fence.

(** *** The steps of a run *)

Module Steps.

Import LlmClient Orchestrator.

(** The rows that [saveAll] writes when [n] identifiers were drawn before. *)
Fixpoint rowsFrom (env : Env) (sid : string) (n : nat)
    (l : list (string * CompletionOutcome)) : list ResponseRow :=
  match l with
  | [] => []
  | (persona, result) :: r =>
      responseRow (uuidv4 env n) sid persona result :: rowsFrom env sid (S n) r
  end.

Definition withRows (st : RunState) (rows : list ResponseRow) (n : nat) : RunState :=
  {| db := {| sessions := sessions (db st); memos := memos (db st);
              responses := (responses (db st) ++ rows)%list |};
     log := (log st ++ map Inserted rows)%list;
     drawn := (drawn st + n)%nat |}.

Definition withLog (st : RunState) (es : list Event) : RunState :=
  {| db := db st; log := (log st ++ es)%list; drawn := drawn st |}.

Definition started (sid : string) (st : RunState) : RunState :=
  {| db := updateStatus (db st) sid "running";
     log := (log st ++ [SetStatus sid "running"])%list; drawn := drawn st |}.

Definition finished (sid : string) (st : RunState) : RunState :=
  {| db := updateStatus (db st) sid "complete";
     log := (log st ++ [SetStatus sid "complete"])%list; drawn := drawn st |}.

Definition resultOf (sid : string) (sec : CompletionOutcome)
    (brd : list (string * CompletionOutcome)) (syn : CompletionOutcome) : BoardRunResult :=
  {| sessionId := sid; status_of := "complete"; secretary := sec; board := brd;
     strategist := syn;
     totalTokens := total (tokens sec)
                    + fold_left (fun sum r => sum + total (tokens (snd r))) brd 0
                    + total (tokens syn) |}.

(** How one reviewer task can end. *)
Inductive TaskShape (id file : string) (task : Task) : Prop :=
| NoPrompt :
    task_events task = [] -> task_result task = Throw (ThrownError (noSuchFile file)) ->
    TaskShape id file task
| CallThrew (req : Request) (tr : list RetryEvent) (t : Thrown) :
    personaId (req_options req) = id ->
    task_events task = [Called req tr (Throw t)] -> task_result task = Throw t ->
    TaskShape id file task
| CallReturned (req : Request) (tr : list RetryEvent) (o : CompletionOutcome) :
    personaId (req_options req) = id ->
    task_events task = [Called req tr (Return o)] -> task_result task = Return (id, o) ->
    TaskShape id file task.

Definition sumZ (l : list Z) : Z := fold_right Z.add 0 l.

(** The six personas of a run, in the order of their calls. *)
Definition allPersonas : list string :=
  "secretary" :: (map fst boardPersonas ++ ["strategist"])%list.

(** The layout of the memo: a section is a header line and a body. *)
Definition section (header body : string) : string := nl ++ header ++ nl ++ body ++ nl.

Definition bullets (l : list string) : string := join nl (map (fun c => "- " ++ c) l).

Definition numbered (l : list string) : string :=
  join nl (mapIndexed (fun i q => ofZ (i + 1) ++ ". " ++ q) 0 l).

Definition constraintLines (c : Constraints) : list string :=
  ["- Time: " ++ orElse (time c) "Not specified";
   "- Budget: " ++ orElse (budget c) "Not specified";
   "- Risk Tolerance: " ++ orElse (risk_tolerance c) "Medium";
   if nonEmpty (orElse (politics c) "")
   then "- Political considerations: " ++ orElse (politics c) "" else ""].

Definition memoSections (memo : Memo) : list (string * string) :=
  [("### Context", bullets (context memo));
   ("### Decision Required", decision_required memo);
   ("### Options",
    join nl (mapIndexed (fun i o => ofZ (i + 1) ++ ". " ++ optionText o) 0 (options memo)));
   ("### Constraints", join nl (constraintLines (constraints memo)));
   ("### Success Metrics", bullets (success_metrics memo));
   ("### Questions for the Board", numbered (questions_for_board memo))].

Fixpoint layout (l : list (string * string)) : string :=
  match l with
  | [] => EmptyString
  | (h, b) :: r => section h b ++ layout r
  end.

End Steps.

(** *** The words of the specification *)

Module SpecWords.

Import LlmClient Orchestrator.

(** A fenced code block: the opening fence with its language label, the
    contents on the lines below it, and the closing fence. *)
Definition fenced (lang contents : string) : string :=
  "```" ++ lang ++ nl ++ contents ++ nl ++ "```".

(** A reviewer block in which the four fields read N/A. *)
Definition blockAllNA (persona : string) : string :=
  nl ++
  "### " ++ toUpperCase persona ++ nl ++
  "- **Position:** N/A" ++ nl ++
  "- **Top Reasons:** N/A" ++ nl ++
  "- **Top Risks:** N/A" ++ nl ++
  "- **Confidence:** N/A" ++ nl.

(** The line of a constraint that is missing. *)
Definition notSpecified (label : string) : string := "- " ++ label ++ ": Not specified".



(** The terminal states, as a session status. *)
Definition terminalStatus (s : option string) : bool :=
  match s with
  | Some x => (String.eqb x "complete" || String.eqb x "failed")%bool
  | None => false
  end.

End SpecWords.

(** *** Sample environments *)

Module Samples.

Import LlmClient Orchestrator.

(** A reviewer answer and a synthesis answer. *)
Definition reviewDoc : JsValue :=
  JObj [("position", JStr "Accept");
        ("top_reasons", JArr [JStr "pay"; JStr "growth"]);
        ("top_risks", JArr [JStr "burnout"]);
        ("recommended_modifications", JArr []);
        ("validation_metrics", JObj [("30_day", JArr []); ("90_day", JArr [])]);
        ("confidence", JStr "high")].

Definition synthesisDoc : JsValue :=
  JObj [("integrated_recommendation",
         JObj [("decision", JStr "Accept"); ("rationale", JStr "upside");
               ("reversibility", JStr "medium")]);
        ("decision_statement", JStr "Take the offer")].

(** A stand-in for [JSON.parse] that knows the texts of the documents of
    [docs] and rejects every other text. *)
Definition parseTable (docs : list JsValue) (s : string) : option JsValue :=
  find (fun d => String.eqb (stringify d) s) docs.

Definition sampleParse : string -> option JsValue := parseTable [reviewDoc; synthesisDoc].

Definition okData (txt : string) (tot : Z) : ResponseData :=
  {| data_output_text := Some txt;
     data_output := None;
     data_usage := Some {| input_tokens := Some 1; output_tokens := Some 2;
                           reasoning_tokens := None; total_tokens := Some tot |};
     data_id := Some "resp" |}.

Definition okX (txt : string) (tot : Z) : Exchange :=
  {| latency := 100;
     fetched := Resolved {| status := 200; text := ""; json := inr (okData txt tot) |} |}.

Definition failX (code : Z) (body : string) : Exchange :=
  {| latency := 50;
     fetched := Resolved {| status := code; text := body;
                            json := inl {| name := "SyntaxError"; message := "Unexpected token" |} |} |}.

Definition memo1 : Memo :=
  {| context := ["c1"; "c2"];
     decision_required := "Should I take the new job offer?";
     options := [OptionObject (Some "A") (Some "Accept");
                 OptionObject (Some "B") (Some "Decline")];
     constraints := {| time := None; budget := None;
                       risk_tolerance := None; politics := None |};
     success_metrics := [];
     questions_for_board := ["q1"] |}.

Definition db1 : Db :=
  {| sessions := fun i => if String.eqb i "s1" then Some "draft" else None;
     memos := fun i => if String.eqb i "s1" then Some memo1 else None;
     responses := [] |}.

Definition envWith (prov : Request -> nat -> Exchange) : Env :=
  {| JSON_parse := sampleParse;
     retryAttempts := 3;
     prompts := fun f => Some ("prompt " ++ f);
     provider := prov;
     uuidv4 := fun n => "id" ++ ofZ (Z.of_nat n) |}.

(** Every call succeeds at once. *)
Definition provOk (r : Request) (k : nat) : Exchange :=
  if String.eqb (personaId (req_options r)) "secretary" then okX "notes" 10
  else if String.eqb (personaId (req_options r)) "strategist" then okX (stringify synthesisDoc) 30
  else okX (stringify reviewDoc) 20.

(** The finance reviewer gets a 503 every time. *)
Definition provFinance503 (r : Request) (k : nat) : Exchange :=
  if String.eqb (personaId (req_options r)) "finance" then failX 503 "Service Unavailable"
  else provOk r k.

(** The secretary gets a 400. *)
Definition provSecretary400 (r : Request) (k : nat) : Exchange :=
  if String.eqb (personaId (req_options r)) "secretary" then failX 400 "Bad Request"
  else provOk r k.

(** The strategist gets a 500 every time. *)
Definition provStrategist500 (r : Request) (k : nat) : Exchange :=
  if String.eqb (personaId (req_options r)) "strategist" then failX 500 "Internal Server Error"
  else provOk r k.


(** A call that gets a 503 every time; the body of the second one has an
    opening parenthesis followed by a 4. *)
Definition always503 (k : nat) : Exchange := failX 503 "Service Unavailable".
Definition always503Paren (k : nat) : Exchange := failX 503 "overloaded (4 of 5 replicas down)".

(** An outcome whose text did not parse. *)
Definition nullResult : CompletionOutcome :=
  {| parsed := JNull;
     raw := "I cannot answer in JSON";
     tokens := {| input := 1; output := 2; reasoning := 0; total := 3 |};
     responseId := None |}.

End Samples.

From Stdlib Require DecimalPos.

(* ================================================================== *)
(** ** llm-client.js: the constructor and the parallel helper *)

Module ClientSetup.

Import LlmClient.

(** The value of a decimal digit. *)
Definition digitOf (c : ascii) : option Z :=
  let n := nat_of_ascii c in
  if ((48 <=? n) && (n <=? 57))%nat then Some (Z.of_nat (n - 48)) else None.

(** The number that the leading digits of [s] write, after [acc]. *)
Fixpoint digitsValue (acc : Z) (s : string) : Z :=
  match s with
  | EmptyString => acc
  | String c r =>
      match digitOf c with
      | Some v => digitsValue (10 * acc + v) r
      | None => acc
      end
  end.


(** [parseInt(s, 10)]: leading white space is skipped, one sign is read,
    then the digits as far as they go; [None] is [NaN].  An [undefined]
    argument is read as its text. *)
Definition parseInt (s : option string) : option Z :=
  let t := trimStart (match s with Some v => v | None => "undefined" end) in
  let '(negative, digits) :=
    match t with
    | String "-"%char r => (true, r)
    | String "+"%char r => (false, r)
    | _ => (false, t)
    end in
  match digits with
  | EmptyString => None
  | String c _ =>
      match digitOf c with
      | Some _ => Some (if negative then - digitsValue 0 digits else digitsValue 0 digits)
      | None => None
      end
  end.

(** [n || d] for a number that may be absent or [NaN]. *)
Definition numOr (n : option Z) (d : Z) : Z :=
  match n with
  | Some v => if (v =? 0)%Z then d else v
  | None => d
  end.

(** [process.env]: the variables that the client reads. *)
Record ProcessEnv : Type := {
  OPENAI_API_KEY : option string;
  LLM_MODEL : option string;
  LLM_MAX_TOKENS : option string;
  LLM_REASONING_EFFORT : option string;
  LLM_VERBOSITY : option string
}.

(** The [options] of the constructor. *)
Record ClientOptions : Type := {
  options_apiKey : option string;
  options_model : option string;
  options_maxTokens : option Z;
  options_reasoningEffort : option string;
  options_verbosity : option string;
  options_baseUrl : option string
}.

(** No option given: [new LLMClient()]. *)
Definition noOptions : ClientOptions :=
  {| options_apiKey := None; options_model := None; options_maxTokens := None;
     options_reasoningEffort := None; options_verbosity := None; options_baseUrl := None |}.

(** The [personas] entry of config.json: a number of attempts and the
    reasoning effort by persona.  It is the empty object when the file
    could not be read. *)
Record PersonasConfig : Type := {
  retry_attempts : option Z;
  reasoning_overrides : option (list (string * string))
}.

Record LLMClient : Type := {
  apiKey : string;
  model : string;
  maxTokens : Z;
  reasoningEffort : string;
  verbosity : string;
  baseUrl : string;
  retryAttempts : Z;
  reasoningOverrides : list (string * string)
}.

Definition keyIsNotSet : JsError :=
  mkError ("OPENAI_API_KEY is not set. Please create a .env file with your API key." ++ nl ++
           "Copy .env.example to .env and add your key.").

(** [new LLMClient(options)]. *)
Definition newLLMClient (personasConfig : PersonasConfig) (env : ProcessEnv)
    (options : ClientOptions) : Result LLMClient :=
  let key := orElse (options_apiKey options) (orElse (OPENAI_API_KEY env) "") in
  if negb (nonEmpty key) then Throw (ThrownError keyIsNotSet)
  else
    Return
      {| apiKey := key;
         model := orElse (options_model options) (orElse (LLM_MODEL env) "gpt-5.2");
         maxTokens := numOr (options_maxTokens options)
                        (numOr (parseInt (LLM_MAX_TOKENS env)) 4096);
         reasoningEffort := orElse (options_reasoningEffort options)
                              (orElse (LLM_REASONING_EFFORT env) "medium");
         verbosity := orElse (options_verbosity options) (orElse (LLM_VERBOSITY env) "medium");
         baseUrl := orElse (options_baseUrl options) "https://api.openai.com/v1";
         retryAttempts := numOr (retry_attempts personasConfig) 3;
         reasoningOverrides :=
           match reasoning_overrides personasConfig with Some o => o | None => [] end |}.

(** [getClient()]: the module keeps the client it has constructed, if
    any; the state is that variable. *)
Definition getClient (personasConfig : PersonasConfig) (env : ProcessEnv)
    (defaultClient : option LLMClient) : option LLMClient * Result LLMClient :=
  match defaultClient with
  | Some client => (defaultClient, Return client)
  | None =>
      match newLLMClient personasConfig env noOptions with
      | Return client => (Some client, Return client)
      | Throw t => (None, Throw t)
      end
  end.

(** [completeWithRetry] of a client, without [maxRetries]. *)
Definition completeWithRetryOf (parse : string -> option JsValue) (client : LLMClient)
    (provider : nat -> Exchange) (jsonSchema : option JsonSchema)
  : list RetryEvent * Result CompletionOutcome :=
  completeWithRetry parse (retryAttempts client) provider jsonSchema None.

End ClientSetup.

Module Parallel.

Import LlmClient.

(** One request of [completeParallel]: the exchange it gets and whether it
    asks for a schema.  Every request is started at the same instant and
    settles when its exchange ends. *)
Definition Settled : Type := (Z * (JsError + CompletionOutcome))%type.

Definition settle (parse : string -> option JsValue)
    (request : Exchange * option JsonSchema) : Settled :=
  (latency (fst request), complete parse (fst request) (snd request)).

(** The rejection that [Promise.all] reports: the earliest one, and among
    rejections at the same instant the one of the earlier request. *)
Fixpoint firstFailure (l : list Settled) : option (Z * JsError) :=
  match l with
  | [] => None
  | (_, inr _) :: r => firstFailure r
  | (tm, inl e) :: r =>
      match firstFailure r with
      | Some (tm', e') => if (tm' <? tm)%Z then Some (tm', e') else Some (tm, e)
      | None => Some (tm, e)
      end
  end.

Fixpoint outcomes (l : list Settled) : list CompletionOutcome :=
  match l with
  | [] => []
  | (_, inr o) :: r => o :: outcomes r
  | (_, inl _) :: r => outcomes r
  end.

(** [Promise.all(requests.map(r => this.complete(...)))]. *)
Definition completeParallel (parse : string -> option JsValue)
    (requests : list (Exchange * option JsonSchema)) : Result (list CompletionOutcome) :=
  let settled := map (settle parse) requests in
  match firstFailure settled with
  | Some (_, e) => Throw (ThrownError e)
  | None => Return (outcomes settled)
  end.

End Parallel.

(* ================================================================== *)
(** ** routes/sessions.js: running the board meeting *)

Module SessionsRoute.

Import LlmClient Orchestrator.

Inductive ReplyBody : Type :=
| ResultBody (result : BoardRunResult)       (* res.json(result) *)
| ErrorBody (error : string).                (* res.json({ error }) *)

Record Reply : Type := { code : Z; body : ReplyBody }.

(** Reading [message] of [undefined] in the [catch] block. *)
Definition cannotReadMessage : JsError :=
  {| name := "TypeError";
     message := "Cannot read properties of undefined (reading 'message')" |}.

(** The handler of [POST /:id/run]: the reply it sends, or what it throws
    itself. *)
Definition postRun (env : Env) (id : string) (st : RunState) : RunState * Result Reply :=
  match runBoardMeeting env id st with
  | (st', Return result) => (st', Return {| code := 200; body := ResultBody result |})
  | (st', Throw (ThrownError error)) =>
      (st', Return {| code := 500; body := ErrorBody (message error) |})
  | (st', Throw ThrownUndefined) => (st', Throw (ThrownError cannotReadMessage))
  end.

End SessionsRoute.

(* ================================================================== *)
(** ** More vocabulary *)

(** *** Reading a retry trace and the log of a run *)

Module Traces.

Import LlmClient Orchestrator.

(** The warnings of a call: attempt number and message. *)
Definition warnings (tr : list RetryEvent) : list (Z * string) :=
  flat_map (fun e => match e with Warned a _ m => [(a, m)] | _ => [] end) tr.

(** The requests of the calls of a run, in order. *)
Definition requests (l : list Event) : list Request :=
  flat_map (fun e => match e with Called req _ _ => [req] | _ => [] end) l.

(** How many times the provider was invoked over a whole run. *)
Definition providerInvocations (l : list Event) : nat :=
  fold_right (fun e n => match e with Called _ tr _ => (invocations tr + n)%nat | _ => n end)
    0%nat l.

(** The statuses written, in order. *)
Definition statuses (l : list Event) : list string :=
  flat_map (fun e => match e with SetStatus _ s => [s] | _ => [] end) l.

End Traces.

(** *** The text of a response and of a fenced block *)

Module Texts.

Import LlmClient Orchestrator.

Fixpoint flatten (l : list string) : string :=
  match l with
  | [] => EmptyString
  | s :: r => s ++ flatten r
  end.

Definition isTextPart (c : ContentPart) : bool :=
  (String.eqb (part_type c) "output_text" || String.eqb (part_type c) "text")%bool.

(** The texts of the text parts of the message items, in order. *)
Definition textSegments (items : list OutputItem) : list string :=
  flat_map (fun i =>
              if String.eqb (item_type i) "message" then
                match item_content i with
                | Some parts =>
                    map (fun c => match part_text c with Some s => s | None => EmptyString end)
                      (filter isTextPart parts)
                | None => []
                end
              else []) items.

(** No backtick in a text. *)
Fixpoint noBacktick (s : string) : bool :=
  match s with
  | EmptyString => true
  | String c r => (negb (Ascii.eqb c "`") && noBacktick r)%bool
  end.

(** A value on which [(v || []).join] works: an array, or anything falsy. *)
Definition joinable (v : option JsValue) : bool :=
  match v with
  | Some (JArr _) => true
  | Some x => negb (truthy x)
  | None => true
  end.

(** A reviewer outcome whose reasons and risks can be joined. *)
Definition renderable (r : string * CompletionOutcome) : bool :=
  (joinable (get (parsedOrEmpty (snd r)) "top_reasons") &&
   joinable (get (parsedOrEmpty (snd r)) "top_risks"))%bool.

End Texts.

(** *** The ways a run can go *)

Module RunCases.

Import LlmClient Orchestrator Steps.

Section Cases.

Variable env : Env.
Variable sid : string.
Variable d : Db.

(** A reviewer whose prompt file can be read. *)
Definition hasPrompt (p : string * string) : bool :=
  match prompts env (snd p) with Some _ => true | None => false end.

Definition reviewTasks (memo : Memo) : list Task :=
  map (reviewTask env (formatMemoForPrompt memo)) boardPersonas.

(** The state after the secretary's call, after the reviewers' calls,
    after their rows are saved, after the strategist's call. *)
Definition afterSecretary (memo : Memo) (sp : string) (tr : list RetryEvent)
    (res : Result CompletionOutcome) : RunState :=
  withLog (started sid (fresh d))
    [Called (secretaryRequest sp (formatMemoForPrompt memo)) tr res].

Definition afterReview (memo : Memo) (sp : string) (tr : list RetryEvent)
    (sec : CompletionOutcome) : RunState :=
  withLog (afterSecretary memo sp tr (Return sec)) (flat_map task_events (reviewTasks memo)).

Definition afterSave (memo : Memo) (sp : string) (tr : list RetryEvent)
    (sec : CompletionOutcome) : RunState :=
  withRows (afterReview memo sp tr sec)
    (rowsFrom env sid 0 (fulfilled (reviewTasks memo)))
    (List.length (fulfilled (reviewTasks memo))).

Definition afterStrategist (memo : Memo) (sp : string) (tr : list RetryEvent)
    (sec : CompletionOutcome) (stp txt : string) (tr' : list RetryEvent)
    (res : Result CompletionOutcome) : RunState :=
  withLog (afterSave memo sp tr sec) [Called (strategistRequest stp txt) tr' res].

(** Where a run ends and with what, by the first thing that goes wrong. *)
Inductive RunCase : RunState -> Result BoardRunResult -> Prop :=
| NoMemo :
    memos d sid = None ->
    RunCase (started sid (fresh d)) (Throw (ThrownError (mkError "No memo found for session")))
| NoSecretaryPrompt (memo : Memo) :
    memos d sid = Some memo ->
    prompts env "secretary.txt" = None ->
    RunCase (started sid (fresh d)) (Throw (ThrownError (noSuchFile "secretary.txt")))
| SecretaryThrew (memo : Memo) (sp : string) (tr : list RetryEvent) (t : Thrown) :
    memos d sid = Some memo ->
    prompts env "secretary.txt" = Some sp ->
    call env (secretaryRequest sp (formatMemoForPrompt memo)) = (tr, Throw t) ->
    RunCase (afterSecretary memo sp tr (Throw t)) (Throw t)
| ReviewRejected (memo : Memo) (sp : string) (tr : list RetryEvent) (sec : CompletionOutcome)
    (tm : Z) (t : Thrown) :
    memos d sid = Some memo ->
    prompts env "secretary.txt" = Some sp ->
    call env (secretaryRequest sp (formatMemoForPrompt memo)) = (tr, Return sec) ->
    firstRejection (reviewTasks memo) = Some (tm, t) ->
    RunCase (afterReview memo sp tr sec) (Throw t)
| NoStrategistPrompt (memo : Memo) (sp : string) (tr : list RetryEvent)
    (sec : CompletionOutcome) :
    memos d sid = Some memo ->
    prompts env "secretary.txt" = Some sp ->
    call env (secretaryRequest sp (formatMemoForPrompt memo)) = (tr, Return sec) ->
    firstRejection (reviewTasks memo) = None ->
    prompts env "strategist.txt" = None ->
    RunCase (afterSave memo sp tr sec) (Throw (ThrownError (noSuchFile "strategist.txt")))
| InputThrew (memo : Memo) (sp : string) (tr : list RetryEvent) (sec : CompletionOutcome)
    (stp : string) (t : Thrown) :
    memos d sid = Some memo ->
    prompts env "secretary.txt" = Some sp ->
    call env (secretaryRequest sp (formatMemoForPrompt memo)) = (tr, Return sec) ->
    firstRejection (reviewTasks memo) = None ->
    prompts env "strategist.txt" = Some stp ->
    formatSynthesisInput memo (fulfilled (reviewTasks memo)) = Throw t ->
    RunCase (afterSave memo sp tr sec) (Throw t)
| StrategistThrew (memo : Memo) (sp : string) (tr : list RetryEvent) (sec : CompletionOutcome)
    (stp txt : string) (tr' : list RetryEvent) (t : Thrown) :
    memos d sid = Some memo ->
    prompts env "secretary.txt" = Some sp ->
    call env (secretaryRequest sp (formatMemoForPrompt memo)) = (tr, Return sec) ->
    firstRejection (reviewTasks memo) = None ->
    prompts env "strategist.txt" = Some stp ->
    formatSynthesisInput memo (fulfilled (reviewTasks memo)) = Return txt ->
    call env (strategistRequest stp txt) = (tr', Throw t) ->
    RunCase (afterStrategist memo sp tr sec stp txt tr' (Throw t)) (Throw t)
| Completed (memo : Memo) (sp : string) (tr : list RetryEvent) (sec : CompletionOutcome)
    (stp txt : string) (tr' : list RetryEvent) (syn : CompletionOutcome) :
    memos d sid = Some memo ->
    prompts env "secretary.txt" = Some sp ->
    call env (secretaryRequest sp (formatMemoForPrompt memo)) = (tr, Return sec) ->
    firstRejection (reviewTasks memo) = None ->
    prompts env "strategist.txt" = Some stp ->
    formatSynthesisInput memo (fulfilled (reviewTasks memo)) = Return txt ->
    call env (strategistRequest stp txt) = (tr', Return syn) ->
    RunCase
      (finished sid
         (withRows (afterStrategist memo sp tr sec stp txt tr' (Return syn))
            [responseRow (uuidv4 env (List.length (fulfilled (reviewTasks memo)))) sid
               "strategist" syn] 1))
      (Return (resultOf sid sec (fulfilled (reviewTasks memo)) syn)).

End Cases.

End RunCases.

(** *** More sample environments *)

Module MoreSamples.

Import LlmClient Orchestrator Samples.





(** No attempt is allowed. *)
Definition envNoAttempt : Env :=
  {| JSON_parse := sampleParse;
     retryAttempts := 0;
     prompts := fun f => Some ("prompt " ++ f);
     provider := provOk;
     uuidv4 := fun n => "id" ++ ofZ (Z.of_nat n) |}.

(** A database with a second session, a memo for it and a row of it. *)
Definition db2 : Db :=
  {| sessions := fun i => if String.eqb i "s1" then Some "draft"
                          else if String.eqb i "s2" then Some "complete" else None;
     memos := fun i => if String.eqb i "s1" then Some memo1 else None;
     responses := [responseRow "old" "s2" "operator" nullResult] |}.

(** A database in which the session has no memo. *)
Definition dbNoMemo : Db :=
  {| sessions := fun i => if String.eqb i "s1" then Some "draft" else None;
     memos := fun _ => None;
     responses := [] |}.

(** A response with its text in the output array only. *)
Definition arrayData : ResponseData :=
  {| data_output_text := None;
     data_output :=
       Some [ {| item_type := "reasoning"; item_content := None |};
              {| item_type := "message";
                 item_content :=
                   Some [ {| part_type := "output_text"; part_text := Some "Hello, " |};
                          {| part_type := "refusal"; part_text := Some "no" |};
                          {| part_type := "text"; part_text := Some "world" |} ] |} ];
     data_usage := None;
     data_id := None |}.

End MoreSamples.

(* ================================================================== *)
(** * Properties *)

Import Regex LlmClient Orchestrator TextSearch Fence Steps SpecWords Samples.

(** ** The fence expressions find what a plain search finds *)

Section FenceFacts.

Lemma run_lit (p : string) : forall st,
  run (lit p) st =
  if prefix p (rest st)
  then [{| rest := drop (String.length p) (rest st); cap := cap st |}] else [].
Proof.
  induction p as [|c p IH]; intros [s cp]; simpl.
  - destruct s; reflexivity.
  - destruct s as [|c' s']; simpl; [reflexivity|].
    destruct (Ascii.eqb_spec c c') as [->|Hne].
    + destruct (ascii_dec c' c') as [_|n]; [|congruence].
      simpl. rewrite IH. simpl. rewrite app_nil_r. reflexivity.
    + destruct (ascii_dec c c'); [congruence|]. reflexivity.
Qed.

Lemma run_seq_lit (p : string) (r : Regex) (st : MState) :
  run (Seq (lit p) r) st =
  if prefix p (rest st)
  then run r {| rest := drop (String.length p) (rest st); cap := cap st |} else [].
Proof.
  simpl. rewrite run_lit. destruct (prefix p (rest st)); simpl; [apply app_nil_r|reflexivity].
Qed.


Lemma star_any (c0 : option string) : forall n s, (String.length s <= n)%nat ->
  star (run AnyChar) n {| rest := s; cap := c0 |} =
  map (fun s' => {| rest := s'; cap := c0 |}) (suffixes s).
Proof.
  induction n as [|n IH]; intros s Hn.
  - destruct s; simpl in *; [reflexivity|lia].
  - destruct s as [|c s]; simpl.
    + reflexivity.
    + f_equal. rewrite app_nil_r.
      destruct (Nat.ltb_spec (String.length s) (S (String.length s))); [|lia].
      apply IH. simpl in Hn. lia.
Qed.


Lemma prefix_cons (a c : ascii) (p s : string) :
  prefix (String a p) (String c s) = if ascii_dec a c then prefix p s else false.
Proof. reflexivity. Qed.

Lemma run_closing (st : MState) :
  run closing st =
  if prefix (nl ++ "```") (rest st)
  then [{| rest := drop 4 (rest st); cap := cap st |}]
  else if prefix "```" (rest st)
       then [{| rest := drop 3 (rest st); cap := cap st |}] else [].
Proof.
  unfold closing. destruct st as [s c0].
  change (run (Seq (Opt (Chr "010")) (lit "```")) {| rest := s; cap := c0 |})
    with (flat_map (run (lit "```")) (run (Chr "010") {| rest := s; cap := c0 |} ++ [{| rest := s; cap := c0 |}])%list).
  rewrite flat_map_app. cbn [flat_map]. rewrite !app_nil_r.
  destruct s as [|c s1].
  - reflexivity.
  - cbn [run rest cap].
    destruct (Ascii.eqb_spec "010"%char c) as [<-|Hne].
    + cbn [flat_map]. rewrite app_nil_r, !run_lit. cbn [rest cap String.length].
      change (prefix (nl ++ "```") (String "010" s1)) with (prefix "```" s1).
      change (prefix "```" (String "010" s1)) with false.
      destruct (prefix "```" s1); reflexivity.
    + cbn [flat_map app]. rewrite run_lit. cbn [rest cap String.length].
      assert (Hp : prefix (nl ++ "```") (String c s1) = false).
      { change (nl ++ "```") with (String "010" "```"). rewrite prefix_cons.
        destruct (ascii_dec "010" c); [congruence|reflexivity]. }
      rewrite Hp. reflexivity.
Qed.

Lemma splitAt_here (needle s : string) :
  prefix needle s = true -> splitAt needle s = Some (EmptyString, drop (String.length needle) s).
Proof. intros H. destruct s; cbn [splitAt]; rewrite H; reflexivity. Qed.

Lemma splitAt_later (needle : string) (c : ascii) (s : string) :
  prefix needle (String c s) = false ->
  splitAt needle (String c s) =
  match splitAt needle s with Some (b, a) => Some (String c b, a) | None => None end.
Proof. intros H. cbn [splitAt]. rewrite H. reflexivity. Qed.

Lemma scan_spec (f : string -> string) : forall s,
  match flat_map (run closing)
          (map (fun s' => {| rest := s'; cap := Some (f s') |}) (suffixes s)) with
  | [] => splitAt "```" s = None
  | st :: _ =>
      exists g s' after,
        s = g ++ s' /\ cap st = Some (f s') /\
        (splitAt "```" s = Some (g, after) \/ splitAt "```" s = Some (g ++ nl, after))
  end.
Proof.
  induction s as [|c s1 IH].
  - reflexivity.
  - cbn [suffixes map flat_map]. rewrite run_closing. cbn [rest cap].
    destruct (prefix (nl ++ "```") (String c s1)) eqn:P1.
    + cbn [app]. exists EmptyString, (String c s1), (drop 3 s1).
      split; [reflexivity|]. split; [reflexivity|]. right.
      assert (c = "010"%char /\ prefix "```" s1 = true) as [-> P].
      { change (nl ++ "```") with (String "010" "```") in P1. rewrite prefix_cons in P1.
        destruct (ascii_dec "010" c); [split; [congruence|exact P1]|discriminate]. }
      rewrite (splitAt_later "```" "010" s1) by reflexivity. rewrite (splitAt_here _ _ P). reflexivity.
    + destruct (prefix "```" (String c s1)) eqn:P2.
      * cbn [app]. exists EmptyString, (String c s1), (drop 3 (String c s1)).
        split; [reflexivity|]. split; [reflexivity|]. left.
        rewrite (splitAt_here _ _ P2). reflexivity.
      * cbn [app]. rewrite (splitAt_later _ _ _ P2).
        destruct (flat_map (run closing)
                    (map (fun s' => {| rest := s'; cap := Some (f s') |}) (suffixes s1)))
          as [|st l].
        -- rewrite IH. reflexivity.
        -- destruct IH as (g & s' & after & E & C & [S|S]).
           ++ exists (String c g), s', after. rewrite S, E. auto.
           ++ exists (String c g), s', after. rewrite S, E. auto.
Qed.

Lemma length_append (a b : string) :
  String.length (a ++ b) = (String.length a + String.length b)%nat.
Proof. induction a; simpl; auto. Qed.

Lemma substring_prefix (a b : string) : substring 0 (String.length a) (a ++ b) = a.
Proof.
  induction a as [|c a IH]; simpl.
  - destruct b; reflexivity.
  - rewrite IH. reflexivity.
Qed.

Lemma consumed_append (g s' : string) : consumed (g ++ s') s' = g.
Proof.
  unfold consumed. rewrite length_append.
  replace (String.length g + String.length s' - String.length s')%nat
    with (String.length g) by lia.
  apply substring_prefix.
Qed.

Lemma run_inner (s : string) (c0 : option string) :
  match run inner {| rest := s; cap := c0 |} with
  | [] => splitAt "```" s = None
  | st :: _ =>
      exists g after,
        cap st = Some g /\
        (splitAt "```" s = Some (g, after) \/ splitAt "```" s = Some (g ++ nl, after))
  end.
Proof.
  unfold inner.
  change (run (Seq (Group (LazyStar AnyChar)) closing) {| rest := s; cap := c0 |})
    with (flat_map (run closing)
            (map (fun st' => {| rest := rest st'; cap := Some (consumed s (rest st')) |})
               (star (run AnyChar) (String.length s) {| rest := s; cap := c0 |}))).
  rewrite star_any by lia. rewrite map_map. cbn [rest].
  pose proof (scan_spec (consumed s) s) as H.
  destruct (flat_map (run closing)
              (map (fun x => {| rest := x; cap := Some (consumed s x) |}) (suffixes s)))
    as [|st l].
  - exact H.
  - destruct H as (g & s' & after & E & C & S).
    exists g, after. split; [|exact S].
    rewrite C. f_equal. rewrite E. apply consumed_append.
Qed.


Lemma trimEnd_nl (y : string) : trimEnd (y ++ nl) = trimEnd y.
Proof.
  induction y as [|c y IH].
  - reflexivity.
  - cbn [append trimEnd]. rewrite IH. reflexivity.
Qed.

Lemma trimStart_nl (x : string) :
  trimStart (x ++ nl) = trimStart x ++ nl \/
  (trimStart x = EmptyString /\ trimStart (x ++ nl) = EmptyString).
Proof.
  induction x as [|c x IH].
  - right. split; reflexivity.
  - cbn [append trimStart]. destruct (isWhiteSpace c).
    + exact IH.
    + left. reflexivity.
Qed.

Lemma trim_nl_r (x : string) : trim (x ++ nl) = trim x.
Proof.
  unfold trim. destruct (trimStart_nl x) as [E|[E1 E2]].
  - rewrite E. apply trimEnd_nl.
  - rewrite E1, E2. reflexivity.
Qed.

Lemma trim_nl_l (x : string) : trim (nl ++ x) = trim x.
Proof. reflexivity. Qed.

Lemma run_body (s : string) (c0 : option string) :
  match run body_re {| rest := s; cap := c0 |} with
  | [] => splitAt "```" s = None
  | st :: _ =>
      exists g body after,
        cap st = Some g /\ splitAt "```" s = Some (body, after) /\ trim g = trim body
  end.
Proof.
  unfold body_re.
  change (run (Seq (Opt (Chr "010")) inner) {| rest := s; cap := c0 |})
    with (flat_map (run inner)
            (run (Chr "010") {| rest := s; cap := c0 |} ++ [{| rest := s; cap := c0 |}])%list).
  rewrite flat_map_app. cbn [flat_map]. rewrite app_nil_r.
  pose proof (run_inner s c0) as Hs.
  destruct s as [|c s1].
  - cbn [run rest flat_map app].
    destruct (run inner {| rest := ""; cap := c0 |}) as [|st l]; [exact Hs|].
    destruct Hs as (g & after & C & [S|S]); discriminate S.
  - cbn [run rest cap].
    destruct (Ascii.eqb_spec "010"%char c) as [<-|Hne].
    + cbn [flat_map]. rewrite app_nil_r.
      pose proof (run_inner s1 c0) as H1.
      assert (Hsp : splitAt "```" (String "010" s1) =
                    match splitAt "```" s1 with
                    | Some (b, a) => Some (String "010" b, a) | None => None end).
      { apply splitAt_later. reflexivity. }
      destruct (run inner {| rest := s1; cap := c0 |}) as [|st l].
      * cbn [app]. rewrite H1 in Hsp.
        destruct (run inner {| rest := String "010" s1; cap := c0 |}) as [|st l]; [exact Hsp|].
        destruct Hs as (g & after & C & [S|S]); rewrite Hsp in S; discriminate S.
      * cbn [app]. destruct H1 as (g & after & C & [S|S]); rewrite S in Hsp.
        -- exists g, (String "010" g), after. repeat split; auto.
        -- exists g, (String "010" (g ++ nl)), after. repeat split; auto.
           change (String "010" (g ++ nl)) with (nl ++ (g ++ nl)).
           rewrite trim_nl_l, trim_nl_r. reflexivity.
    + cbn [flat_map app].
      destruct (run inner {| rest := String c s1; cap := c0 |}) as [|st l]; [exact Hs|].
      destruct Hs as (g & after & C & [S|S]).
      * exists g, g, after. auto.
      * exists g, (g ++ nl), after. repeat split; auto. symmetry. apply trim_nl_r.
Qed.


Lemma hasFence_tail (c : ascii) (s : string) : hasFence s = true -> hasFence (String c s) = true.
Proof.
  unfold hasFence. cbn [splitAt]. destruct (prefix "```" (String c s)); [reflexivity|].
  destruct (splitAt "```" s) as [[b a]|]; [reflexivity|discriminate].
Qed.

Lemma hasFence_drop (n : nat) : forall s, hasFence (drop n s) = true -> hasFence s = true.
Proof.
  induction n as [|n IH]; intros s H; [exact H|].
  destruct s as [|c s]; [exact H|]. apply hasFence_tail, IH, H.
Qed.

Lemma drop_drop (a : nat) : forall b s, drop a (drop b s) = drop (b + a) s.
Proof.
  intros b. induction b as [|b IH]; intros s; [reflexivity|].
  destruct s as [|c s]; cbn [drop Nat.add].
  - destruct a; reflexivity.
  - apply IH.
Qed.

Lemma splitAt_drop (p : string) : forall s b after,
  splitAt p s = Some (b, after) -> after = drop (String.length b + String.length p) s.
Proof.
  induction s as [|c s IH]; intros b after H; cbn [splitAt] in H.
  - destruct (prefix p ""); [|discriminate]. inversion H; subst. reflexivity.
  - destruct (prefix p (String c s)).
    + inversion H; subst. reflexivity.
    + destruct (splitAt p s) as [[b' a']|] eqn:E; [|discriminate].
      inversion H; subst. cbn [String.length Nat.add drop]. apply IH. reflexivity.
Qed.

Lemma exec_fence (a : ascii) (p' : string) : forall txt,
  exec (Seq (lit (String a p')) body_re) txt =
  match splitAt (String a p') txt with
  | None => None
  | Some (_, after) =>
      match run body_re {| rest := after; cap := None |} with
      | [] => None
      | st :: _ => Some (cap st)
      end
  end.
Proof.
  induction txt as [|c s IH].
  - cbn [exec splitAt]. rewrite run_seq_lit. reflexivity.
  - cbn [exec]. rewrite run_seq_lit. cbn [rest cap].
    destruct (prefix (String a p') (String c s)) eqn:P.
    + rewrite (splitAt_here _ _ P).
      cbn [String.length drop].
      pose proof (run_body (drop (String.length p') s) None) as Hb.
      destruct (run body_re {| rest := drop (String.length p') s; cap := None |}) as [|st l];
        [|reflexivity].
      rewrite IH.
      destruct (splitAt (String a p') s) as [[b after2]|] eqn:E; [|reflexivity].
      pose proof (run_body after2 None) as H2.
      destruct (run body_re {| rest := after2; cap := None |}) as [|st l]; [reflexivity|].
      exfalso. destruct H2 as (g & body & aft & _ & S2 & _).
      apply splitAt_drop in E. cbn [String.length] in E.
      assert (F : hasFence (drop (String.length p') s) = true).
      { apply (hasFence_drop (S (String.length b))). rewrite drop_drop.
        replace (String.length p' + S (String.length b))%nat
          with (String.length b + S (String.length p'))%nat by lia.
        rewrite <- E. unfold hasFence. rewrite S2. reflexivity. }
      unfold hasFence in F. rewrite Hb in F. discriminate F.
    + rewrite (splitAt_later _ _ _ P). rewrite IH.
      destruct (splitAt (String a p') s) as [[b after]|]; reflexivity.
Qed.

Lemma exec_between (a : ascii) (p' : string) (txt : string) :
  match exec (Seq (lit (String a p')) body_re) txt with
  | None => between (String a p') "```" txt = None
  | Some m =>
      exists g body,
        m = Some g /\ between (String a p') "```" txt = Some body /\ trim g = trim body
  end.
Proof.
  rewrite exec_fence. unfold between.
  destruct (splitAt (String a p') txt) as [[b after]|]; [|reflexivity].
  pose proof (run_body after None) as H.
  destruct (run body_re {| rest := after; cap := None |}) as [|st l].
  - rewrite H. reflexivity.
  - destruct H as (g & body & aft & C & S & T).
    exists g, body. rewrite S. auto.
Qed.

Lemma jsonStr_candidate (rawText : string) :
  jsonStr rawText = Some (trim (candidate rawText)).
Proof.
  unfold jsonStr, jsonMatch, candidate.
  pose proof (exec_between "`" "``json" rawText) as H1.
  change (Seq (lit "```json") body_re) with fenceJson in H1.
  destruct (exec fenceJson rawText) as [m|].
  - destruct H1 as (g & body & -> & B & T). rewrite B, T. reflexivity.
  - rewrite H1.
    pose proof (exec_between "`" "``" rawText) as H2.
    change (Seq (lit "```") body_re) with fenceAny in H2.
    destruct (exec fenceAny rawText) as [m|].
    + destruct H2 as (g & body & -> & B & T). rewrite B, T. reflexivity.
    + rewrite H2. reflexivity.
Qed.

End FenceFacts.

(** ** The retry loop *)

Section RetryFacts.

Variable parse : string -> option JsValue.
Variable provider : nat -> Exchange.
Variable schema : option JsonSchema.

Lemma complete_http_error (x : Exchange) (r : Response) :
  fetched x = Resolved r -> ok r = false ->
  complete parse x schema =
    inl (mkError ("OpenAI Responses API error (" ++ ofZ (status r) ++ "): " ++ text r)).
Proof.
  intros Hf Hok. unfold complete. rewrite Hf, Hok. reflexivity.
Qed.

Lemma complete_http_ok (x : Exchange) (r : Response) (data : ResponseData) :
  fetched x = Resolved r -> ok r = true -> json r = inr data ->
  complete parse x schema =
    inr (parseResponse parse data (match schema with Some _ => true | None => false end)).
Proof.
  intros Hf Hok Hj. unfold complete. rewrite Hf, Hok, Hj. reflexivity.
Qed.


Lemma retryLoop_throws_last (retries : Z) (fuel : nat) :
  forall (attempt : Z) (k : nat) (lastError : Thrown) tr t,
    retryLoop parse provider schema retries fuel attempt k lastError = (tr, Throw t) ->
    (tr = [] /\ t = lastError) \/
    (exists e, complete parse (provider (k + invocations tr - 1)%nat) schema = inl e /\
               t = ThrownError e /\ (1 <= invocations tr)%nat).
Proof.
  induction fuel as [|fuel IH]; intros attempt k lastError tr t H; simpl in H.
  - inversion H; subst. left. split; reflexivity.
  - destruct (attempt <=? retries)%Z.
    2:{ inversion H; subst. left. split; reflexivity. }
    destruct (complete parse (provider k) schema) as [error|outcome] eqn:Hc.
    2:{ discriminate H. }
    destruct (includes "(4" (message error)).
    + inversion H; subst. right. exists error. cbn.
      replace (k + 1 - 1)%nat with k by lia. repeat split; auto.
    + destruct (retryLoop parse provider schema retries fuel (attempt + 1) (S k)
                  (ThrownError error)) as [later res] eqn:Hrec.
      inversion H; subst. clear H.
      assert (Hinv : invocations
                (([Fetched (latency (provider k)); Warned attempt retries (message error)] ++
                 (if (attempt <? retries)%Z then [Slept (2 ^ attempt * 1000)] else []) ++ later)%list)
              = S (invocations later)).
      { unfold invocations. cbn. destruct (attempt <? retries)%Z; reflexivity. }
      cbn [app] in Hinv. rewrite Hinv. right.
      destruct (IH _ _ _ _ _ Hrec) as [[Hnil Ht] | [e [He [Ht Hn]]]].
      * subst. exists error. cbn. replace (k + 1 - 1)%nat with k by lia. repeat split; auto.
      * exists e. replace (k + S (invocations later) - 1)%nat with (S k + invocations later - 1)%nat by lia.
        repeat split; auto; lia.
Qed.
End RetryFacts.


(** ** The steps of a run *)

Section RunFacts.

Variable env : Env.
Variable sid : string.



Lemma saveAll_spec (l : list (string * CompletionOutcome)) : forall st,
  saveAll env sid l st = (withRows st (rowsFrom env sid (drawn st) l) (List.length l), Return tt).
Proof.
  unfold withRows.
  induction l as [|[persona result] r IH]; intros [[se me re] lg dr].
  - cbn. rewrite !app_nil_r, Nat.add_0_r. reflexivity.
  - cbn [saveAll]. unfold bind at 1. cbn [saveResponse emit db log drawn insertResponse
      sessions memos responses].
    rewrite IH. unfold emit, insertResponse.
    cbn [db log drawn sessions memos responses rowsFrom map List.length].
    rewrite <- !app_assoc. cbn [app]. rewrite Nat.add_succ_r. reflexivity.
Qed.


Lemma phase1_eq (memoText : string) (st : RunState) :
  phase1 env memoText st =
  match prompts env "secretary.txt" with
  | None => (st, Throw (ThrownError (noSuchFile "secretary.txt")))
  | Some sp =>
      let req := secretaryRequest sp memoText in
      (withLog st [Called req (fst (call env req)) (snd (call env req))], snd (call env req))
  end.
Proof.
  unfold phase1, bind, liftR, loadPrompt, callM.
  destruct (prompts env "secretary.txt") as [sp|]; [|reflexivity].
  destruct (call env (secretaryRequest sp memoText)) as [tr res].
  destruct res; reflexivity.
Qed.

Lemma phase2_eq (memoText : string) (st : RunState) :
  phase2 env sid memoText st =
  let tasks := map (reviewTask env memoText) boardPersonas in
  let st' := withLog st (flat_map task_events tasks) in
  match firstRejection tasks with
  | Some (_, t) => (st', Throw t)
  | None =>
      (withRows st' (rowsFrom env sid (drawn st) (fulfilled tasks)) (List.length (fulfilled tasks)),
       Return (fulfilled tasks))
  end.
Proof.
  unfold phase2, bind, promiseAll. cbv zeta.
  destruct (firstRejection (map (reviewTask env memoText) boardPersonas)) as [[tm t]|].
  - reflexivity.
  - rewrite saveAll_spec. reflexivity.
Qed.

Lemma phase3_eq (memoData : Memo) (boardResults : list (string * CompletionOutcome)) (st : RunState) :
  phase3 env sid memoData boardResults st =
  match prompts env "strategist.txt" with
  | None => (st, Throw (ThrownError (noSuchFile "strategist.txt")))
  | Some sp =>
      match formatSynthesisInput memoData boardResults with
      | Throw t => (st, Throw t)
      | Return synthesisInput =>
          let req := strategistRequest sp synthesisInput in
          let st' := withLog st [Called req (fst (call env req)) (snd (call env req))] in
          match snd (call env req) with
          | Throw t => (st', Throw t)
          | Return strategistResult =>
              (withRows st' [responseRow (uuidv4 env (drawn st)) sid "strategist" strategistResult] 1,
               Return strategistResult)
          end
      end
  end.
Proof.
  unfold phase3, bind, liftR, loadPrompt, callM.
  destruct (prompts env "strategist.txt") as [sp|]; [|reflexivity].
  destruct (formatSynthesisInput memoData boardResults) as [synthesisInput|t]; [|reflexivity].
  destruct (call env (strategistRequest sp synthesisInput)) as [tr res].
  destruct res as [o|t]; [|reflexivity].
  unfold saveResponse, ret, withRows, withLog, emit, insertResponse. cbn.
  rewrite Nat.add_1_r. reflexivity.
Qed.




Lemma run_eq (st : RunState) :
  runBoardMeeting env sid st =
  match memos (db st) sid with
  | None => (started sid st, Throw (ThrownError (mkError "No memo found for session")))
  | Some memoData =>
      match phase1 env (formatMemoForPrompt memoData) (started sid st) with
      | (s1, Throw t) => (s1, Throw t)
      | (s1, Return sec) =>
          match phase2 env sid (formatMemoForPrompt memoData) s1 with
          | (s2, Throw t) => (s2, Throw t)
          | (s2, Return brd) =>
              match phase3 env sid memoData brd s2 with
              | (s3, Throw t) => (s3, Throw t)
              | (s3, Return syn) => (finished sid s3, Return (resultOf sid sec brd syn))
              end
          end
      end
  end.
Proof.
  unfold runBoardMeeting, bind, setStatus, getMemo, throw, started, finished, resultOf, emit.
  cbn [db memos updateStatus].
  destruct (memos (db st) sid) as [memoData|]; [|reflexivity].
  cbv zeta.
  destruct (phase1 env (formatMemoForPrompt memoData) _) as [s1 [sec|t]]; [|reflexivity].
  destruct (phase2 env sid (formatMemoForPrompt memoData) s1) as [s2 [brd|t]]; [|reflexivity].
  destruct (phase3 env sid memoData brd s2) as [s3 [syn|t]]; [|reflexivity].
  reflexivity.
Qed.

(** observers distribute over concatenation *)
Lemma failedCalls_app (a b : list Event) : failedCalls (a ++ b) = (failedCalls a ++ failedCalls b)%list.
Proof. apply flat_map_app. Qed.
Lemma succeeded_app (a b : list Event) : succeeded (a ++ b) = (succeeded a ++ succeeded b)%list.
Proof. apply flat_map_app. Qed.
Lemma called_app (a b : list Event) : called (a ++ b) = (called a ++ called b)%list.
Proof. apply flat_map_app. Qed.
Lemma inserted_app (a b : list Event) : inserted (a ++ b) = (inserted a ++ inserted b)%list.
Proof. apply flat_map_app. Qed.

Lemma failedCalls_Inserted (rows : list ResponseRow) : failedCalls (map Inserted rows) = [].
Proof. induction rows; [reflexivity|exact IHrows]. Qed.
Lemma succeeded_Inserted (rows : list ResponseRow) : succeeded (map Inserted rows) = [].
Proof. induction rows; [reflexivity|exact IHrows]. Qed.
Lemma called_Inserted (rows : list ResponseRow) : called (map Inserted rows) = [].
Proof. induction rows; [reflexivity|exact IHrows]. Qed.
Lemma inserted_Inserted (rows : list ResponseRow) : inserted (map Inserted rows) = rows.
Proof. induction rows; [reflexivity|]. cbn. f_equal. exact IHrows. Qed.


Lemma reviewTask_shape (memoText id file : string) :
  TaskShape id file (reviewTask env memoText (id, file)).
Proof.
  unfold reviewTask, loadPrompt.
  destruct (prompts env file) as [prompt|].
  - destruct (call env (reviewRequest prompt memoText id)) as [tr [o|t]].
    + apply CallReturned with (req := reviewRequest prompt memoText id) (tr := tr) (o := o);
        reflexivity.
    + apply CallThrew with (req := reviewRequest prompt memoText id) (tr := tr) (t := t);
        reflexivity.
  - apply NoPrompt; reflexivity.
Qed.

Lemma firstRejection_source (tasks : list Task) : forall tm t,
  firstRejection tasks = Some (tm, t) ->
  exists task, In task tasks /\ task_result task = Throw t.
Proof.
  induction tasks as [|task r IH]; intros tm t H; cbn [firstRejection] in H.
  - discriminate.
  - destruct (task_result task) as [v|t0] eqn:E.
    + destruct (IH _ _ H) as (x & I & R). exists x. split; [right; exact I|exact R].
    + destruct (firstRejection r) as [[tm' t']|] eqn:F.
      * destruct (tm' <? task_time task)%Z.
        -- inversion H; subst. destruct (IH _ _ eq_refl) as (x & I & R).
           exists x. split; [right; exact I|exact R].
        -- inversion H; subst. exists task. split; [left; reflexivity|exact E].
      * inversion H; subst. exists task. split; [left; reflexivity|exact E].
Qed.

Lemma firstRejection_none (tasks : list Task) :
  firstRejection tasks = None ->
  forall task, In task tasks -> exists v, task_result task = Return v.
Proof.
  induction tasks as [|task r IH]; intros H x I; cbn [firstRejection] in H.
  - destruct I.
  - destruct (task_result task) as [v|t0] eqn:E.
    + destruct I as [<-|I]; [exists v; exact E|apply IH; assumption].
    + destruct (firstRejection r) as [[tm' t']|]; [destruct (tm' <? task_time task)%Z|]; discriminate.
Qed.

Lemma firstRejection_some (tasks : list Task) (task : Task) (t : Thrown) :
  In task tasks -> task_result task = Throw t -> firstRejection tasks <> None.
Proof.
  intros I R H. destruct (firstRejection_none _ H _ I) as (v & E). congruence.
Qed.


Lemma tasks_fulfilled (memoText : string) (ps : list (string * string)) :
  firstRejection (map (reviewTask env memoText) ps) = None ->
  let tasks := map (reviewTask env memoText) ps in
  succeeded (flat_map task_events tasks) = fulfilled tasks /\
  failedCalls (flat_map task_events tasks) = [] /\
  called (flat_map task_events tasks) = map fst ps /\
  inserted (flat_map task_events tasks) = [] /\
  map fst (fulfilled tasks) = map fst ps.
Proof.
  induction ps as [|[id file] r IH]; intros H; cbn [map firstRejection flat_map fulfilled].
  - repeat split; reflexivity.
  - cbn [map firstRejection] in H.
    destruct (reviewTask_shape memoText id file) as [E R|req tr t' P E R|req tr o P E R];
      rewrite R in H.
    + destruct (firstRejection (map (reviewTask env memoText) r)) as [[tm1 t1]|];
        [destruct (tm1 <? _)%Z|]; discriminate.
    + destruct (firstRejection (map (reviewTask env memoText) r)) as [[tm1 t1]|];
        [destruct (tm1 <? _)%Z|]; discriminate.
    + destruct (IH H) as (A & B & C & D & F).
      rewrite R, E, succeeded_app, failedCalls_app, called_app, inserted_app, A, B, C, D.
      cbn. rewrite P, F. repeat split; reflexivity.
Qed.

Lemma tasks_bounds (memoText : string) (ps : list (string * string)) :
  let tasks := map (reviewTask env memoText) ps in
  (List.length (succeeded (flat_map task_events tasks)) <= List.length ps)%nat /\
  inserted (flat_map task_events tasks) = [] /\
  (forall x, In x (called (flat_map task_events tasks)) -> In x (map fst ps)).
Proof.
  induction ps as [|[id file] r IH]; cbn [map flat_map].
  - repeat split; auto.
  - destruct IH as (A & B & C).
    rewrite succeeded_app, inserted_app, called_app, B, length_app.
    destruct (reviewTask_shape memoText id file) as [E R|req tr t' P E R|req tr o P E R];
      rewrite E; cbn; (split; [lia|split; [reflexivity|]]).
    + intros x I. right. apply C, I.
    + intros x [I|I]; [left; congruence|right; apply C, I].
    + intros x [I|I]; [left; congruence|right; apply C, I].
Qed.
End RunFacts.


Section LogCons.
Variables (sid' st' : string) (row : ResponseRow) (req : Request) (tr : list RetryEvent)
  (o : CompletionOutcome) (t : Thrown) (l : list Event).

Lemma failedCalls_status : failedCalls (SetStatus sid' st' :: l) = failedCalls l.
Proof. reflexivity. Qed.
Lemma failedCalls_row : failedCalls (Inserted row :: l) = failedCalls l.
Proof. reflexivity. Qed.
Lemma failedCalls_ok : failedCalls (Called req tr (Return o) :: l) = failedCalls l.
Proof. reflexivity. Qed.
Lemma failedCalls_ko : failedCalls (Called req tr (Throw t) :: l) = t :: failedCalls l.
Proof. reflexivity. Qed.

Lemma succeeded_status : succeeded (SetStatus sid' st' :: l) = succeeded l.
Proof. reflexivity. Qed.
Lemma succeeded_row : succeeded (Inserted row :: l) = succeeded l.
Proof. reflexivity. Qed.
Lemma succeeded_ok :
  succeeded (Called req tr (Return o) :: l) = (personaId (req_options req), o) :: succeeded l.
Proof. reflexivity. Qed.
Lemma succeeded_ko : succeeded (Called req tr (Throw t) :: l) = succeeded l.
Proof. reflexivity. Qed.

Lemma called_status : called (SetStatus sid' st' :: l) = called l.
Proof. reflexivity. Qed.
Lemma called_row : called (Inserted row :: l) = called l.
Proof. reflexivity. Qed.
Lemma called_call (res : Result CompletionOutcome) :
  called (Called req tr res :: l) = personaId (req_options req) :: called l.
Proof. reflexivity. Qed.

Lemma inserted_status : inserted (SetStatus sid' st' :: l) = inserted l.
Proof. reflexivity. Qed.
Lemma inserted_row : inserted (Inserted row :: l) = row :: inserted l.
Proof. reflexivity. Qed.
Lemma inserted_call (res : Result CompletionOutcome) :
  inserted (Called req tr res :: l) = inserted l.
Proof. reflexivity. Qed.
End LogCons.

Lemma failedCalls_nil : failedCalls [] = []. Proof. reflexivity. Qed.
Lemma succeeded_nil : succeeded [] = []. Proof. reflexivity. Qed.
Lemma called_nil : called [] = []. Proof. reflexivity. Qed.
Lemma inserted_nil : inserted [] = []. Proof. reflexivity. Qed.

Create Rewrite HintDb logdb.

#[local] Hint Rewrite
  failedCalls_app succeeded_app called_app inserted_app
  failedCalls_Inserted succeeded_Inserted called_Inserted inserted_Inserted
  failedCalls_status failedCalls_row failedCalls_ok failedCalls_ko
  succeeded_status succeeded_row succeeded_ok succeeded_ko
  called_status called_row called_call
  inserted_status inserted_row inserted_call
  failedCalls_nil succeeded_nil called_nil inserted_nil
  app_nil_r length_app : logdb.

Ltac logs :=
  cbn [fst snd log db drawn withLog withRows started finished fresh app];
  autorewrite with logdb.


(* ================================================================== *)
(** ** The retry wrapper *)

Section RetryClaims.

Variable parse : string -> option JsValue.
Variable retryAttempts : Z.
Variable schema : option JsonSchema.

(** A status of the 4xx class prints with a leading 4. *)
Lemma ofZ_4xx (code : Z) : 400 <= code <= 499 -> prefix "4" (ofZ code) = true.
Proof.
  intros H.
  assert (A : forallb (fun n => prefix "4" (ofZ (400 + Z.of_nat n))) (seq 0 100) = true)
    by (vm_compute; reflexivity).
  rewrite forallb_forall in A.
  replace code with (400 + Z.of_nat (Z.to_nat (code - 400))) by lia.
  apply A, in_seq. lia.
Qed.

Lemma prefix_nil (s : string) : prefix "" s = true.
Proof. destruct s; reflexivity. Qed.

Lemma includes_here (needle hay : string) : prefix needle hay = true -> includes needle hay = true.
Proof. intros H. destruct hay; cbn [includes]; rewrite H; reflexivity. Qed.

Lemma includes_append (needle a b : string) :
  includes needle b = true -> includes needle (a ++ b) = true.
Proof.
  intros H. induction a as [|c a IH]; [exact H|].
  cbn [append includes]. rewrite IH. apply orb_true_r.
Qed.

Lemma message_4xx (code : Z) (body : string) :
  400 <= code <= 499 ->
  includes "(4" ("OpenAI Responses API error (" ++ ofZ code ++ "): " ++ body) = true.
Proof.
  intros H. pose proof (ofZ_4xx H) as P.
  destruct (ofZ code) as [|c r]; [discriminate P|].
  rewrite prefix_cons in P. destruct (ascii_dec "4" c) as [<-|]; [|discriminate P].
  change ("OpenAI Responses API error (" ++ String "4" r ++ "): " ++ body)
    with ("OpenAI Responses API error " ++ String "(" (String "4" (r ++ "): " ++ body))).
  apply includes_append, includes_here.
  rewrite !prefix_cons.
  destruct (ascii_dec "(" "(") as [_|n]; [|congruence].
  destruct (ascii_dec "4" "4") as [_|n]; [|congruence].
  apply prefix_nil.
Qed.

(** A failure with a 4xx status is thrown at once: one invocation, no
    pause, whatever the budget of attempts. *)
Lemma status_4xx_not_retried (provider : nat -> Exchange) (r : Response) (n : Z) :
  1 <= n ->
  fetched (provider 0%nat) = Resolved r -> 400 <= status r <= 499 ->
  completeWithRetry parse retryAttempts provider schema (Some n) =
    ([Fetched (latency (provider 0%nat));
      Warned 1 n ("OpenAI Responses API error (" ++ ofZ (status r) ++ "): " ++ text r)],
     Throw (ThrownError
              (mkError ("OpenAI Responses API error (" ++ ofZ (status r) ++ "): " ++ text r)))).
Proof.
  intros Hn Hf Hs. unfold completeWithRetry.
  destruct (Z.to_nat n) as [|fuel] eqn:E; [lia|].
  cbn [retryLoop].
  destruct (Z.leb_spec 1 n); [|lia].
  assert (K : ok r = false).
  { unfold ok. destruct (Z.leb_spec (status r) 299); [lia|]. apply andb_false_r. }
  rewrite (complete_http_error parse schema _ Hf K). cbn [message mkError].
  rewrite (message_4xx _ Hs). reflexivity.
Qed.


(** The fuel of the loop is enough: more of it changes nothing. *)
Lemma retryLoop_fuel (provider : nat -> Exchange) (retries : Z) (fuel : nat) :
  forall (attempt : Z) (k : nat) (lastError : Thrown),
    (Z.to_nat (retries - attempt + 1) <= fuel)%nat ->
    retryLoop parse provider schema retries fuel attempt k lastError =
    retryLoop parse provider schema retries (Z.to_nat (retries - attempt + 1)) attempt k lastError.
Proof.
  induction fuel as [|fuel IH]; intros attempt k lastError H.
  - replace (Z.to_nat (retries - attempt + 1)) with 0%nat by lia. reflexivity.
  - destruct (Z.to_nat (retries - attempt + 1)) as [|m] eqn:E.
    + cbn [retryLoop]. destruct (Z.leb_spec attempt retries); [lia|reflexivity].
    + cbn [retryLoop]. destruct (Z.leb_spec attempt retries); [|reflexivity].
      destruct (complete parse (provider k) schema) as [error|o]; [|reflexivity].
      destruct (includes "(4" (message error)); [reflexivity|].
      assert (M : m = Z.to_nat (retries - (attempt + 1) + 1)) by lia.
      rewrite (IH (attempt + 1) (S k) (ThrownError error)) by lia.
      rewrite <- M. reflexivity.
Qed.



End RetryClaims.


(** C3, the defect.  A 503 is retried up to the budget when its body is
    plain; the same 503 is thrown at once, after a single invocation and
    without any pause, when its body happens to contain an opening
    parenthesis followed by a 4: the test for the 4xx class looks for these
    two characters anywhere in the message. *)
Theorem C3_503_with_paren_4_is_not_retried (parse : string -> option JsValue) :
  invocations (fst (completeWithRetry parse 3 always503 None None)) = 3%nat /\
  sleeps (fst (completeWithRetry parse 3 always503 None None)) = [2000; 4000] /\
  invocations (fst (completeWithRetry parse 3 always503Paren None None)) = 1%nat /\
  sleeps (fst (completeWithRetry parse 3 always503Paren None None)) = [] /\
  snd (completeWithRetry parse 3 always503Paren None None) =
    Throw (ThrownError
             (mkError "OpenAI Responses API error (503): overloaded (4 of 5 replicas down)")).
Proof.
  repeat split; reflexivity.
Qed.

(* ================================================================== *)
(** ** The run *)

Lemma fold_left_totals (l : list (string * CompletionOutcome)) : forall a,
  fold_left (fun sum r => sum + total (tokens (snd r))) l a
  = a + sumZ (map (fun r => total (tokens (snd r))) l).
Proof.
  induction l as [|x l IH]; intros a; cbn [fold_left map sumZ fold_right].
  - lia.
  - rewrite IH. unfold sumZ. lia.
Qed.

Lemma sumZ_app (a b : list Z) : sumZ (a ++ b) = sumZ a + sumZ b.
Proof. induction a as [|x a IH]; cbn [app sumZ fold_right] in *; [reflexivity|]. unfold sumZ in *. lia. Qed.

Lemma rowsFrom_personas (env : Env) (sid : string) (l : list (string * CompletionOutcome)) :
  forall n, map row_persona_id (rowsFrom env sid n l) = map fst l.
Proof.
  induction l as [|[p o] l IH]; intros n; cbn [rowsFrom map]; [reflexivity|].
  rewrite IH. reflexivity.
Qed.

Lemma sessions_running (d : Db) (sid : string) :
  sessions (updateStatus d sid "running") sid =
  match sessions d sid with Some _ => Some "running" | None => None end.
Proof. cbn [sessions updateStatus]. rewrite String.eqb_refl. reflexivity. Qed.




(** C6, as the code has it.  When the call of phase 1 fails for good, the
    run throws that very value at once; the secretary call is the only call
    made, no row is written, and the status of the session stays at
    running: the run writes no status for a failure. *)
Theorem C6_phase1_failure_stops_run (env : Env) (sid : string) (d : Db)
    (memoData : Memo) (sp : string) (tr : list RetryEvent) (t : Thrown) :
  memos d sid = Some memoData ->
  prompts env "secretary.txt" = Some sp ->
  call env (secretaryRequest sp (formatMemoForPrompt memoData)) = (tr, Throw t) ->
  snd (runBoardMeeting env sid (fresh d)) = Throw t /\
  log (fst (runBoardMeeting env sid (fresh d))) =
    [SetStatus sid "running";
     Called (secretaryRequest sp (formatMemoForPrompt memoData)) tr (Throw t)] /\
  called (log (fst (runBoardMeeting env sid (fresh d)))) = ["secretary"] /\
  responses (db (fst (runBoardMeeting env sid (fresh d)))) = responses d /\
  sessions (db (fst (runBoardMeeting env sid (fresh d)))) sid =
    match sessions d sid with Some _ => Some "running" | None => None end.
Proof.
  intros Hm Hp Hc. rewrite run_eq. cbn [fresh db]. rewrite Hm, phase1_eq, Hp. cbv zeta.
  rewrite Hc. cbn [fst snd]. logs.
  repeat split; try reflexivity.
  apply sessions_running.
Qed.

(** The witness of C6: the secretary gets a 400. *)
Lemma C6_witness :
  let req := secretaryRequest "prompt secretary.txt" (formatMemoForPrompt memo1) in
  let tr := [Fetched 50; Warned 1 3 "OpenAI Responses API error (400): Bad Request"] in
  let t := ThrownError (mkError "OpenAI Responses API error (400): Bad Request") in
  call (envWith provSecretary400) req = (tr, Throw t) /\
  snd (runBoardMeeting (envWith provSecretary400) "s1" (fresh db1)) = Throw t /\
  called (log (fst (runBoardMeeting (envWith provSecretary400) "s1" (fresh db1)))) = ["secretary"].
Proof.
  intros req tr t.
  assert (H : call (envWith provSecretary400) req = (tr, Throw t)) by (vm_compute; reflexivity).
  split; [exact H|].
  destruct (@C6_phase1_failure_stops_run (envWith provSecretary400) "s1" db1 memo1
              "prompt secretary.txt" tr t eq_refl eq_refl H) as (A & _ & C & _).
  split; [exact A|exact C].
Defined.

(** C6 as it is stated fails on that run: after the failure the status of
    the session is running, which is not a terminal state. *)
Lemma C6_counterexample :
  snd (runBoardMeeting (envWith provSecretary400) "s1" (fresh db1)) =
    Throw (ThrownError (mkError "OpenAI Responses API error (400): Bad Request")) /\
  called (log (fst (runBoardMeeting (envWith provSecretary400) "s1" (fresh db1))))
    = ["secretary"] /\
  sessions (db (fst (runBoardMeeting (envWith provSecretary400) "s1" (fresh db1)))) "s1"
    = Some "running" /\
  terminalStatus
    (sessions (db (fst (runBoardMeeting (envWith provSecretary400) "s1" (fresh db1)))) "s1")
    = false.
Proof.
  repeat split; vm_compute; reflexivity.
Qed.

(** C5, as the code has it.  A run that completes has written one row per
    reviewer and one row for the synthesis, in this order and none for the
    secretary; the reviewer rows are written once the four reviewer calls
    are over and before the strategist is called, the synthesis row after
    that call and before the status is set to complete.  A run that fails
    in the strategist call has written the reviewer rows all the same, and
    its status is running. *)
Theorem C5_records_persisted_per_phase (env : Env) (sid : string) (d : Db) :
  (forall result,
     snd (runBoardMeeting env sid (fresh d)) = Return result ->
     exists secCall revCalls synCall,
       let rows := rowsFrom env sid 0 (board result) in
       let row5 := responseRow (uuidv4 env 4) sid "strategist" (strategist result) in
       log (fst (runBoardMeeting env sid (fresh d))) =
         ([SetStatus sid "running"; secCall] ++ revCalls ++ map Inserted rows
            ++ [synCall; Inserted row5; SetStatus sid "complete"])%list /\
       called [secCall] = ["secretary"] /\
       called revCalls = map fst boardPersonas /\ List.length revCalls = 4%nat /\
       called [synCall] = ["strategist"] /\
       map row_persona_id rows = map fst boardPersonas /\
       responses (db (fst (runBoardMeeting env sid (fresh d)))) =
         (responses d ++ rows ++ [row5])%list) /\
  (forall t,
     snd (runBoardMeeting env sid (fresh d)) = Throw t ->
     In "strategist" (called (log (fst (runBoardMeeting env sid (fresh d))))) ->
     exists brd,
       let rows := rowsFrom env sid 0 brd in
       map row_persona_id rows = map fst boardPersonas /\
       inserted (log (fst (runBoardMeeting env sid (fresh d)))) = rows /\
       responses (db (fst (runBoardMeeting env sid (fresh d)))) = (responses d ++ rows)%list /\
       sessions (db (fst (runBoardMeeting env sid (fresh d)))) sid =
         match sessions d sid with Some _ => Some "running" | None => None end).
Proof.
  assert (notIn : ~ In "strategist" ("secretary" :: map fst boardPersonas)).
  { cbn. intros [H|[H|[H|[H|[H|[]]]]]]; discriminate H. }
  rewrite run_eq. cbn [fresh db].
  destruct (memos d sid) as [memoData|].
  2:{ split; [intros ? H; discriminate H|intros ? _ H; destruct H]. }
  rewrite phase1_eq.
  destruct (prompts env "secretary.txt") as [sp|].
  2:{ split; [intros ? H; discriminate H|intros ? _ H; destruct H]. }
  cbv zeta.
  set (memoText := formatMemoForPrompt memoData).
  destruct (call env (secretaryRequest sp memoText)) as [tr [sec|t]]; cbn [fst snd].
  2:{ split; [intros ? H; discriminate H|].
      intros ? _ H. exfalso. revert H. logs. intros [H|[]]. discriminate H. }
  rewrite phase2_eq. cbv zeta.
  pose proof (tasks_bounds env memoText boardPersonas) as (_ & _ & Sub). cbv zeta in Sub.
  pose proof (tasks_fulfilled env memoText boardPersonas) as Ful. cbv zeta in Ful.
  assert (Len : List.length (flat_map task_events (map (reviewTask env memoText) boardPersonas))
                = List.length (called (flat_map task_events (map (reviewTask env memoText) boardPersonas)))).
  { generalize boardPersonas. intros ps. induction ps as [|[id file] ps IH]; [reflexivity|].
    cbn [map flat_map]. rewrite called_app, !length_app, IH. f_equal.
    destruct (reviewTask_shape env memoText id file) as [E R|req tr0 t' P E R|req tr0 o P E R];
      rewrite E; reflexivity. }
  set (tasks := map (reviewTask env memoText) boardPersonas) in *.
  destruct (firstRejection tasks) as [[tm t]|].
  - split; [intros ? H; discriminate H|].
    intros ? _ H. exfalso. revert H. logs. cbn [personaId req_options secretaryRequest].
    intros [H|H]; [discriminate H|]. apply notIn. right. apply Sub, H.
  - destruct (Ful eq_refl) as (A & B & C & D & E). clear Ful.
    assert (L4 : List.length (fulfilled tasks) = 4%nat).
    { rewrite <- (length_map fst), E. reflexivity. }
    rewrite phase3_eq. logs. rewrite L4.
    destruct (prompts env "strategist.txt") as [stp|].
    2:{ split; [intros ? H; discriminate H|].
        intros ? _ H. exfalso. revert H. logs. cbn [personaId req_options secretaryRequest].
        intros [H|H]; [discriminate H|]. apply notIn. right. apply Sub, H. }
    destruct (formatSynthesisInput memoData (fulfilled tasks)) as [synthesisInput|t].
    2:{ split; [intros ? H; discriminate H|].
        intros ? _ H. exfalso. revert H. logs. cbn [personaId req_options secretaryRequest].
        intros [H|H]; [discriminate H|]. apply notIn. right. apply Sub, H. }
    cbv zeta.
    destruct (call env (strategistRequest stp synthesisInput)) as [tr' [syn|t]]; cbn [fst snd].
    + split; [|intros ? H; discriminate H].
      intros result H. inversion H; subst result. clear H.
      cbn [board strategist resultOf].
      exists (Called (secretaryRequest sp memoText) tr (Return sec)),
             (flat_map task_events tasks),
             (Called (strategistRequest stp synthesisInput) tr' (Return syn)).
      cbv zeta. logs.
      repeat split; try reflexivity.
      * rewrite <- !app_assoc. reflexivity.
      * exact C.
      * rewrite Len, C. reflexivity.
      * rewrite rowsFrom_personas. exact E.
      * cbn [responses updateStatus]. rewrite <- app_assoc. reflexivity.
    + split; [intros ? H; discriminate H|].
      intros t0 _ _. exists (fulfilled tasks). cbv zeta. logs.
      repeat split.
      * rewrite rowsFrom_personas. exact E.
      * rewrite D. reflexivity.
      * apply sessions_running.
Qed.

(** The witness of C5: a run in which every call succeeds, and a run in
    which the strategist gets a 500 three times. *)
Lemma C5_witness :
  (exists result,
     snd (runBoardMeeting (envWith provOk) "s1" (fresh db1)) = Return result /\
     map row_persona_id (rowsFrom (envWith provOk) "s1" 0 (board result))
       = map fst boardPersonas) /\
  (exists t brd,
     snd (runBoardMeeting (envWith provStrategist500) "s1" (fresh db1)) = Throw t /\
     In "strategist"
        (called (log (fst (runBoardMeeting (envWith provStrategist500) "s1" (fresh db1))))) /\
     responses (db (fst (runBoardMeeting (envWith provStrategist500) "s1" (fresh db1))))
       = (responses db1 ++ rowsFrom (envWith provStrategist500) "s1" 0 brd)%list).
Proof.
  split.
  - assert (H : exists result,
               snd (runBoardMeeting (envWith provOk) "s1" (fresh db1)) = Return result)
      by (eexists; vm_compute; reflexivity).
    destruct H as [result H]. exists result. split; [exact H|].
    destruct (proj1 (C5_records_persisted_per_phase (envWith provOk) "s1" db1) result H)
      as (secCall & revCalls & synCall & _ & _ & _ & _ & _ & P & _).
    exact P.
  - assert (H : exists t,
               snd (runBoardMeeting (envWith provStrategist500) "s1" (fresh db1)) = Throw t)
      by (eexists; vm_compute; reflexivity).
    destruct H as [t H].
    assert (I : In "strategist"
                  (called (log (fst (runBoardMeeting (envWith provStrategist500) "s1"
                                       (fresh db1))))))
      by (vm_compute; tauto).
    destruct (proj2 (C5_records_persisted_per_phase (envWith provStrategist500) "s1" db1) t H I)
      as (brd & _ & _ & R & _).
    exists t, brd. split; [exact H|]. split; [exact I|exact R].
Defined.

(** C5 as it is stated fails twice.  The run in which every call succeeds
    ends with five rows, none of them for the secretary.  The run in which
    the strategist call fails never reaches the complete state and has
    written the four reviewer rows. *)
Lemma C5_counterexample :
  map row_persona_id
      (responses (db (fst (runBoardMeeting (envWith provOk) "s1" (fresh db1)))))
    = ["operator"; "finance"; "craft-expert"; "contrarian"; "strategist"] /\
  snd (runBoardMeeting (envWith provStrategist500) "s1" (fresh db1)) =
    Throw (ThrownError (mkError "OpenAI Responses API error (500): Internal Server Error")) /\
  sessions (db (fst (runBoardMeeting (envWith provStrategist500) "s1" (fresh db1)))) "s1"
    = Some "running" /\
  terminalStatus
    (sessions (db (fst (runBoardMeeting (envWith provStrategist500) "s1" (fresh db1)))) "s1")
    = false /\
  map row_persona_id
      (responses (db (fst (runBoardMeeting (envWith provStrategist500) "s1" (fresh db1)))))
    = ["operator"; "finance"; "craft-expert"; "contrarian"].
Proof.
  repeat split; vm_compute; reflexivity.
Qed.

(** C8.  In a run in which the six calls were made and returned, the
    result holds exactly the outcomes that the calls returned: the one of
    the secretary, the four of the reviewers under their persona ids in
    the order operator, finance, craft-expert, contrarian, and the one of
    the strategist; and its total is the sum of the totals of these six
    outcomes. *)
Theorem C8_all_succeed_result_and_total (env : Env) (sid : string) (d : Db) :
  map fst (succeeded (log (fst (runBoardMeeting env sid (fresh d))))) = allPersonas ->
  exists result,
    snd (runBoardMeeting env sid (fresh d)) = Return result /\
    map fst (board result) = ["operator"; "finance"; "craft-expert"; "contrarian"] /\
    succeeded (log (fst (runBoardMeeting env sid (fresh d)))) =
      (("secretary", secretary result) :: board result ++ [("strategist", strategist result)])%list /\
    totalTokens result =
      sumZ (map (fun r => total (tokens (snd r)))
              (succeeded (log (fst (runBoardMeeting env sid (fresh d)))))).
Proof.
  assert (short : forall l : list (string * CompletionOutcome),
             (List.length l < 6)%nat -> map fst l = allPersonas -> False).
  { intros l Hl E. apply (f_equal (@List.length string)) in E.
    rewrite length_map in E. cbn in E. lia. }
  rewrite run_eq. cbn [fresh db].
  destruct (memos d sid) as [memoData|];
    [|intros H; exfalso; revert H; apply short; cbn; lia].
  rewrite phase1_eq.
  destruct (prompts env "secretary.txt") as [sp|];
    [|intros H; exfalso; revert H; apply short; cbn; lia].
  cbv zeta.
  set (memoText := formatMemoForPrompt memoData).
  destruct (call env (secretaryRequest sp memoText)) as [tr [sec|t]]; cbn [fst snd].
  2:{ intros H; exfalso; revert H; apply short; cbn; lia. }
  rewrite phase2_eq. cbv zeta.
  pose proof (tasks_bounds env memoText boardPersonas) as (Bnd & _ & _).
  cbv zeta in Bnd. change (List.length boardPersonas) with 4%nat in Bnd.
  pose proof (tasks_fulfilled env memoText boardPersonas) as Ful. cbv zeta in Ful.
  set (tasks := map (reviewTask env memoText) boardPersonas) in *.
  destruct (firstRejection tasks) as [[tm t]|].
  - intros H; exfalso; revert H; apply short.
    logs. cbn [List.length]. lia.
  - destruct (Ful eq_refl) as (A & B & C & D & E). clear Ful.
    rewrite phase3_eq.
    destruct (prompts env "strategist.txt") as [stp|];
      [|intros H; exfalso; revert H; apply short; logs; cbn [List.length]; lia].
    destruct (formatSynthesisInput memoData (fulfilled tasks)) as [synthesisInput|t];
      [|intros H; exfalso; revert H; apply short; logs; cbn [List.length]; lia].
    cbv zeta.
    destruct (call env (strategistRequest stp synthesisInput)) as [tr' [syn|t]]; cbn [fst snd].
    + intros _. eexists. split; [reflexivity|].
      cbn [board secretary strategist totalTokens resultOf].
      split; [exact E|].
      logs. rewrite A. cbn [personaId req_options strategistRequest secretaryRequest].
      split; [reflexivity|].
      rewrite fold_left_totals. cbn [map].
      rewrite map_app. change (sumZ (?x :: ?l)) with (x + sumZ l).
      rewrite sumZ_app. cbn [map sumZ fold_right snd]. unfold sumZ. lia.
    + intros H; exfalso; revert H; apply short.
      logs. cbn [List.length]. lia.
Qed.

(** The witness of C8: the run in which every call succeeds at once. *)
Lemma C8_witness :
  map fst (succeeded (log (fst (runBoardMeeting (envWith provOk) "s1" (fresh db1)))))
    = allPersonas /\
  exists result,
    snd (runBoardMeeting (envWith provOk) "s1" (fresh db1)) = Return result /\
    map fst (board result) = ["operator"; "finance"; "craft-expert"; "contrarian"] /\
    totalTokens result = 120.
Proof.
  assert (H : map fst (succeeded (log (fst (runBoardMeeting (envWith provOk) "s1" (fresh db1)))))
              = allPersonas) by (vm_compute; reflexivity).
  split; [exact H|].
  destruct (C8_all_succeed_result_and_total (envWith provOk) "s1" db1 H)
    as (result & R & B & S & T).
  exists result. split; [exact R|]. split; [exact B|].
  rewrite T. vm_compute. reflexivity.
Defined.

(* ================================================================== *)
(** ** Parsing the answer *)

(** C9, as the code has it.  The text that is parsed is, trimmed, the
    first of these that exists: what stands between the first fence
    followed by json and the next fence; what stands between the first
    fence and the next fence, which includes the language label of an
    opening fence that carries one; the whole text.  The parsed field is
    what [JSON.parse] makes of it, and [null] when it throws. *)
Theorem C9_candidate_priority (parse : string -> option JsValue)
    (data : ResponseData) (expectJson : bool) :
  candidate (rawTextOf data) =
    match between "```json" "```" (rawTextOf data) with
    | Some inJsonFence => inJsonFence
    | None =>
        match between "```" "```" (rawTextOf data) with
        | Some inAnyFence => inAnyFence
        | None => rawTextOf data
        end
    end /\
  jsonStr (rawTextOf data) = Some (trim (candidate (rawTextOf data))) /\
  parsed (parseResponse parse data expectJson) =
    if (expectJson && nonEmpty (rawTextOf data))%bool
    then match parse (trim (candidate (rawTextOf data))) with
         | Some v => v
         | None => JNull
         end
    else JNull.
Proof.
  split; [reflexivity|]. split; [apply jsonStr_candidate|].
  unfold parseResponse, parsedOf. cbn [parsed].
  rewrite jsonStr_candidate. reflexivity.
Qed.

(** C9 as it is stated fails on a fenced block of another language: the
    candidate is not the contents of the block, it starts with the label. *)
Lemma C9_counterexample :
  jsonStr (fenced "js" "{}") = Some ("js" ++ nl ++ "{}") /\
  jsonStr (fenced "js" "{}") <> Some (trim "{}") /\
  jsonStr (fenced "json" "{}") = Some (trim "{}") /\
  jsonStr (fenced "" "{}") = Some (trim "{}").
Proof.
  repeat split; try (vm_compute; reflexivity).
  vm_compute. discriminate.
Qed.

(** ** The synthesis input *)

Lemma boardBlock_null (persona : string) (result : CompletionOutcome) :
  parsed result = JNull ->
  boardBlock persona result =
    Return (nl ++
      "### " ++ toUpperCase persona ++ nl ++
      "- **Position:** N/A" ++ nl ++
      "- **Top Reasons:** " ++ nl ++
      "- **Top Risks:** " ++ nl ++
      "- **Confidence:** N/A" ++ nl).
Proof.
  intros H. unfold boardBlock, parsedOrEmpty. rewrite H. reflexivity.
Qed.

Lemma boardBlocks_null (boardResults : list (string * CompletionOutcome)) :
  Forall (fun pr => parsed (snd pr) = JNull) boardResults ->
  exists blocks, boardBlocks boardResults = Return blocks.
Proof.
  induction 1 as [|[persona result] r H _ IH].
  - exists []. reflexivity.
  - destruct IH as [bs E]. cbn [boardBlocks snd] in *.
    rewrite (boardBlock_null persona result H), E. eexists. reflexivity.
Qed.

(** C2, as the code has it.  When the text of a successful answer does not
    parse, [complete] raises nothing: the outcome has [parsed] at [null]
    and the text in [raw].  The block of a reviewer whose [parsed] is
    [null] reads N/A for the position and for the confidence, and nothing
    after the labels of the reasons and of the risks; it never throws, and
    neither does the synthesis input of reviewers that are all such. *)
Theorem C2_unparsed_answer_renders (parse : string -> option JsValue) :
  (forall (x : Exchange) (r : Response) (data : ResponseData) (schema : JsonSchema),
     fetched x = Resolved r -> ok r = true -> json r = inr data ->
     parse (trim (candidate (rawTextOf data))) = None ->
     complete parse x (Some schema) =
       inr {| parsed := JNull; raw := rawTextOf data;
              tokens := tokensOf data; responseId := data_id data |}) /\
  (forall (persona : string) (result : CompletionOutcome),
     parsed result = JNull ->
     boardBlock persona result =
       Return (nl ++
         "### " ++ toUpperCase persona ++ nl ++
         "- **Position:** N/A" ++ nl ++
         "- **Top Reasons:** " ++ nl ++
         "- **Top Risks:** " ++ nl ++
         "- **Confidence:** N/A" ++ nl)) /\
  (forall (memo : Memo) (boardResults : list (string * CompletionOutcome)),
     Forall (fun pr => parsed (snd pr) = JNull) boardResults ->
     exists txt, formatSynthesisInput memo boardResults = Return txt).
Proof.
  split; [|split].
  - intros x r data schema Hf Hok Hj Hp.
    rewrite (complete_http_ok parse (Some schema) _ Hf Hok Hj).
    unfold parseResponse, parsedOf. rewrite jsonStr_candidate, Hp.
    destruct (nonEmpty (rawTextOf data)); reflexivity.
  - apply boardBlock_null.
  - intros memo boardResults H. unfold formatSynthesisInput.
    destruct (boardBlocks_null H) as [bs E]. rewrite E. eexists. reflexivity.
Qed.

(** The witness of C2: an answer in plain words where JSON was asked for. *)
Lemma C2_witness :
  sampleParse (trim (candidate (rawTextOf (okData "I cannot answer in JSON" 3)))) = None /\
  complete sampleParse (okX "I cannot answer in JSON" 3) (Some SCHEMAS_board_member) =
    inr {| parsed := JNull; raw := "I cannot answer in JSON";
           tokens := {| input := 1; output := 2; reasoning := 0; total := 3 |};
           responseId := Some "resp" |} /\
  parsed nullResult = JNull /\
  boardBlock "operator" nullResult =
    Return (nl ++
      "### OPERATOR" ++ nl ++
      "- **Position:** N/A" ++ nl ++
      "- **Top Reasons:** " ++ nl ++
      "- **Top Risks:** " ++ nl ++
      "- **Confidence:** N/A" ++ nl) /\
  exists txt, formatSynthesisInput memo1 [("operator", nullResult); ("finance", nullResult)]
              = Return txt.
Proof.
  destruct (C2_unparsed_answer_renders sampleParse) as (A & B & C).
  split; [reflexivity|].
  split.
  - exact (A (okX "I cannot answer in JSON" 3)
             {| status := 200; text := ""; json := inr (okData "I cannot answer in JSON" 3) |}
             (okData "I cannot answer in JSON" 3) SCHEMAS_board_member
             eq_refl eq_refl eq_refl eq_refl).
  - split; [reflexivity|]. split.
    + exact (B "operator" nullResult eq_refl).
    + apply C. repeat constructor.
Defined.

(** C2 as it is stated fails on the reasons and the risks: for a reviewer
    whose [parsed] is [null] the block is not the one in which the four
    fields read N/A, and N/A stands after neither of the two labels. *)
Lemma C2_counterexample :
  parsed nullResult = JNull /\
  boardBlock "operator" nullResult =
    Return (nl ++
      "### OPERATOR" ++ nl ++
      "- **Position:** N/A" ++ nl ++
      "- **Top Reasons:** " ++ nl ++
      "- **Top Risks:** " ++ nl ++
      "- **Confidence:** N/A" ++ nl) /\
  boardBlock "operator" nullResult <> Return (blockAllNA "operator") /\
  includes "- **Top Reasons:** N/A"
    (nl ++
      "### OPERATOR" ++ nl ++
      "- **Position:** N/A" ++ nl ++
      "- **Top Reasons:** " ++ nl ++
      "- **Top Risks:** " ++ nl ++
      "- **Confidence:** N/A" ++ nl) = false /\
  includes "- **Top Risks:** N/A"
    (nl ++
      "### OPERATOR" ++ nl ++
      "- **Position:** N/A" ++ nl ++
      "- **Top Reasons:** " ++ nl ++
      "- **Top Risks:** " ++ nl ++
      "- **Confidence:** N/A" ++ nl) = false.
Proof.
  split; [reflexivity|]. split; [vm_compute; reflexivity|].
  split; [vm_compute; discriminate|].
  split; vm_compute; reflexivity.
Qed.

(** ** Saving a response *)

Lemma orDefault_not_null (v : option JsValue) (d : JsValue) :
  d <> JNull -> orDefault v d <> JNull.
Proof.
  intros Hd. unfold orDefault, Json.or.
  destruct v as [x|]; cbn [truthyOpt]; [|exact Hd].
  destruct (truthy x) eqn:T; [|exact Hd].
  intros ->. discriminate T.
Qed.

(** C10.  For an outcome whose [parsed] is [null], the row that is written
    has the empty string as position, the text of an empty array in the
    three list columns, the text of an empty object as validation metrics
    and medium as confidence, next to the identifier drawn, the session,
    the persona, the raw text and the total of tokens; and for whatever
    outcome, neither the position nor the confidence is bound to [null]. *)
Theorem C10_null_parsed_row (env : Env) (sessionId personaId : string)
    (result : CompletionOutcome) (st : RunState) :
  parsed result = JNull ->
  let row :=
    {| row_id := uuidv4 env (drawn st);
       row_session_id := sessionId;
       row_persona_id := personaId;
       row_position := JStr "";
       row_top_reasons := "[]";
       row_top_risks := "[]";
       row_recommended_modifications := "[]";
       row_validation_metrics := "{}";
       row_confidence := JStr "medium";
       row_raw_analysis := raw result;
       row_tokens_used := total (tokens result) |} in
  snd (saveResponse env sessionId personaId result st) = Return tt /\
  responses (db (fst (saveResponse env sessionId personaId result st)))
    = (responses (db st) ++ [row])%list /\
  (forall (id : string) (any : CompletionOutcome),
     row_position (responseRow id sessionId personaId any) <> JNull /\
     row_confidence (responseRow id sessionId personaId any) <> JNull).
Proof.
  intros H row. split; [reflexivity|]. split.
  - unfold saveResponse, responseRow, parsedOrEmpty. rewrite H. reflexivity.
  - intros id any. unfold responseRow. cbn [row_position row_confidence].
    split; apply orDefault_not_null; discriminate.
Qed.

(** The witness of C10: saving the outcome whose text did not parse. *)
Lemma C10_witness :
  parsed nullResult = JNull /\
  responses (db (fst (saveResponse (envWith provOk) "s1" "operator" nullResult (fresh db1))))
    = [{| row_id := "id0";
          row_session_id := "s1";
          row_persona_id := "operator";
          row_position := JStr "";
          row_top_reasons := "[]";
          row_top_risks := "[]";
          row_recommended_modifications := "[]";
          row_validation_metrics := "{}";
          row_confidence := JStr "medium";
          row_raw_analysis := "I cannot answer in JSON";
          row_tokens_used := 3 |}].
Proof.
  split; [reflexivity|].
  exact (proj1 (proj2 (@C10_null_parsed_row (envWith provOk) "s1" "operator" nullResult
                         (fresh db1) eq_refl))).
Defined.

(** ** The memo *)

Lemma append_assoc (a b c : string) : (a ++ b) ++ c = a ++ (b ++ c).
Proof. induction a as [|x a IH]; cbn [append]; [reflexivity|]. rewrite IH. reflexivity. Qed.

Lemma append_empty_r (a : string) : a ++ "" = a.
Proof. induction a as [|x a IH]; cbn [append]; [reflexivity|]. rewrite IH. reflexivity. Qed.

(** C7, as the code has it.  The memo is laid out as its title followed by
    six sections in the order context, decision required, options,
    constraints, success metrics, questions, the whole trimmed.  Among the
    constraints a missing time and a missing budget read Not specified, a
    missing risk tolerance reads Medium, and for missing political
    considerations the line is left empty; a list without items gives a
    section with an empty body. *)
Theorem C7_memo_layout (memo : Memo) :
  formatMemoForPrompt memo =
    trim (nl ++ "## Board Memo" ++ nl ++ layout (memoSections memo)) /\
  map fst (memoSections memo) =
    ["### Context"; "### Decision Required"; "### Options"; "### Constraints";
     "### Success Metrics"; "### Questions for the Board"] /\
  (forall c : Constraints,
     (time c = None -> nth 0 (constraintLines c) "" = "- Time: Not specified") /\
     (budget c = None -> nth 1 (constraintLines c) "" = "- Budget: Not specified") /\
     (risk_tolerance c = None -> nth 2 (constraintLines c) "" = "- Risk Tolerance: Medium") /\
     (politics c = None -> nth 3 (constraintLines c) "" = "")) /\
  bullets [] = "" /\ numbered [] = "".
Proof.
  split; [|split; [reflexivity|split; [|split; reflexivity]]].
  - unfold formatMemoForPrompt. f_equal.
    cbn [layout memoSections]. unfold section, bullets, numbered, constraintLines, join.
    cbn [concat]. rewrite append_empty_r.
    repeat rewrite append_assoc. reflexivity.
  - intros c. unfold constraintLines. cbn [nth].
    repeat split; intros ->; reflexivity.
Qed.

(** The witness of C7: the constraints of a memo that gives none. *)
Lemma C7_witness :
  time (constraints memo1) = None /\
  nth 0 (constraintLines (constraints memo1)) "" = "- Time: Not specified" /\
  nth 2 (constraintLines (constraints memo1)) "" = "- Risk Tolerance: Medium" /\
  nth 3 (constraintLines (constraints memo1)) "" = "".
Proof.
  destruct (C7_memo_layout memo1) as (_ & _ & C & _).
  destruct (C (constraints memo1)) as (T & _ & R & P).
  split; [reflexivity|].
  split; [exact (T eq_refl)|]. split; [exact (R eq_refl)|exact (P eq_refl)].
Defined.

(** C7 as it is stated fails on a memo without constraints: its text has
    the placeholder for the time and for the budget, but none for the risk
    tolerance, which reads Medium, and none for the political
    considerations, of which it says nothing. *)
Lemma C7_counterexample :
  constraints memo1 =
    {| time := None; budget := None; risk_tolerance := None; politics := None |} /\
  includes (notSpecified "Time") (formatMemoForPrompt memo1) = true /\
  includes (notSpecified "Budget") (formatMemoForPrompt memo1) = true /\
  includes (notSpecified "Risk Tolerance") (formatMemoForPrompt memo1) = false /\
  includes "- Risk Tolerance: Medium" (formatMemoForPrompt memo1) = true /\
  includes (notSpecified "Political considerations") (formatMemoForPrompt memo1) = false /\
  includes "Political" (formatMemoForPrompt memo1) = false.
Proof.
  vm_compute. repeat split; reflexivity.
Qed.

(* ================================================================== *)
(** * Further properties of the code *)

Import Traces Texts RunCases MoreSamples.

Lemma Return_inj (A : Type) (a b : A) : Return a = Return b -> a = b.
Proof. intros H. inversion H. reflexivity. Qed.

(** ** The text and the parsed value of a response *)

Section ResponseFacts.

Variable parse : string -> option JsValue.

Lemma fold_append (A : Type) (f : A -> string) (l : list A) : forall acc,
  fold_left (fun a x => a ++ f x) l acc = acc ++ flatten (map f l).
Proof.
  induction l as [|x r IH]; intros acc; cbn [fold_left map flatten].
  - symmetry. apply append_empty_r.
  - rewrite IH. apply append_assoc.
Qed.

Lemma flatten_app (a b : list string) : flatten (a ++ b) = flatten a ++ flatten b.
Proof.
  induction a as [|x r IH]; cbn [app flatten]; [reflexivity|].
  rewrite IH. symmetry. apply append_assoc.
Qed.

Lemma flatten_flat_map (A : Type) (g : A -> list string) (l : list A) :
  flatten (flat_map g l) = flatten (map (fun x => flatten (g x)) l).
Proof.
  induction l as [|x r IH]; cbn [flat_map map flatten]; [reflexivity|].
  rewrite flatten_app, IH. reflexivity.
Qed.

Lemma orElse_empty (s : option string) :
  orElse s "" = match s with Some v => v | None => "" end.
Proof.
  destruct s as [[|c r]|]; reflexivity.
Qed.

Lemma parts_text (parts : list ContentPart) :
  flatten (map partText parts) =
  flatten (map (fun c => match part_text c with Some s => s | None => "" end)
             (filter isTextPart parts)).
Proof.
  induction parts as [|c r IH]; cbn [map filter flatten]; [reflexivity|].
  unfold partText at 1. fold (isTextPart c).
  destruct (isTextPart c); cbn [map flatten]; rewrite IH; [|reflexivity].
  rewrite orElse_empty. reflexivity.
Qed.

Lemma itemText_segments (i : OutputItem) : itemText i = flatten (textSegments [i]).
Proof.
  unfold itemText, textSegments. cbn [flat_map]. rewrite app_nil_r.
  destruct (item_type i =? "message")%string; [|reflexivity].
  destruct (item_content i) as [parts|]; [|reflexivity].
  rewrite fold_append. cbn [append]. apply parts_text.
Qed.

(** X1. The text of a response: [output_text] when it is there and not
    empty, whatever the output array holds; otherwise the texts of the
    parts of type output_text or text inside the items of type message,
    concatenated in the order of the array, every other item and part
    contributing nothing; and the empty text without an array. *)
Theorem rawTextOf_segments (data : ResponseData) :
  (forall s, data_output_text data = Some s -> s <> "" -> rawTextOf data = s) /\
  (data_output_text data = None \/ data_output_text data = Some "" ->
   rawTextOf data =
   match data_output data with
   | Some items => flatten (textSegments items)
   | None => ""
   end).
Proof.
  unfold rawTextOf. split.
  - intros s E N. rewrite E. destruct s; [congruence|reflexivity].
  - intros E.
    assert (O : orElse (data_output_text data) "" = "") by (destruct E as [E|E]; rewrite E; reflexivity).
    rewrite O. cbn [nonEmpty].
    destruct (data_output data) as [items|]; [|reflexivity].
    rewrite fold_append. cbn [append].
    unfold textSegments. rewrite flatten_flat_map.
    f_equal. apply map_ext. intros i. rewrite itemText_segments.
    unfold textSegments. cbn [flat_map]. rewrite app_nil_r. reflexivity.
Qed.

Lemma rawTextOf_segments_witness : rawTextOf arrayData = "Hello, world".
Proof.
  rewrite (proj2 (rawTextOf_segments arrayData) (or_introl eq_refl)). reflexivity.
Defined.

(** X2. A completion carries a parsed value other than null only if a
    schema was asked for and the text of the response is not empty, and
    then it is what JSON.parse makes of the trimmed candidate found in the
    text: without a schema the text is never parsed, even when it is JSON. *)
Theorem parsed_only_with_schema (x : Exchange) (schema : option JsonSchema)
    (o : CompletionOutcome) :
  complete parse x schema = inr o ->
  parsed o <> JNull ->
  schema <> None /\ raw o <> "" /\ parse (trim (candidate (raw o))) = Some (parsed o).
Proof.
  unfold complete. intros H N.
  destruct (fetched x) as [e|r]; [discriminate|].
  destruct (negb (ok r)); [discriminate|].
  destruct (json r) as [e|data]; [discriminate|].
  inversion H; subst o; clear H. cbn [parsed raw parseResponse] in *.
  destruct schema as [s|]; cbn [andb] in N; [|congruence].
  destruct (rawTextOf data) as [|c rest] eqn:R; cbn [nonEmpty] in N; [congruence|].
  split; [discriminate|]. split; [discriminate|].
  unfold parsedOf in *. rewrite jsonStr_candidate in *.
  destruct (parse (trim (candidate (String c rest)))) as [v|]; [reflexivity|congruence].
Qed.

End ResponseFacts.

Lemma parsed_only_with_schema_witness :
  let o := parseResponse sampleParse (okData (stringify reviewDoc) 20) true in
  parsed o = reviewDoc /\
  Some SCHEMAS_board_member <> None /\ raw o <> "" /\
  sampleParse (trim (candidate (raw o))) = Some (parsed o).
Proof.
  split; [vm_compute; reflexivity|].
  apply (@parsed_only_with_schema sampleParse (okX (stringify reviewDoc) 20)
           (Some SCHEMAS_board_member)).
  - reflexivity.
  - vm_compute. discriminate.
Defined.

(** ** Where the JSON is looked for *)

Section FenceExtras.

Lemma prefix_append_l (p : string) : forall x y, prefix p x = true -> prefix p (x ++ y) = true.
Proof.
  induction p as [|a p IH]; intros x y H.
  - apply prefix_nil.
  - destruct x as [|c x]; [discriminate H|].
    rewrite prefix_cons in H. cbn [append]. rewrite prefix_cons.
    destruct (ascii_dec a c); [apply IH; exact H|discriminate H].
Qed.

Lemma prefix_split (a b : string) : forall s, prefix (a ++ b) s = true -> prefix a s = true.
Proof.
  induction a as [|c a IH]; intros s H.
  - apply prefix_nil.
  - destruct s as [|c' s]; [discriminate H|].
    cbn [append] in H. rewrite prefix_cons in *.
    destruct (ascii_dec c c'); [apply IH; exact H|discriminate H].
Qed.

Lemma prefix_self (p r : string) : prefix p (p ++ r) = true.
Proof.
  induction p as [|a p IH]; [apply prefix_nil|].
  cbn [append]. rewrite prefix_cons.
  destruct (ascii_dec a a); [exact IH|congruence].
Qed.

Lemma drop_append (p r : string) : drop (String.length p) (p ++ r) = r.
Proof. induction p as [|a p IH]; [reflexivity|exact IH]. Qed.

Lemma prefix_drop (p : string) : forall s,
  prefix p s = true -> s = p ++ drop (String.length p) s.
Proof.
  induction p as [|a p IH]; intros s H; [reflexivity|].
  destruct s as [|c s]; [discriminate H|].
  rewrite prefix_cons in H. destruct (ascii_dec a c); [|discriminate H].
  subst. cbn. f_equal. apply IH, H.
Qed.

Lemma splitAt_sound (n : string) : forall s b after,
  splitAt n s = Some (b, after) -> s = b ++ n ++ after.
Proof.
  induction s as [|c r IH]; intros b after H.
  - cbn [splitAt] in H. destruct (prefix n "") eqn:P; [|discriminate].
    inversion H; subst. cbn [append]. apply prefix_drop, P.
  - destruct (prefix n (String c r)) eqn:P.
    + rewrite splitAt_here in H by exact P. inversion H; subst. cbn [append].
      apply prefix_drop, P.
    + rewrite splitAt_later in H by exact P.
      destruct (splitAt n r) as [[b' a']|] eqn:E; [|discriminate].
      inversion H; subst. cbn [append]. f_equal. apply IH. reflexivity.
Qed.

(** What stands before the first occurrence holds no occurrence. *)
Lemma splitAt_first (a : ascii) (p : string) : forall s b after,
  splitAt (String a p) s = Some (b, after) -> includes (String a p) b = false.
Proof.
  induction s as [|c r IH]; intros b after H.
  - cbn in H. discriminate.
  - destruct (prefix (String a p) (String c r)) eqn:P.
    + rewrite splitAt_here in H by exact P. inversion H; subst. reflexivity.
    + rewrite splitAt_later in H by exact P.
      destruct (splitAt (String a p) r) as [[b' a']|] eqn:E; [|discriminate].
      inversion H; subst. cbn [includes]. rewrite (IH _ _ eq_refl), orb_false_r.
      destruct (prefix (String a p) (String c b')) eqn:Q; [|reflexivity].
      rewrite (splitAt_sound _ _ E) in P.
      change (String c (b' ++ String a p ++ after))
        with (String c b' ++ (String a p ++ after)) in P.
      rewrite (prefix_append_l _ _ _ Q) in P. discriminate.
Qed.

Lemma includes_trimStart (n : string) : forall s,
  includes n (trimStart s) = true -> includes n s = true.
Proof.
  induction s as [|c r IH]; intros H; [exact H|].
  cbn [trimStart] in H. destruct (isWhiteSpace c); [|exact H].
  cbn [includes]. rewrite (IH H). apply orb_true_r.
Qed.

Lemma trimEnd_prefix : forall s, exists w, s = trimEnd s ++ w.
Proof.
  induction s as [|c r [w IH]].
  - exists "". reflexivity.
  - cbn [trimEnd]. destruct (trimEnd r) as [|c' r'] eqn:E.
    + destruct (isWhiteSpace c).
      * exists (String c r). reflexivity.
      * exists w. cbn [append] in *. rewrite <- IH. reflexivity.
    + exists w. cbn [append] in *. rewrite <- IH. reflexivity.
Qed.

Lemma includes_append_l (n : string) : forall a b,
  includes n a = true -> includes n (a ++ b) = true.
Proof.
  induction a as [|c r IH]; intros b H.
  - cbn in H. rewrite orb_false_r in H. apply includes_here.
    apply (prefix_append_l n "" b H).
  - cbn [includes] in H. apply orb_true_iff in H. destruct H as [H|H].
    + apply includes_here. apply (prefix_append_l _ _ _ H).
    + cbn [append includes]. rewrite (IH _ H). apply orb_true_r.
Qed.

Lemma includes_trim (n s : string) : includes n (trim s) = true -> includes n s = true.
Proof.
  unfold trim. intros H. apply includes_trimStart.
  destruct (trimEnd_prefix (trimStart s)) as [w E]. rewrite E.
  apply includes_append_l, H.
Qed.

(** A fence followed by json and then a closing fence is also a fence and
    then a closing fence. *)
Lemma json_fence_is_fence : forall s pre after,
  splitAt "```json" s = Some (pre, after) -> hasFence after = true ->
  exists pre' after', splitAt "```" s = Some (pre', after') /\ hasFence after' = true.
Proof.
  induction s as [|c r IH]; intros pre after H F.
  - cbn in H. discriminate.
  - assert (D : after = drop (String.length pre + 7) (String c r))
      by (apply (splitAt_drop _ _ H)).
    destruct (prefix "```" (String c r)) eqn:P3.
    + exists "", (drop 3 (String c r)). split; [apply splitAt_here, P3|].
      apply hasFence_drop with (n := (String.length pre + 4)%nat).
      rewrite drop_drop. replace (3 + (String.length pre + 4))%nat with (String.length pre + 7)%nat by lia.
      rewrite <- D. exact F.
    + assert (P7 : prefix "```json" (String c r) = false).
      { destruct (prefix "```json" (String c r)) eqn:Q; [|reflexivity].
        rewrite (prefix_split "```" "json" _ Q) in P3. discriminate. }
      rewrite splitAt_later in H by exact P7.
      destruct (splitAt "```json" r) as [[b0 a0]|] eqn:E; [|discriminate].
      clear D. inversion H; subst.
      destruct (IH _ _ eq_refl F) as (pre' & after' & S' & F').
      exists (String c pre'), after'. split; [|exact F'].
      rewrite splitAt_later by exact P3. rewrite S'. reflexivity.
Qed.

Lemma between_json_none (txt : string) :
  between "```" "```" txt = None -> between "```json" "```" txt = None.
Proof.
  unfold between. intros H.
  destruct (splitAt "```json" txt) as [[pre after]|] eqn:E; [|reflexivity].
  destruct (splitAt "```" after) as [[b a]|] eqn:E2; [|reflexivity].
  assert (F : hasFence after = true) by (unfold hasFence; rewrite E2; reflexivity).
  destruct (json_fence_is_fence _ E F) as (pre' & after' & S' & F').
  rewrite S' in H. unfold hasFence in F'.
  destruct (splitAt "```" after') as [[b' a']|]; discriminate.
Qed.

Lemma splitAt_clean (p : string) : forall pre r,
  noBacktick pre = true ->
  splitAt (String "`" p) (pre ++ String "`" p ++ r) = Some (pre, r).
Proof.
  induction pre as [|c pre IH]; intros r H.
  - change ("" ++ String "`" p ++ r) with (String "`" p ++ r).
    rewrite splitAt_here by apply (prefix_self (String "`" p) r).
    rewrite (drop_append (String "`" p) r). reflexivity.
  - cbn [noBacktick] in H. apply andb_true_iff in H. destruct H as [C H].
    cbn [append]. rewrite splitAt_later.
    + cbn [append] in IH. rewrite (IH _ H). reflexivity.
    + rewrite prefix_cons. destruct (ascii_dec "`" c) as [<-|]; [discriminate C|reflexivity].
Qed.

End FenceExtras.

(** X3. A text without a pair of fences (no fence at all, or an opening
    fence that is never closed) is handed to JSON.parse as a whole,
    trimmed. *)
Theorem no_fence_pair_whole_text (rawText : string) :
  between "```" "```" rawText = None -> jsonStr rawText = Some (trim rawText).
Proof.
  intros H. rewrite jsonStr_candidate. unfold candidate.
  rewrite (between_json_none _ H), H. reflexivity.
Qed.

Lemma no_fence_pair_whole_text_witness :
  between "```" "```" ("```json" ++ nl ++ "{}") = None /\
  jsonStr ("```json" ++ nl ++ "{}") = Some ("```json" ++ nl ++ "{}").
Proof.
  split; [reflexivity|].
  apply (no_fence_pair_whole_text ("```json" ++ nl ++ "{}")). reflexivity.
Defined.

(** X4. When the text has a pair of fences, what is handed to JSON.parse
    never contains a fence: the capture stops at the first closing fence,
    so a JSON document that itself contains three backticks is cut there. *)
Theorem fenced_candidate_has_no_fence (rawText str : string) :
  between "```" "```" rawText <> None ->
  jsonStr rawText = Some str ->
  includes "```" str = false.
Proof.
  intros H J. rewrite jsonStr_candidate in J. inversion J; subst str; clear J.
  destruct (includes "```" (trim (candidate rawText))) eqn:I; [|reflexivity].
  apply includes_trim in I. unfold candidate, between in *.
  destruct (splitAt "```json" rawText) as [[pre after]|].
  - destruct (splitAt "```" after) as [[b a]|] eqn:E.
    + rewrite (@splitAt_first _ _ _ _ _ E) in I. discriminate.
    + destruct (splitAt "```" rawText) as [[pre' after']|]; [|congruence].
      destruct (splitAt "```" after') as [[b a]|] eqn:E'; [|congruence].
      rewrite (@splitAt_first _ _ _ _ _ E') in I. discriminate.
  - destruct (splitAt "```" rawText) as [[pre' after']|]; [|congruence].
    destruct (splitAt "```" after') as [[b a]|] eqn:E'; [|congruence].
    rewrite (@splitAt_first _ _ _ _ _ E') in I. discriminate.
Qed.

Lemma fenced_candidate_has_no_fence_witness :
  let txt := "```json" ++ nl ++ "{" ++ dq ++ "a" ++ dq ++ ":" ++ dq ++ "x```y" ++ dq ++ "}" ++ nl ++ "```" in
  jsonStr txt = Some ("{" ++ dq ++ "a" ++ dq ++ ":" ++ dq ++ "x") /\
  includes "```" ("{" ++ dq ++ "a" ++ dq ++ ":" ++ dq ++ "x") = false.
Proof.
  cbv zeta. split; [vm_compute; reflexivity|].
  apply (@fenced_candidate_has_no_fence
           ("```json" ++ nl ++ "{" ++ dq ++ "a" ++ dq ++ ":" ++ dq ++ "x```y" ++ dq ++ "}" ++ nl ++ "```")).
  - vm_compute. discriminate.
  - vm_compute. reflexivity.
Defined.

(** X5. A block opened by a fence followed by json, standing in prose
    that has no backtick before it, gives its own contents, trimmed, when
    the contents have no backtick: whatever follows the closing fence is
    ignored. *)
Theorem json_block_in_prose (pre body post : string) :
  noBacktick pre = true -> noBacktick body = true ->
  jsonStr (pre ++ "```json" ++ body ++ "```" ++ post) = Some (trim body).
Proof.
  intros P B. rewrite jsonStr_candidate. unfold candidate, between.
  rewrite (splitAt_clean "``json" pre (body ++ "```" ++ post) P).
  rewrite (splitAt_clean "``" body post B). reflexivity.
Qed.

Lemma json_block_in_prose_witness :
  jsonStr ("Here is my answer:" ++ nl ++ "```json" ++ (nl ++ "{}" ++ nl) ++ "```" ++ " Hope `this` helps.")
  = Some "{}".
Proof.
  apply (json_block_in_prose ("Here is my answer:" ++ nl) (nl ++ "{}" ++ nl) " Hope `this` helps.");
    reflexivity.
Defined.

(** ** The retry wrapper: budget, pauses and warnings *)

Section RetryExtras.

Variable parse : string -> option JsValue.
Variable provider : nat -> Exchange.
Variable schema : option JsonSchema.
Variable retries : Z.

Lemma invocations_cons_fetched (ms : Z) (tr : list RetryEvent) :
  invocations (Fetched ms :: tr) = S (invocations tr).
Proof. reflexivity. Qed.

Lemma invocations_cons_warned (a r : Z) (m : string) (tr : list RetryEvent) :
  invocations (Warned a r m :: tr) = invocations tr.
Proof. reflexivity. Qed.

Lemma invocations_cons_slept (ms : Z) (tr : list RetryEvent) :
  invocations (Slept ms :: tr) = invocations tr.
Proof. reflexivity. Qed.

Lemma invocations_pause (b : bool) (ms : Z) (tr : list RetryEvent) :
  invocations ((if b then [Slept ms] else []) ++ tr) = invocations tr.
Proof. destruct b; reflexivity. Qed.

Lemma retryLoop_past (fuel : nat) (attempt : Z) (k : nat) (lastError : Thrown) :
  retries < attempt ->
  retryLoop parse provider schema retries fuel attempt k lastError = ([], Throw lastError).
Proof.
  intros H. destruct fuel as [|fuel]; [reflexivity|].
  cbn [retryLoop]. destruct (Z.leb_spec attempt retries); [lia|reflexivity].
Qed.

Lemma retryLoop_budget (fuel : nat) : forall (attempt : Z) (k : nat) (lastError : Thrown),
  (invocations (fst (retryLoop parse provider schema retries fuel attempt k lastError)) <= fuel)%nat.
Proof.
  induction fuel as [|fuel IH]; intros attempt k lastError; cbn [retryLoop].
  - cbn. lia.
  - destruct (attempt <=? retries)%Z; [|cbn; lia].
    destruct (complete parse (provider k) schema) as [error|outcome]; [|cbn; lia].
    destruct (includes "(4" (message error)); [cbn; lia|].
    specialize (IH (attempt + 1) (S k) (ThrownError error)).
    destruct (retryLoop parse provider schema retries fuel (attempt + 1) (S k) (ThrownError error))
      as [later res].
    cbn [fst] in *. cbn [app]. rewrite invocations_cons_fetched, invocations_cons_warned,
      invocations_pause. lia.
Qed.

Lemma retryLoop_sleeps_fewer (fuel : nat) : forall (attempt : Z) (k : nat) (lastError : Thrown),
  retries - attempt + 1 <= Z.of_nat fuel -> attempt <= retries ->
  (List.length (sleeps (fst (retryLoop parse provider schema retries fuel attempt k lastError)))
   < invocations (fst (retryLoop parse provider schema retries fuel attempt k lastError)))%nat.
Proof.
  induction fuel as [|fuel IH]; intros attempt k lastError F A; [lia|].
  cbn [retryLoop]. destruct (Z.leb_spec attempt retries); [|lia].
  destruct (complete parse (provider k) schema) as [error|outcome]; [|cbn; lia].
  destruct (includes "(4" (message error)); [cbn; lia|].
  destruct (Z.ltb_spec attempt retries) as [L|L].
  - specialize (IH (attempt + 1) (S k) (ThrownError error) ltac:(lia) ltac:(lia)).
    destruct (retryLoop parse provider schema retries fuel (attempt + 1) (S k) (ThrownError error))
      as [later res].
    cbn [fst app] in *. rewrite invocations_cons_fetched, invocations_cons_warned,
      invocations_cons_slept. cbn [sleeps flat_map app List.length]. fold (sleeps later). lia.
  - rewrite retryLoop_past by lia. cbn. lia.
Qed.

Lemma retryLoop_sleeps_sum (fuel : nat) : forall (attempt : Z) (k : nat) (lastError : Thrown),
  0 <= attempt -> attempt <= retries ->
  sumZ (sleeps (fst (retryLoop parse provider schema retries fuel attempt k lastError)))
  <= (2 ^ retries - 2 ^ attempt) * 1000.
Proof.
  induction fuel as [|fuel IH]; intros attempt k lastError P A.
  - cbn. assert (2 ^ attempt <= 2 ^ retries) by (apply Z.pow_le_mono_r; lia). lia.
  - assert (M : 2 ^ attempt <= 2 ^ retries) by (apply Z.pow_le_mono_r; lia).
    cbn [retryLoop]. destruct (Z.leb_spec attempt retries); [|lia].
    destruct (complete parse (provider k) schema) as [error|outcome]; [|cbn; lia].
    destruct (includes "(4" (message error)); [cbn; lia|].
    destruct (Z.ltb_spec attempt retries) as [L|L].
    + specialize (IH (attempt + 1) (S k) (ThrownError error) ltac:(lia) ltac:(lia)).
      destruct (retryLoop parse provider schema retries fuel (attempt + 1) (S k) (ThrownError error))
        as [later res].
      cbn [fst app] in *. cbn [sleeps flat_map app sumZ fold_right]. fold (sleeps later).
      fold (sumZ (sleeps later)).
      rewrite Z.pow_add_r in IH by lia. change (2 ^ 1) with 2 in IH. lia.
    + rewrite retryLoop_past by lia. cbn. lia.
Qed.

Lemma warnings_pause (b : bool) (ms : Z) (tr : list RetryEvent) :
  warnings ((if b then [Slept ms] else []) ++ tr) = warnings tr.
Proof. destruct b; reflexivity. Qed.

Lemma no_attempt (attempt : Z) (k : nat) (lastError : Thrown) :
  (forall j a m, nth_error (warnings []) j = Some (a, m) ->
     a = attempt + Z.of_nat j /\
     exists e, complete parse (provider (k + j)%nat) schema = inl e /\ message e = m) /\
  (forall o, @Throw CompletionOutcome lastError = Return o ->
     invocations [] = S (List.length (warnings [])) /\
     complete parse (provider (k + List.length (warnings []))%nat) schema = inr o) /\
  (forall t, @Throw CompletionOutcome lastError = Throw t ->
     invocations [] = List.length (warnings [])).
Proof.
  split; [|split].
  - intros [|j] a m H; discriminate.
  - intros o H. discriminate.
  - intros t H. reflexivity.
Qed.

Lemma retryLoop_warnings (fuel : nat) : forall (attempt : Z) (k : nat) (lastError : Thrown),
  let tr := fst (retryLoop parse provider schema retries fuel attempt k lastError) in
  let res := snd (retryLoop parse provider schema retries fuel attempt k lastError) in
  (forall j a m, nth_error (warnings tr) j = Some (a, m) ->
     a = attempt + Z.of_nat j /\
     exists e, complete parse (provider (k + j)%nat) schema = inl e /\ message e = m) /\
  (forall o, res = Return o ->
     invocations tr = S (List.length (warnings tr)) /\
     complete parse (provider (k + List.length (warnings tr))%nat) schema = inr o) /\
  (forall t, res = Throw t -> invocations tr = List.length (warnings tr)).
Proof.
  induction fuel as [|fuel IH]; intros attempt k lastError; cbn [retryLoop].
  - cbn [fst snd]. apply no_attempt.
  - destruct (attempt <=? retries)%Z; [|cbn [fst snd]; apply no_attempt].
    destruct (complete parse (provider k) schema) as [error|outcome] eqn:C.
    2:{ cbn [fst snd]. split; [|split].
        - intros [|j] a m H; discriminate.
        - intros o H. inversion H; subst. cbn. rewrite Nat.add_0_r. split; [reflexivity|exact C].
        - intros t H. discriminate. }
    destruct (includes "(4" (message error)).
    { cbn [fst snd]. split; [|split].
      - intros [|[|j]] a m H; cbn in H; inversion H; subst.
        split; [lia|]. exists error. rewrite Nat.add_0_r. split; [exact C|reflexivity].
      - intros o H. discriminate.
      - intros t H. reflexivity. }
    specialize (IH (attempt + 1) (S k) (ThrownError error)).
    destruct (retryLoop parse provider schema retries fuel (attempt + 1) (S k) (ThrownError error))
      as [later res].
    cbn [fst snd] in *. cbv zeta in IH. destruct IH as (W & R & T).
    cbn [app]. rewrite invocations_cons_fetched, invocations_cons_warned, invocations_pause.
    cbn [warnings flat_map app]. fold (warnings ((if (attempt <? retries)%Z
      then [Slept (2 ^ attempt * 1000)] else []) ++ later)).
    rewrite warnings_pause. cbn [List.length].
    split; [|split].
    + intros [|j] a m H; cbn [nth_error] in H.
      * inversion H; subst. split; [lia|]. exists error.
        rewrite Nat.add_0_r. split; [exact C|reflexivity].
      * destruct (W _ _ _ H) as (Ha & e & He & Hm). split; [lia|].
        exists e. replace (k + S j)%nat with (S k + j)%nat by lia. split; assumption.
    + intros o H. destruct (R _ H) as (Hi & Hc). split; [lia|].
      replace (k + S (List.length (warnings later)))%nat
        with (S k + List.length (warnings later))%nat by lia. exact Hc.
    + intros t H. rewrite (T _ H). reflexivity.
Qed.

End RetryExtras.

(** X6. The retry wrapper never invokes the provider more often than
    its budget (maxRetries, or the client's retryAttempts when none is
    given).  With a budget below 1 it does not invoke the provider at all
    and throws [undefined], and that is the only way for it to throw
    [undefined]. *)
Theorem retry_within_budget (parse : string -> option JsValue) (retryAttempts : Z)
    (provider : nat -> Exchange) (schema : option JsonSchema) (maxRetries : option Z) :
  let retries := match maxRetries with Some n => n | None => retryAttempts end in
  let run := completeWithRetry parse retryAttempts provider schema maxRetries in
  Z.of_nat (invocations (fst run)) <= Z.max 0 retries /\
  (retries < 1 -> run = ([], Throw ThrownUndefined)) /\
  (snd run = Throw ThrownUndefined -> retries < 1).
Proof.
  cbv zeta. unfold completeWithRetry.
  set (retries := match maxRetries with Some n => n | None => retryAttempts end).
  split; [|split].
  - pose proof (@retryLoop_budget parse provider schema retries (Z.to_nat retries) 1 0%nat
                  ThrownUndefined). lia.
  - intros H. apply retryLoop_past. lia.
  - intros H. destruct (Z.ltb_spec retries 1) as [L|L]; [exact L|exfalso].
    destruct (Z.to_nat retries) as [|fuel] eqn:F; [lia|].
    cbn [retryLoop] in H. destruct (Z.leb_spec 1 retries); [|lia].
    destruct (complete parse (provider 0%nat) schema) as [error|outcome]; [|discriminate].
    destruct (includes "(4" (message error)); [discriminate|].
    destruct (retryLoop parse provider schema retries fuel (1 + 1) 1%nat (ThrownError error))
      as [later res] eqn:E.
    cbn [snd] in H. subst res.
    destruct (retryLoop_throws_last _ _ _ _ _ _ _ _ E) as [[_ X]|(e & _ & X & _)]; discriminate.
Qed.

(** X7. The wrapper never pauses after its last invocation: a call that
    invokes the provider n times pauses fewer than n times.  The pauses
    add up to at most (2^budget - 2) seconds: 6 seconds for the default
    budget of 3. *)
Theorem retry_backoff_bounds (parse : string -> option JsValue) (retryAttempts : Z)
    (provider : nat -> Exchange) (schema : option JsonSchema) (maxRetries : option Z) :
  let retries := match maxRetries with Some n => n | None => retryAttempts end in
  let tr := fst (completeWithRetry parse retryAttempts provider schema maxRetries) in
  (List.length (sleeps tr) <= invocations tr - 1)%nat /\
  sumZ (sleeps tr) <= Z.max 0 ((2 ^ retries - 2) * 1000).
Proof.
  cbv zeta. unfold completeWithRetry.
  set (retries := match maxRetries with Some n => n | None => retryAttempts end).
  destruct (Z.ltb_spec retries 1) as [L|L].
  - rewrite retryLoop_past by lia. cbn. lia.
  - split.
    + pose proof (@retryLoop_sleeps_fewer parse provider schema retries (Z.to_nat retries) 1 0%nat
                    ThrownUndefined ltac:(lia) ltac:(lia)). lia.
    + pose proof (@retryLoop_sleeps_sum parse provider schema retries (Z.to_nat retries) 1 0%nat
                    ThrownUndefined ltac:(lia) ltac:(lia)) as H.
      change (2 ^ 1) with 2 in H. lia.
Qed.

(** X8. Every failed attempt is warned about once, with its number,
    counted from 1, and the message of its error.  An outcome that is
    returned is the outcome of the last invocation, made after as many
    failed ones as there are warnings; a call that throws has made exactly
    as many invocations as it has given warnings. *)
Theorem retry_warnings_follow_attempts (parse : string -> option JsValue) (retryAttempts : Z)
    (provider : nat -> Exchange) (schema : option JsonSchema) (maxRetries : option Z) :
  let tr := fst (completeWithRetry parse retryAttempts provider schema maxRetries) in
  let res := snd (completeWithRetry parse retryAttempts provider schema maxRetries) in
  (forall j a m, nth_error (warnings tr) j = Some (a, m) ->
     a = 1 + Z.of_nat j /\
     exists e, complete parse (provider j) schema = inl e /\ message e = m) /\
  (forall o, res = Return o ->
     invocations tr = S (List.length (warnings tr)) /\
     complete parse (provider (List.length (warnings tr))) schema = inr o) /\
  (forall t, res = Throw t -> invocations tr = List.length (warnings tr)).
Proof.
  cbv zeta. unfold completeWithRetry.
  exact (@retryLoop_warnings parse provider schema _ _ 1 0%nat ThrownUndefined).
Qed.

(** X9. A response with a status from 400 to 499 to the first attempt is
    thrown at once, whatever the budget of at least 1: one invocation, no
    pause, and the error names the status and carries the body. *)
Theorem client_error_thrown_at_once (parse : string -> option JsValue) (retryAttempts : Z)
    (provider : nat -> Exchange) (schema : option JsonSchema) (maxRetries : option Z)
    (r : Response) :
  1 <= match maxRetries with Some n => n | None => retryAttempts end ->
  fetched (provider 0%nat) = Resolved r ->
  400 <= status r <= 499 ->
  let run := completeWithRetry parse retryAttempts provider schema maxRetries in
  invocations (fst run) = 1%nat /\
  sleeps (fst run) = [] /\
  snd run = Throw (ThrownError
              (mkError ("OpenAI Responses API error (" ++ ofZ (status r) ++ "): " ++ text r))).
Proof.
  intros B F S. cbv zeta.
  assert (E : completeWithRetry parse retryAttempts provider schema maxRetries =
              completeWithRetry parse retryAttempts provider schema
                (Some (match maxRetries with Some n => n | None => retryAttempts end)))
    by (destruct maxRetries; reflexivity).
  rewrite E, (status_4xx_not_retried parse retryAttempts schema provider B F S).
  repeat split; reflexivity.
Qed.

Lemma client_error_thrown_at_once_witness :
  let run := completeWithRetry sampleParse 3 (fun _ => failX 429 "Too Many Requests") None None in
  invocations (fst run) = 1%nat /\
  sleeps (fst run) = [] /\
  snd run = Throw (ThrownError
              (mkError ("OpenAI Responses API error (" ++ ofZ 429 ++ "): " ++ "Too Many Requests"))).
Proof.
  apply (@client_error_thrown_at_once sampleParse 3 (fun _ => failX 429 "Too Many Requests")
           None None
           {| status := 429; text := "Too Many Requests";
              json := inl {| name := "SyntaxError"; message := "Unexpected token" |} |}).
  - lia.
  - reflexivity.
  - cbn. lia.
Defined.

(** ** The client: construction and the parallel helper *)

Section RetryUndefined.

Variable parse : string -> option JsValue.
Variable provider : nat -> Exchange.
Variable schema : option JsonSchema.

(** The wrapper throws [undefined] exactly when its budget is below 1. *)
Lemma undefined_iff_no_budget (retryAttempts : Z) (maxRetries : option Z) :
  snd (completeWithRetry parse retryAttempts provider schema maxRetries) = Throw ThrownUndefined
  <-> match maxRetries with Some n => n | None => retryAttempts end < 1.
Proof.
  unfold completeWithRetry.
  set (retries := match maxRetries with Some n => n | None => retryAttempts end).
  split.
  - intros H. destruct (Z.ltb_spec retries 1) as [L|L]; [exact L|exfalso].
    destruct (Z.to_nat retries) as [|fuel] eqn:F; [lia|].
    cbn [retryLoop] in H. destruct (Z.leb_spec 1 retries); [|lia].
    destruct (complete parse (provider 0%nat) schema) as [error|outcome]; [|discriminate].
    destruct (includes "(4" (message error)); [discriminate|].
    destruct (retryLoop parse provider schema retries fuel (1 + 1) 1%nat (ThrownError error))
      as [later res] eqn:E.
    cbn [snd] in H. subst res.
    destruct (retryLoop_throws_last _ _ _ _ _ _ _ _ E) as [[_ X]|(e & _ & X & _)]; discriminate.
  - intros H. rewrite retryLoop_past by lia. reflexivity.
Qed.

End RetryUndefined.

Section ClientFacts.

Import ClientSetup.

Lemma orElse_nonEmpty (s : option string) (dflt : string) : dflt <> "" -> orElse s dflt <> "".
Proof.
  intros H. destruct s as [[|c r]|]; cbn; [exact H|discriminate|exact H].
Qed.

Lemma numOr_nonzero (n : option Z) (dflt : Z) : dflt <> 0 -> numOr n dflt <> 0.
Proof.
  intros H. unfold numOr. destruct n as [v|]; [|exact H].
  destruct (Z.eqb_spec v 0); [exact H|assumption].
Qed.

(** X10. Constructing a client fails exactly when neither the options nor
    the environment give a key that is not empty, and then with the error
    that says that the key is not set.  No setting of a constructed client
    is ever empty or zero: an empty text, a zero and a number that cannot
    be read all give way to the next source or to the built-in default. *)
Theorem client_settings_never_empty (cfg : PersonasConfig) (env : ProcessEnv)
    (opts : ClientOptions) :
  (newLLMClient cfg env opts = Throw (ThrownError keyIsNotSet) <->
   (options_apiKey opts = None \/ options_apiKey opts = Some "") /\
   (OPENAI_API_KEY env = None \/ OPENAI_API_KEY env = Some "")) /\
  (forall t, newLLMClient cfg env opts = Throw t -> t = ThrownError keyIsNotSet) /\
  (forall c, newLLMClient cfg env opts = Return c ->
     apiKey c <> "" /\ model c <> "" /\ maxTokens c <> 0 /\ reasoningEffort c <> "" /\
     verbosity c <> "" /\ baseUrl c <> "" /\ retryAttempts c <> 0).
Proof.
  unfold newLLMClient. split; [|split].
  - destruct (options_apiKey opts) as [[|c r]|]; destruct (OPENAI_API_KEY env) as [[|c' r']|];
      cbn; split; intros H; try discriminate; auto;
      destruct H as [[H|H] [H'|H']]; discriminate.
  - intros t H.
    destruct (negb (nonEmpty (orElse (options_apiKey opts) (orElse (OPENAI_API_KEY env) ""))));
      [inversion H; reflexivity|discriminate].
  - intros c H.
    destruct (nonEmpty (orElse (options_apiKey opts) (orElse (OPENAI_API_KEY env) ""))) eqn:K;
      cbn [negb] in H; [|discriminate].
    inversion H; subst c; clear H.
    cbn [apiKey model maxTokens reasoningEffort verbosity baseUrl retryAttempts].
    repeat split.
    + intros E. rewrite E in K. discriminate.
    + apply orElse_nonEmpty, orElse_nonEmpty. discriminate.
    + apply numOr_nonzero, numOr_nonzero. discriminate.
    + apply orElse_nonEmpty, orElse_nonEmpty. discriminate.
    + apply orElse_nonEmpty, orElse_nonEmpty. discriminate.
    + apply orElse_nonEmpty. discriminate.
    + apply numOr_nonzero. discriminate.
Qed.

(** X11. The retry budget of a constructed client is the configured
    number of attempts, and 3 when none or 0 is configured: a budget of 0
    cannot be configured.  A call through the client invokes the provider
    at most that many times, and it throws [undefined] exactly when a
    negative number of attempts is configured. *)
Theorem client_retry_budget (cfg : PersonasConfig) (env : ProcessEnv) (opts : ClientOptions)
    (c : LLMClient) (parse : string -> option JsValue) (provider : nat -> Exchange)
    (schema : option JsonSchema) :
  newLLMClient cfg env opts = Return c ->
  let run := completeWithRetryOf parse c provider schema in
  (retry_attempts cfg = None \/ retry_attempts cfg = Some 0 -> retryAttempts c = 3) /\
  (forall n, retry_attempts cfg = Some n -> n <> 0 -> retryAttempts c = n) /\
  Z.of_nat (invocations (fst run)) <= Z.max 0 (retryAttempts c) /\
  (snd run = Throw ThrownUndefined <-> exists n, retry_attempts cfg = Some n /\ n < 0).
Proof.
  unfold newLLMClient, completeWithRetryOf. intros H. cbv zeta.
  destruct (negb (nonEmpty (orElse (options_apiKey opts) (orElse (OPENAI_API_KEY env) ""))));
    [discriminate|].
  inversion H; subst c; clear H. cbn [retryAttempts].
  split; [|split; [|split]].
  - intros [E|E]; rewrite E; reflexivity.
  - intros n E N. rewrite E. unfold numOr. destruct (Z.eqb_spec n 0); [contradiction|reflexivity].
  - unfold completeWithRetry.
    pose proof (@retryLoop_budget parse provider schema (numOr (retry_attempts cfg) 3)
                  (Z.to_nat (numOr (retry_attempts cfg) 3)) 1 0%nat ThrownUndefined).
    lia.
  - rewrite undefined_iff_no_budget. unfold numOr.
    destruct (retry_attempts cfg) as [n|].
    + destruct (Z.eqb_spec n 0).
      * split; [lia|]. intros (m & E & L). inversion E. lia.
      * split.
        -- intros L. exists n. split; [reflexivity|lia].
        -- intros (m & E & L). inversion E. lia.
    + split; [lia|]. intros (m & E & L). discriminate.
Qed.

End ClientFacts.

Lemma client_retry_budget_witness :
  let cfg := {| ClientSetup.retry_attempts := Some 0; ClientSetup.reasoning_overrides := None |} in
  let env := {| ClientSetup.OPENAI_API_KEY := Some "sk-test"; ClientSetup.LLM_MODEL := None;
                ClientSetup.LLM_MAX_TOKENS := Some "8192 tokens";
                ClientSetup.LLM_REASONING_EFFORT := None; ClientSetup.LLM_VERBOSITY := Some "" |} in
  exists c,
    ClientSetup.newLLMClient cfg env ClientSetup.noOptions = Return c /\
    ClientSetup.maxTokens c = 8192 /\
    ClientSetup.retryAttempts c = 3 /\
    invocations (fst (ClientSetup.completeWithRetryOf sampleParse c always503 None)) = 3%nat.
Proof.
  cbv zeta. eexists. split; [reflexivity|].
  split; [reflexivity|].
  destruct (@client_retry_budget
              {| ClientSetup.retry_attempts := Some 0; ClientSetup.reasoning_overrides := None |}
              {| ClientSetup.OPENAI_API_KEY := Some "sk-test"; ClientSetup.LLM_MODEL := None;
                 ClientSetup.LLM_MAX_TOKENS := Some "8192 tokens";
                 ClientSetup.LLM_REASONING_EFFORT := None; ClientSetup.LLM_VERBOSITY := Some "" |}
              ClientSetup.noOptions _ sampleParse always503 None eq_refl) as (A & _ & _ & _).
  split; [apply A; right; reflexivity|vm_compute; reflexivity].
Defined.

Section ParallelFacts.

Import Parallel.

Variable parse : string -> option JsValue.

Lemma firstFailure_none (l : list Settled) :
  firstFailure l = None <-> map snd l = map inr (outcomes l).
Proof.
  induction l as [|[tm [e|o]] r IH]; cbn [firstFailure outcomes map snd].
  - split; reflexivity.
  - split.
    + destruct (firstFailure r) as [[tm' e']|]; [destruct (tm' <? tm)%Z|]; discriminate.
    + intros H. exfalso. clear IH. revert H. generalize (outcomes r). intros [|o os] H; discriminate.
  - rewrite IH. split; intros H; [rewrite H; reflexivity|inversion H; reflexivity].
Qed.

Lemma outcomes_unique (l : list Settled) (outs : list CompletionOutcome) :
  map snd l = map inr outs -> outcomes l = outs.
Proof.
  revert outs. induction l as [|[tm [e|o]] r IH]; intros [|o' outs] H; cbn in H;
    try discriminate; [reflexivity|].
  inversion H; subst. cbn [outcomes]. f_equal. apply IH. assumption.
Qed.

Lemma firstFailure_earliest (l : list Settled) : forall tm e,
  firstFailure l = Some (tm, e) ->
  In (tm, inl e) l /\ forall tm' e', In (tm', inl e') l -> tm <= tm'.
Proof.
  induction l as [|[tm0 [e0|o0]] r IH]; intros tm e H; cbn [firstFailure] in H.
  - discriminate.
  - destruct (firstFailure r) as [[tm1 e1]|] eqn:F.
    + destruct (IH _ _ eq_refl) as (I & M).
      destruct (Z.ltb_spec tm1 tm0) as [L|L]; inversion H; subst; clear H.
      * split; [right; exact I|].
        intros tm' e' [X|X]; [inversion X; subst; lia|apply (M _ _ X)].
      * split; [left; reflexivity|].
        intros tm' e' [X|X]; [inversion X; subst; lia|].
        pose proof (M _ _ X). lia.
    + inversion H; subst; clear H. split; [left; reflexivity|].
      intros tm' e' [X|X]; [inversion X; subst; lia|exfalso].
      clear IH. induction r as [|[tm2 [e2|o2]] r IHr]; [destruct X| |].
      * cbn [firstFailure] in F.
        destruct (firstFailure r) as [[tm3 e3]|]; [destruct (tm3 <? tm2)%Z|]; discriminate.
      * cbn [firstFailure] in F. destruct X as [X|X]; [discriminate|]. apply IHr; assumption.
  - destruct (IH _ _ H) as (I & M). split; [right; exact I|].
    intros tm' e' [X|X]; [discriminate|apply (M _ _ X)].
Qed.

(** X12. [completeParallel] makes one attempt for each request and does
    not retry.  It returns exactly when every request succeeds, and then
    the outcomes stand in the order of the requests; otherwise it throws
    the error of a failed request that no other failed request precedes
    in time. *)
Theorem parallel_all_or_nothing (requests : list (Exchange * option JsonSchema)) :
  (forall outs,
     completeParallel parse requests = Return outs <->
     map (fun r => complete parse (fst r) (snd r)) requests = map inr outs) /\
  (forall t,
     completeParallel parse requests = Throw t ->
     exists r e,
       In r requests /\ complete parse (fst r) (snd r) = inl e /\ t = ThrownError e /\
       forall r' e', In r' requests -> complete parse (fst r') (snd r') = inl e' ->
                     latency (fst r) <= latency (fst r')).
Proof.
  unfold completeParallel. cbv zeta.
  assert (S : map snd (map (settle parse) requests)
              = map (fun r => complete parse (fst r) (snd r)) requests)
    by (rewrite map_map; reflexivity).
  split.
  - intros outs. rewrite <- S.
    destruct (firstFailure (map (settle parse) requests)) as [[tm e]|] eqn:F.
    + split; [discriminate|]. intros H. exfalso.
      assert (N : firstFailure (map (settle parse) requests) = None).
      { apply firstFailure_none. rewrite (outcomes_unique _ _ H). exact H. }
      congruence.
    + apply firstFailure_none in F. split.
      * intros H. inversion H; subst. exact F.
      * intros H. rewrite (outcomes_unique _ _ H). reflexivity.
  - intros t H.
    destruct (firstFailure (map (settle parse) requests)) as [[tm e]|] eqn:F; [|discriminate].
    inversion H; subst t; clear H.
    destruct (firstFailure_earliest _ F) as (I & M).
    apply in_map_iff in I. destruct I as (r & E & I). unfold settle in E. inversion E; subst.
    exists r, e. repeat split; auto.
    intros r' e' I' C'. apply (M (latency (fst r')) e').
    apply in_map_iff. exists r'. split; [|exact I']. unfold settle. rewrite C'. reflexivity.
Qed.

End ParallelFacts.

(** ** Reading a number from the environment *)

Section ParseIntFacts.

Import ClientSetup.








(** X14. The client of the module is constructed at most once: after a
    call of [getClient] that returned a client, every later call returns
    that same client without reading the environment again; a construction
    that failed is not remembered and is tried again by the next call. *)
Theorem getClient_constructs_once (cfg cfg' : PersonasConfig) (env env' : ProcessEnv)
    (kept : option LLMClient) :
  (forall c, snd (getClient cfg env kept) = Return c ->
             getClient cfg' env' (fst (getClient cfg env kept)) = (Some c, Return c)) /\
  (forall t, snd (getClient cfg env kept) = Throw t ->
             kept = None /\ fst (getClient cfg env kept) = None /\
             getClient cfg' env' (fst (getClient cfg env kept))
             = match newLLMClient cfg' env' noOptions with
               | Return c => (Some c, Return c)
               | Throw t' => (None, Throw t')
               end).
Proof.
  unfold getClient. destruct kept as [k|].
  - cbn [fst snd]. split; [intros c H; inversion H; reflexivity|intros t H; discriminate H].
  - destruct (newLLMClient cfg env noOptions) as [c0|t0]; cbn [fst snd].
    + split; [intros c H; inversion H; reflexivity|intros t H; discriminate H].
    + split; [intros c H; discriminate H|]. intros t _. repeat split.
Qed.

End ParseIntFacts.


(** ** The texts sent to the personas *)

Section TrimFacts.

Lemma trimStart_keep (c : ascii) (r : string) :
  isWhiteSpace c = false -> trimStart (String c r) = String c r.
Proof. intros H. cbn [trimStart]. rewrite H. reflexivity. Qed.

Lemma trimEnd_cons (c : ascii) (r : string) :
  isWhiteSpace c = false -> trimEnd (String c r) = String c (trimEnd r).
Proof.
  intros H. cbn [trimEnd]. destruct (trimEnd r); [rewrite H|]; reflexivity.
Qed.

Lemma trimEnd_keep (a s : string) :
  trimEnd s <> "" -> trimEnd (a ++ s) = a ++ trimEnd s.
Proof.
  intros H. induction a as [|c a IH]; [reflexivity|].
  cbn [append trimEnd]. rewrite IH.
  destruct (a ++ trimEnd s) as [|c' r'] eqn:E; [|reflexivity].
  destruct a; cbn [append] in E; [contradiction|discriminate].
Qed.

Lemma trimEnd_kept (a s : string) : trimEnd s <> "" -> trimEnd (a ++ s) <> "".
Proof.
  intros H. rewrite trimEnd_keep by exact H.
  destruct a; cbn [append]; [exact H|discriminate].
Qed.

End TrimFacts.

Section MemoText.

Variable memo : Memo.

Lemma memo_layout_eq :
  formatMemoForPrompt memo = trim (nl ++ "## Board Memo" ++ nl ++ layout (memoSections memo)).
Proof.
  unfold formatMemoForPrompt. f_equal.
  cbn [layout memoSections]. unfold section, bullets, numbered, constraintLines, join.
  cbn [concat]. rewrite append_empty_r.
  repeat rewrite append_assoc. reflexivity.
Qed.

Lemma questions_kept (s : string) :
  trimEnd ("### Questions for the Board" ++ s) = "### Questions for the Board" ++ trimEnd s.
Proof.
  change ("### Questions for the Board" ++ s)
    with ("### Questions for the Boar" ++ String "d" s).
  rewrite trimEnd_keep; rewrite trimEnd_cons by reflexivity; [reflexivity|discriminate].
Qed.

(** X15. What trimming does to the memo text: it drops the line feed
    before the title and the white space at the very end, after the last
    question.  The title, the six headers and the bodies of the first five
    sections always stand in the text exactly as they were rendered, also
    for a memo in which every list is empty. *)
Theorem memo_text_after_trim :
  formatMemoForPrompt memo =
    "## Board Memo" ++ nl ++
    layout (firstn 5 (memoSections memo)) ++
    nl ++ "### Questions for the Board" ++
    trimEnd (nl ++ numbered (questions_for_board memo)).
Proof.
  rewrite memo_layout_eq. rewrite trim_nl_l. unfold trim.
  change ("## Board Memo" ++ nl ++ layout (memoSections memo))
    with (String "#" ("# Board Memo" ++ nl ++ layout (memoSections memo))).
  rewrite trimStart_keep by reflexivity.
  change (String "#" ("# Board Memo" ++ nl ++ layout (memoSections memo)))
    with ("## Board Memo" ++ nl ++ layout (memoSections memo)).
  cbn [memoSections layout firstn]. unfold section.
  assert (Q : trimEnd ("### Questions for the Board" ++ nl ++
                       numbered (questions_for_board memo) ++ nl)
              = "### Questions for the Board" ++
                trimEnd (nl ++ numbered (questions_for_board memo))).
  { rewrite questions_kept. rewrite <- append_assoc, trimEnd_nl. reflexivity. }
  assert (K : trimEnd ("### Questions for the Board" ++ nl ++
                       numbered (questions_for_board memo) ++ nl) <> "")
    by (rewrite Q; discriminate).
  rewrite !append_empty_r.
  repeat rewrite append_assoc.
  repeat (rewrite trimEnd_keep; [|solve [repeat (first [exact K | apply trimEnd_kept])]]).
  rewrite Q. reflexivity.
Qed.

End MemoText.

Section Numbering.



End Numbering.


Section SynthesisText.

Lemma joinOr_joinable (v : option JsValue) (sep : string) :
  joinable v = true -> exists s, joinOr v sep = Return s.
Proof.
  unfold joinable, joinOr, Json.or, truthyOpt. intros H.
  destruct v as [x|]; [|eexists; reflexivity].
  destruct x as [|b|n|s|l|fs]; cbn [truthy] in *.
  - eexists. reflexivity.
  - destruct b; [discriminate H|eexists; reflexivity].
  - destruct (n =? 0)%Z; [eexists; reflexivity|discriminate H].
  - destruct s; [eexists; reflexivity|discriminate H].
  - eexists. reflexivity.
  - discriminate H.
Qed.

Lemma joinOr_not_joinable (v : option JsValue) (sep : string) :
  joinable v = false -> joinOr v sep = Throw (ThrownError notAFunction).
Proof.
  unfold joinable, joinOr, Json.or, truthyOpt. intros H.
  destruct v as [x|]; [|discriminate].
  destruct x as [|b|n|s|l|fs]; cbn [truthy] in *.
  - discriminate H.
  - destruct b; [reflexivity|discriminate H].
  - destruct (n =? 0)%Z; [discriminate H|reflexivity].
  - destruct s; [discriminate H|reflexivity].
  - discriminate H.
  - reflexivity.
Qed.

Lemma boardBlock_renderable (persona : string) (result : CompletionOutcome) :
  if renderable (persona, result)
  then exists b, boardBlock persona result = Return b
  else boardBlock persona result = Throw (ThrownError notAFunction).
Proof.
  unfold renderable, boardBlock. cbn [snd].
  destruct (joinable (get (parsedOrEmpty result) "top_reasons")) eqn:A; cbn [andb].
  - destruct (joinOr_joinable _ "; " A) as (s & ->).
    destruct (joinable (get (parsedOrEmpty result) "top_risks")) eqn:B.
    + destruct (joinOr_joinable _ "; " B) as (s' & ->). eexists. reflexivity.
    + rewrite (joinOr_not_joinable _ "; " B). reflexivity.
  - rewrite (joinOr_not_joinable _ "; " A). reflexivity.
Qed.

Lemma boardBlocks_renderable (boardResults : list (string * CompletionOutcome)) :
  if forallb renderable boardResults
  then exists blocks, boardBlocks boardResults = Return blocks /\
                      List.length blocks = List.length boardResults
  else boardBlocks boardResults = Throw (ThrownError notAFunction).
Proof.
  induction boardResults as [|[persona result] r IH]; cbn [forallb boardBlocks].
  - exists []. split; reflexivity.
  - pose proof (boardBlock_renderable persona result) as B.
    destruct (renderable (persona, result)); cbn [andb].
    + destruct B as (b & ->).
      destruct (forallb renderable r).
      * destruct IH as (bs & -> & L). exists (b :: bs). split; [reflexivity|].
        cbn [List.length]. rewrite L. reflexivity.
      * rewrite IH. reflexivity.
    + rewrite B. reflexivity.
Qed.

Lemma last_words_kept :
  trimEnd ("Please synthesize these perspectives into a single, coherent recommendation." ++ nl)
  = "Please synthesize these perspectives into a single, coherent recommendation.".
Proof. vm_compute. reflexivity. Qed.

End SynthesisText.


(** X18. When the synthesis input is built, trimming only drops the line
    feeds around it: the text begins with the header of the original memo,
    carries the memo text as the reviewers got it and one block for each
    reviewer, in order, and ends with the request to synthesize. *)
Theorem synthesis_input_after_trim (memo : Memo)
    (boardResults : list (string * CompletionOutcome)) (txt : string) :
  formatSynthesisInput memo boardResults = Return txt ->
  exists blocks,
    boardBlocks boardResults = Return blocks /\
    List.length blocks = List.length boardResults /\
    txt = "## Original Memo" ++ nl ++
          formatMemoForPrompt memo ++ nl ++
          nl ++
          "---" ++ nl ++
          nl ++
          "## Board Member Responses" ++ nl ++
          join nl blocks ++ nl ++
          nl ++
          "---" ++ nl ++
          nl ++
          "Please synthesize these perspectives into a single, coherent recommendation.".
Proof.
  unfold formatSynthesisInput. intros H.
  pose proof (boardBlocks_renderable boardResults) as B.
  destruct (forallb renderable boardResults).
  2:{ rewrite B in H. discriminate. }
  destruct B as (blocks & E & L). rewrite E in H. exists blocks.
  split; [exact E|]. split; [exact L|].
  cbv beta iota zeta in H. apply Return_inj in H. subst txt.
  set (memoText := formatMemoForPrompt memo). set (summary := join nl blocks).
  rewrite trim_nl_l. unfold trim.
  change ("## Original Memo" ++ nl ++ memoText ++ nl ++ nl ++ "---" ++ nl ++ nl ++
          "## Board Member Responses" ++ nl ++ summary ++ nl ++ nl ++ "---" ++ nl ++ nl ++
          "Please synthesize these perspectives into a single, coherent recommendation." ++ nl)
    with (String "#" ("# Original Memo" ++ nl ++ memoText ++ nl ++ nl ++ "---" ++ nl ++ nl ++
          "## Board Member Responses" ++ nl ++ summary ++ nl ++ nl ++ "---" ++ nl ++ nl ++
          "Please synthesize these perspectives into a single, coherent recommendation." ++ nl)).
  rewrite trimStart_keep by reflexivity.
  change (String "#" ("# Original Memo" ++ nl ++ memoText ++ nl ++ nl ++ "---" ++ nl ++ nl ++
          "## Board Member Responses" ++ nl ++ summary ++ nl ++ nl ++ "---" ++ nl ++ nl ++
          "Please synthesize these perspectives into a single, coherent recommendation." ++ nl))
    with ("## Original Memo" ++ nl ++ memoText ++ nl ++ nl ++ "---" ++ nl ++ nl ++
          "## Board Member Responses" ++ nl ++ summary ++ nl ++ nl ++ "---" ++ nl ++ nl ++
          "Please synthesize these perspectives into a single, coherent recommendation." ++ nl).
  assert (K : trimEnd ("Please synthesize these perspectives into a single, coherent recommendation." ++ nl)
              <> "") by (rewrite last_words_kept; discriminate).
  repeat (rewrite trimEnd_keep; [|solve [repeat (first [exact K | apply trimEnd_kept])]]).
  rewrite last_words_kept. reflexivity.
Qed.

Lemma synthesis_input_after_trim_witness :
  exists txt blocks,
    formatSynthesisInput memo1 [("operator", nullResult)] = Return txt /\
    boardBlocks [("operator", nullResult)] = Return blocks /\
    List.length blocks = 1%nat /\
    txt = "## Original Memo" ++ nl ++
          formatMemoForPrompt memo1 ++ nl ++
          nl ++
          "---" ++ nl ++
          nl ++
          "## Board Member Responses" ++ nl ++
          join nl blocks ++ nl ++
          nl ++
          "---" ++ nl ++
          nl ++
          "Please synthesize these perspectives into a single, coherent recommendation.".
Proof.
  destruct (formatSynthesisInput memo1 [("operator", nullResult)]) as [txt|t] eqn:E;
    [|exfalso; vm_compute in E; discriminate].
  destruct (synthesis_input_after_trim memo1 [("operator", nullResult)] E)
    as (blocks & B & L & T).
  exists txt, blocks. repeat split; assumption.
Defined.

(** ** The ways a run can go *)

Section RunCaseFacts.

Variable env : Env.

(** Reading the log, again. *)
Lemma requests_app (a b : list Event) : requests (a ++ b) = (requests a ++ requests b)%list.
Proof. apply flat_map_app. Qed.

Lemma statuses_app (a b : list Event) : statuses (a ++ b) = (statuses a ++ statuses b)%list.
Proof. apply flat_map_app. Qed.

Lemma providerInvocations_app (a b : list Event) :
  providerInvocations (a ++ b) = (providerInvocations a + providerInvocations b)%nat.
Proof.
  induction a as [|e a IH]; [reflexivity|].
  change (providerInvocations ((e :: a) ++ b))
    with (match e with
          | Called _ tr _ => (invocations tr + providerInvocations (a ++ b))%nat
          | _ => providerInvocations (a ++ b)
          end).
  change (providerInvocations (e :: a))
    with (match e with
          | Called _ tr _ => (invocations tr + providerInvocations a)%nat
          | _ => providerInvocations a
          end).
  rewrite IH. destruct e; cbv beta iota; [reflexivity|reflexivity|apply Nat.add_assoc].
Qed.

Lemma requests_Inserted (rows : list ResponseRow) : requests (map Inserted rows) = [].
Proof. induction rows; [reflexivity|exact IHrows]. Qed.

Lemma statuses_Inserted (rows : list ResponseRow) : statuses (map Inserted rows) = [].
Proof. induction rows; [reflexivity|exact IHrows]. Qed.

Lemma providerInvocations_Inserted (rows : list ResponseRow) :
  providerInvocations (map Inserted rows) = 0%nat.
Proof. induction rows; [reflexivity|exact IHrows]. Qed.

Lemma call_budget (req : Request) :
  (invocations (fst (call env req)) <= Z.to_nat (retryAttempts env))%nat.
Proof. unfold call, completeWithRetry. apply retryLoop_budget. Qed.


Lemma rowsFrom_session (sid : string) (l : list (string * CompletionOutcome)) : forall n,
  Forall (fun row => row_session_id row = sid) (rowsFrom env sid n l).
Proof.
  induction l as [|[p r] l IH]; intros n; cbn [rowsFrom]; constructor; [reflexivity|apply IH].
Qed.



Lemma rowsFrom_tokens (sid : string) (l : list (string * CompletionOutcome)) : forall n,
  map row_tokens_used (rowsFrom env sid n l) = map (fun r => total (tokens (snd r))) l.
Proof.
  induction l as [|[p r] l IH]; intros n; cbn [rowsFrom map]; [reflexivity|].
  rewrite IH. reflexivity.
Qed.

Lemma rowsFrom_raw (sid : string) (l : list (string * CompletionOutcome)) : forall n,
  map row_raw_analysis (rowsFrom env sid n l) = map (fun r => raw (snd r)) l.
Proof.
  induction l as [|[p r] l IH]; intros n; cbn [rowsFrom map]; [reflexivity|].
  rewrite IH. reflexivity.
Qed.

(** The reviewer tasks. *)
Variable memoText : string.

Lemma task_cases (id file : string) :
  (prompts env file = None /\
   reviewTask env memoText (id, file) =
     {| task_events := []; task_time := 0;
        task_result := Throw (ThrownError (noSuchFile file)) |}) \/
  (exists prompt tr res,
     prompts env file = Some prompt /\
     call env (reviewRequest prompt memoText id) = (tr, res) /\
     reviewTask env memoText (id, file) =
       {| task_events := [Called (reviewRequest prompt memoText id) tr res];
          task_time := elapsed tr;
          task_result := match res with
                         | Return result => Return (id, result)
                         | Throw t => Throw t
                         end |}).
Proof.
  unfold reviewTask, loadPrompt.
  destruct (prompts env file) as [prompt|]; [right|left; split; reflexivity].
  destruct (call env (reviewRequest prompt memoText id)) as [tr res] eqn:C.
  exists prompt, tr, res. split; [reflexivity|]. split; [exact C|reflexivity].
Qed.

Lemma tasks_succeeded (ps : list (string * string)) :
  succeeded (flat_map task_events (map (reviewTask env memoText) ps))
  = fulfilled (map (reviewTask env memoText) ps).
Proof.
  induction ps as [|[id file] r IH]; [reflexivity|].
  cbn [map flat_map fulfilled]. rewrite succeeded_app, IH.
  destruct (task_cases id file) as [(P & ->)|(prompt & tr & res & P & C & ->)];
    cbn [task_events task_result]; [reflexivity|].
  destruct res; reflexivity.
Qed.

Lemma tasks_called (ps : list (string * string)) :
  called (flat_map task_events (map (reviewTask env memoText) ps))
  = map fst (filter (hasPrompt env) ps).
Proof.
  induction ps as [|[id file] r IH]; [reflexivity|].
  cbn [map flat_map filter]. rewrite called_app, IH. unfold hasPrompt at 2. cbn [snd].
  destruct (task_cases id file) as [(P & ->)|(prompt & tr & res & P & C & ->)];
    rewrite P; reflexivity.
Qed.

Lemma tasks_requests (ps : list (string * string)) :
  Forall (fun req => exists id file,
            In (id, file) ps /\
            prompts env file = Some (req_instructions req) /\
            req = reviewRequest (req_instructions req) memoText id)
    (requests (flat_map task_events (map (reviewTask env memoText) ps))).
Proof.
  induction ps as [|[id file] r IH]; [constructor|].
  cbn [map flat_map]. rewrite requests_app. apply Forall_app. split.
  - destruct (task_cases id file) as [(P & ->)|(prompt & tr & res & P & C & ->)];
      cbn [task_events]; [constructor|].
    constructor; [|constructor]. exists id, file.
    split; [left; reflexivity|]. split; [exact P|reflexivity].
  - eapply Forall_impl; [|exact IH]. intros req (i & f & I & P & E).
    exists i, f. split; [right; exact I|]. split; assumption.
Qed.

Lemma tasks_invocations (ps : list (string * string)) :
  (providerInvocations (flat_map task_events (map (reviewTask env memoText) ps))
   <= List.length ps * Z.to_nat (retryAttempts env))%nat.
Proof.
  induction ps as [|[id file] r IH]; [cbn; lia|].
  cbn [map flat_map List.length]. rewrite providerInvocations_app.
  destruct (task_cases id file) as [(P & ->)|(prompt & tr & res & P & C & ->)];
    cbn [task_events providerInvocations fold_right]; [lia|].
  pose proof (call_budget (reviewRequest prompt memoText id)) as B. rewrite C in B.
  cbn [fst] in B. lia.
Qed.



End RunCaseFacts.

Section RunCasesProof.

Variable env : Env.
Variable sid : string.
Variable d : Db.

Lemma run_cases :
  RunCase env sid d (fst (runBoardMeeting env sid (fresh d)))
    (snd (runBoardMeeting env sid (fresh d))).
Proof.
  rewrite run_eq. cbn [db fresh memos].
  destruct (memos d sid) as [memo|] eqn:Hm; [|cbn [fst snd]; apply NoMemo; exact Hm].
  rewrite phase1_eq.
  destruct (prompts env "secretary.txt") as [sp|] eqn:Hsp;
    [|cbn [fst snd]; apply NoSecretaryPrompt with (memo := memo); assumption].
  cbv zeta.
  destruct (call env (secretaryRequest sp (formatMemoForPrompt memo))) as [tr [sec|t]] eqn:Hc;
    cbn [fst snd].
  2:{ apply SecretaryThrew; assumption. }
  rewrite phase2_eq. cbv zeta. fold (reviewTasks env memo).
  destruct (firstRejection (reviewTasks env memo)) as [[tm t]|] eqn:Hr.
  { cbn [fst snd]. apply ReviewRejected with (tm := tm); assumption. }
  rewrite phase3_eq.
  change (drawn (withLog (started sid (fresh d))
            [Called (secretaryRequest sp (formatMemoForPrompt memo)) tr (Return sec)]))
    with 0%nat.
  fold (afterSecretary sid d memo sp tr (Return sec)).
  fold (afterReview env sid d memo sp tr sec).
  fold (afterSave env sid d memo sp tr sec).
  destruct (prompts env "strategist.txt") as [stp|] eqn:Hst;
    [|cbn [fst snd]; apply NoStrategistPrompt; assumption].
  destruct (formatSynthesisInput memo (fulfilled (reviewTasks env memo))) as [txt|t] eqn:Hf;
    [|cbn [fst snd]; apply InputThrew with (stp := stp); assumption].
  cbv zeta.
  destruct (call env (strategistRequest stp txt)) as [tr' [syn|t]] eqn:Hc'; cbn [fst snd].
  - change (drawn (afterSave env sid d memo sp tr sec))
      with (0 + List.length (fulfilled (reviewTasks env memo)))%nat.
    cbn [Nat.add].
    fold (afterStrategist env sid d memo sp tr sec stp txt tr' (Return syn)).
    apply Completed; assumption.
  - fold (afterStrategist env sid d memo sp tr sec stp txt tr' (Throw t)).
    apply StrategistThrew; assumption.
Qed.

End RunCasesProof.

Section ReviewFacts.

Variable env : Env.
Variable memo : Memo.

Lemma review_inserted : inserted (flat_map task_events (reviewTasks env memo)) = [].
Proof. apply (tasks_bounds env (formatMemoForPrompt memo) boardPersonas). Qed.

Lemma review_succeeded :
  succeeded (flat_map task_events (reviewTasks env memo)) = fulfilled (reviewTasks env memo).
Proof. apply tasks_succeeded. Qed.

Lemma review_called :
  called (flat_map task_events (reviewTasks env memo))
  = map fst (filter (hasPrompt env) boardPersonas).
Proof. apply tasks_called. Qed.

Lemma review_statuses : statuses (flat_map task_events (reviewTasks env memo)) = [].
Proof.
  unfold reviewTasks. induction boardPersonas as [|[id file] r IH]; [reflexivity|].
  cbn [map flat_map]. rewrite statuses_app, IH.
  destruct (task_cases env (formatMemoForPrompt memo) id file)
    as [(P & ->)|(prompt & tr & res & P & C & ->)]; reflexivity.
Qed.

Lemma review_all (H : firstRejection (reviewTasks env memo) = None) :
  called (flat_map task_events (reviewTasks env memo)) = map fst boardPersonas /\
  failedCalls (flat_map task_events (reviewTasks env memo)) = [] /\
  map fst (fulfilled (reviewTasks env memo)) = map fst boardPersonas /\
  List.length (fulfilled (reviewTasks env memo)) = 4%nat.
Proof.
  destruct (tasks_fulfilled env (formatMemoForPrompt memo) boardPersonas H)
    as (_ & B & C & _ & F).
  fold (reviewTasks env memo) in *.
  repeat split; try assumption.
  rewrite <- (length_map fst), F. reflexivity.
Qed.

End ReviewFacts.

Section MoreLogCons.

Variables (sid' st' : string) (row : ResponseRow) (req : Request) (tr : list RetryEvent)
  (res : Result CompletionOutcome) (l : list Event).

Lemma requests_status : requests (SetStatus sid' st' :: l) = requests l.
Proof. reflexivity. Qed.
Lemma requests_row : requests (Inserted row :: l) = requests l.
Proof. reflexivity. Qed.
Lemma requests_call : requests (Called req tr res :: l) = req :: requests l.
Proof. reflexivity. Qed.

Lemma statuses_status : statuses (SetStatus sid' st' :: l) = st' :: statuses l.
Proof. reflexivity. Qed.
Lemma statuses_row : statuses (Inserted row :: l) = statuses l.
Proof. reflexivity. Qed.
Lemma statuses_call : statuses (Called req tr res :: l) = statuses l.
Proof. reflexivity. Qed.

Lemma providerInvocations_status :
  providerInvocations (SetStatus sid' st' :: l) = providerInvocations l.
Proof. reflexivity. Qed.
Lemma providerInvocations_row : providerInvocations (Inserted row :: l) = providerInvocations l.
Proof. reflexivity. Qed.
Lemma providerInvocations_call :
  providerInvocations (Called req tr res :: l) = (invocations tr + providerInvocations l)%nat.
Proof. reflexivity. Qed.

End MoreLogCons.

Lemma requests_nil : requests [] = []. Proof. reflexivity. Qed.
Lemma statuses_nil : statuses [] = []. Proof. reflexivity. Qed.
Lemma providerInvocations_nil : providerInvocations [] = 0%nat. Proof. reflexivity. Qed.

#[local] Hint Rewrite requests_app statuses_app providerInvocations_app
  requests_Inserted statuses_Inserted providerInvocations_Inserted
  requests_status requests_row requests_call
  statuses_status statuses_row statuses_call
  providerInvocations_status providerInvocations_row providerInvocations_call
  requests_nil statuses_nil providerInvocations_nil
  review_inserted review_succeeded review_statuses : logdb.

(** Splits a statement about a run into the ways the run can go. *)
Ltac by_cases env sid d :=
  let C := fresh "C" in
  pose proof (run_cases env sid d) as C;
  destruct (runBoardMeeting env sid (fresh d)) as [st' out];
  cbn [fst snd] in C |- *;
  destruct C;
  unfold afterStrategist, afterSave, afterReview, afterSecretary.

Lemma sessions_other (d : Db) (sid other status : string) :
  other <> sid -> sessions (updateStatus d sid status) other = sessions d other.
Proof.
  intros N. cbn [sessions updateStatus].
  destruct (String.eqb_spec other sid); [contradiction|reflexivity].
Qed.

Lemma sessions_absent (d : Db) (sid status : string) :
  sessions d sid = None -> sessions (updateStatus d sid status) sid = None.
Proof.
  intros N. cbn [sessions updateStatus]. rewrite String.eqb_refl, N. reflexivity.
Qed.

Lemma sessions_set (d : Db) (sid status s : string) :
  sessions d sid = Some s -> sessions (updateStatus d sid status) sid = Some status.
Proof.
  intros N. cbn [sessions updateStatus]. rewrite String.eqb_refl, N. reflexivity.
Qed.

Lemma filter_other_session (sid other : string) (rows : list ResponseRow) :
  Forall (fun row => row_session_id row = sid) rows -> other <> sid ->
  filter (fun row => String.eqb (row_session_id row) other) rows = [].
Proof.
  intros F N. induction F as [|row rows Hrow F IH]; [reflexivity|].
  cbn [filter]. rewrite Hrow. destruct (String.eqb_spec sid other); [congruence|exact IH].
Qed.

(** X19. A run changes nothing in the database but the status of its own
    session and the rows it appends: the memos are untouched, the status
    of every other session is untouched, no session is created, the rows
    that were there stay in place before the new ones, and every new row
    carries the session of the run, so that what is read for another
    session is the same before and after. *)
Theorem run_touches_only_its_session (env : Env) (sid : string) (d : Db) :
  let st := fst (runBoardMeeting env sid (fresh d)) in
  memos (db st) = memos d /\
  (forall other, other <> sid -> sessions (db st) other = sessions d other) /\
  (sessions d sid = None -> sessions (db st) sid = None) /\
  responses (db st) = (responses d ++ inserted (log st))%list /\
  Forall (fun row => row_session_id row = sid) (inserted (log st)) /\
  (forall other, other <> sid ->
     filter (fun row => String.eqb (row_session_id row) other) (responses (db st))
     = filter (fun row => String.eqb (row_session_id row) other) (responses d)).
Proof.
  cbv zeta.
  assert (G : forall st : RunState,
    responses (db st) = (responses d ++ inserted (log st))%list ->
    Forall (fun row => row_session_id row = sid) (inserted (log st)) ->
    forall other, other <> sid ->
      filter (fun row => String.eqb (row_session_id row) other) (responses (db st))
      = filter (fun row => String.eqb (row_session_id row) other) (responses d)).
  { intros st R F other N. rewrite R, filter_app, (filter_other_session F N).
    apply app_nil_r. }
  assert (K : forall st : RunState,
    memos (db st) = memos d ->
    (forall other, other <> sid -> sessions (db st) other = sessions d other) ->
    (sessions d sid = None -> sessions (db st) sid = None) ->
    responses (db st) = (responses d ++ inserted (log st))%list ->
    Forall (fun row => row_session_id row = sid) (inserted (log st)) ->
    memos (db st) = memos d /\
    (forall other, other <> sid -> sessions (db st) other = sessions d other) /\
    (sessions d sid = None -> sessions (db st) sid = None) /\
    responses (db st) = (responses d ++ inserted (log st))%list /\
    Forall (fun row => row_session_id row = sid) (inserted (log st)) /\
    (forall other, other <> sid ->
       filter (fun row => String.eqb (row_session_id row) other) (responses (db st))
       = filter (fun row => String.eqb (row_session_id row) other) (responses d))).
  { intros st A B C D E. repeat split; try assumption. apply G; assumption. }
  by_cases env sid d; apply K; logs;
    cbn [memos sessions responses updateStatus];
    try reflexivity;
    try (intros other N; destruct (String.eqb_spec other sid); [contradiction|reflexivity]);
    try (intros N; rewrite String.eqb_refl, ?String.eqb_refl, N; reflexivity);
    try (constructor; fail);
    try (apply rowsFrom_session).
  - cbn [app]. rewrite <- app_assoc. reflexivity.
  - cbn [app]. apply Forall_app. split; [apply rowsFrom_session|].
    constructor; [reflexivity|constructor].
Qed.

Lemma run_touches_only_its_session_witness :
  let st := fst (runBoardMeeting (envWith provOk) "s1" (fresh db2)) in
  List.length (responses (db st)) = 6%nat /\
  filter (fun row => String.eqb (row_session_id row) "s2") (responses (db st))
    = [responseRow "old" "s2" "operator" nullResult] /\
  sessions (db st) "s2" = Some "complete".
Proof.
  cbv zeta.
  destruct (run_touches_only_its_session (envWith provOk) "s1" db2) as (_ & S & _ & _ & _ & F).
  split; [vm_compute; reflexivity|]. split.
  - rewrite (F "s2"); [reflexivity|discriminate].
  - rewrite (S "s2"); [reflexivity|discriminate].
Defined.

(** X20. The status of the session of a run ends as complete exactly
    when the run returns its result, and as running whenever the run
    throws, at whatever point: the run writes running once at its start,
    complete once at its end and no other status. *)
Theorem run_final_status (env : Env) (sid : string) (d : Db) (s : string) :
  sessions d sid = Some s ->
  let st := fst (runBoardMeeting env sid (fresh d)) in
  let out := snd (runBoardMeeting env sid (fresh d)) in
  sessions (db st) sid
    = Some (match out with Return _ => "complete" | Throw _ => "running" end) /\
  statuses (log st)
    = match out with Return _ => ["running"; "complete"] | Throw _ => ["running"] end.
Proof.
  intros H. cbv zeta.
  by_cases env sid d; logs; cbn [sessions updateStatus app];
    rewrite ?String.eqb_refl, H; split; reflexivity.
Qed.

Lemma run_final_status_witness :
  sessions db1 "s1" = Some "draft" /\
  sessions (db (fst (runBoardMeeting (envWith provFinance503) "s1" (fresh db1)))) "s1"
    = Some "running" /\
  sessions (db (fst (runBoardMeeting (envWith provOk) "s1" (fresh db1)))) "s1"
    = Some "complete".
Proof.
  split; [reflexivity|]. split.
  - etransitivity;
      [exact (proj1 (@run_final_status (envWith provFinance503) "s1" db1 "draft" eq_refl))|].
    vm_compute. reflexivity.
  - etransitivity;
      [exact (proj1 (@run_final_status (envWith provOk) "s1" db1 "draft" eq_refl))|].
    vm_compute. reflexivity.
Defined.


Lemma in_filter_names (f : string * string -> bool) (x : string) (l : list (string * string)) :
  In x (map fst (filter f l)) -> In x (map fst l).
Proof.
  intros H. apply in_map_iff in H. destruct H as (p & E & I).
  apply filter_In in I. apply in_map_iff. exists p. split; [exact E|apply I].
Qed.

Lemma reviewer_names (x : string) :
  In x (map fst boardPersonas) ->
  x <> "secretary" /\ x <> "strategist" /\
  In (x, x ++ ".txt") boardPersonas.
Proof.
  cbn. intros [<-|[<-|[<-|[<-|[]]]]]; (split; [discriminate|split; [discriminate|]]); auto.
Qed.

Lemma NoDup_filter_names (f : string * string -> bool) (l : list (string * string)) :
  NoDup (map fst l) -> NoDup (map fst (filter f l)).
Proof.
  induction l as [|p l IH]; intros H; [constructor|].
  cbn [map filter] in *. inversion H as [|x xs N D]; subst.
  destruct (f p); [|apply IH, D].
  cbn [map]. constructor; [|apply IH, D].
  intros I. apply N. apply (in_filter_names _ _ _ I).
Qed.

Lemma NoDup_reviewers : NoDup (map fst boardPersonas).
Proof.
  cbn. repeat constructor; cbn; intros H;
    repeat (destruct H as [H|H]; [discriminate H|]); exact H.
Qed.

(** X22. The phases of a run are sequential.  The secretary is called
    first; the reviewers are called only after the secretary has returned,
    and then every reviewer whose prompt file can be read is called,
    whatever happens to the others; the strategist is called only after
    all four reviewers have returned.  No persona is called twice. *)
Theorem run_calls_by_phase (env : Env) (sid : string) (d : Db) :
  let lg := log (fst (runBoardMeeting env sid (fresh d))) in
  (called lg = [] \/ called lg = ["secretary"] \/
   called lg = "secretary" :: map fst (filter (hasPrompt env) boardPersonas) \/
   called lg = allPersonas) /\
  (forall p, In p (called lg) -> p <> "secretary" ->
             In "secretary" (map fst (succeeded lg))) /\
  (In "strategist" (called lg) ->
   firstn 5 (map fst (succeeded lg)) = "secretary" :: map fst boardPersonas) /\
  NoDup (called lg).
Proof.
  cbv zeta.
  assert (R : NoDup ("secretary" :: map fst (filter (hasPrompt env) boardPersonas))).
  { constructor; [|apply NoDup_filter_names, NoDup_reviewers].
    intros X. apply in_filter_names, reviewer_names in X. destruct X as (X & _). congruence. }
  assert (A : NoDup allPersonas).
  { cbn. repeat constructor; cbn; intros H;
      repeat (destruct H as [H|H]; [discriminate H|]); exact H. }
  cut (let lg := log (fst (runBoardMeeting env sid (fresh d))) in
       ((called lg = [] \/ called lg = ["secretary"] \/
         called lg = "secretary" :: map fst (filter (hasPrompt env) boardPersonas) \/
         called lg = allPersonas) /\
        (forall p, In p (called lg) -> p <> "secretary" ->
                   In "secretary" (map fst (succeeded lg))) /\
        (In "strategist" (called lg) ->
         firstn 5 (map fst (succeeded lg)) = "secretary" :: map fst boardPersonas))).
  { cbv zeta. intros (S & P & T). split; [exact S|]. split; [exact P|]. split; [exact T|].
    destruct S as [ -> | [ -> | [ -> | -> ] ] ]; [constructor| |exact R|exact A].
    constructor; [intros []|constructor]. }
  clear R A. cbv zeta.
  by_cases env sid d; logs;
    cbn [personaId req_options secretaryRequest strategistRequest map app].
  - split; [left; reflexivity|]. split; [intros p []|intros []].
  - split; [left; reflexivity|]. split; [intros p []|intros []].
  - split; [right; left; reflexivity|].
    split; [intros p [<-|[]] N; congruence|intros [X|[]]; discriminate X].
  - rewrite review_called.
    split; [right; right; left; reflexivity|].
    split; [intros p _ _; left; reflexivity|].
    intros [X|X]; [discriminate X|].
    apply in_filter_names, reviewer_names in X. destruct X as (_ & X & _). congruence.
  - rewrite review_called.
    split; [right; right; left; reflexivity|].
    split; [intros p _ _; left; reflexivity|].
    intros [X|X]; [discriminate X|].
    apply in_filter_names, reviewer_names in X. destruct X as (_ & X & _). congruence.
  - rewrite review_called.
    split; [right; right; left; reflexivity|].
    split; [intros p _ _; left; reflexivity|].
    intros [X|X]; [discriminate X|].
    apply in_filter_names, reviewer_names in X. destruct X as (_ & X & _). congruence.
  - destruct (review_all env memo ltac:(assumption)) as (C & _ & F & L). rewrite C.
    split; [right; right; right; reflexivity|].
    split; [intros p _ _; left; reflexivity|].
    intros _. rewrite F. reflexivity.
  - destruct (review_all env memo ltac:(assumption)) as (C & _ & F & L). rewrite C.
    split; [right; right; right; reflexivity|].
    split; [intros p _ _; left; reflexivity|].
    intros _. rewrite map_app, F. reflexivity.
Qed.

Lemma call_budget_eq (env : Env) (req : Request) (tr : list RetryEvent)
    (res : Result CompletionOutcome) :
  call env req = (tr, res) -> (invocations tr <= Z.to_nat (retryAttempts env))%nat.
Proof. intros H. pose proof (call_budget env req) as B. rewrite H in B. exact B. Qed.

Lemma review_invocations (env : Env) (memo : Memo) :
  (providerInvocations (flat_map task_events (reviewTasks env memo))
   <= 4 * Z.to_nat (retryAttempts env))%nat.
Proof. apply (tasks_invocations env (formatMemoForPrompt memo) boardPersonas). Qed.

(** X23. A whole run invokes the provider at most six times the retry
    budget of the client: the budget bounds each of the six calls, however
    the calls end. *)
Theorem run_invocation_bound (env : Env) (sid : string) (d : Db) :
  (providerInvocations (log (fst (runBoardMeeting env sid (fresh d))))
   <= 6 * Z.to_nat (retryAttempts env))%nat.
Proof.
  pose proof (review_invocations env) as R.
  by_cases env sid d; logs;
    repeat match goal with
           | H : call env _ = (_, _) |- _ => apply call_budget_eq in H
           end;
    try specialize (R memo); lia.
Qed.

Lemma firstn_exact (A : Type) (l r : list A) (n : nat) :
  List.length l = n -> firstn n (l ++ r) = l.
Proof.
  intros <-. induction l as [|x l IH]; cbn [List.length firstn app]; [|rewrite IH; reflexivity].
  destruct r; reflexivity.
Qed.

Lemma firstn_whole (A : Type) (l : list A) (n : nat) : List.length l = n -> firstn n l = l.
Proof. intros <-. apply firstn_all. Qed.

(** X24. What each persona is sent.  Its instructions are the text of
    its own prompt file.  The secretary and every reviewer get the same
    input, the text of the memo: the answer of the secretary reaches no
    other persona.  The strategist gets the synthesis input built from the
    memo and the outcomes of the four reviewers. *)
Theorem run_inputs (env : Env) (sid : string) (d : Db) (memo : Memo) :
  memos d sid = Some memo ->
  let lg := log (fst (runBoardMeeting env sid (fresh d))) in
  Forall (fun req =>
            prompts env (personaId (req_options req) ++ ".txt") = Some (req_instructions req) /\
            (personaId (req_options req) <> "strategist" ->
             req_input req = formatMemoForPrompt memo) /\
            (personaId (req_options req) = "strategist" ->
             formatSynthesisInput memo (firstn 4 (tl (succeeded lg)))
             = Return (req_input req)))
    (requests lg).
Proof.
  intros M. cbv zeta.
  assert (T : forall P : Request -> Prop,
    (forall prompt id, In (id, id ++ ".txt") boardPersonas -> id <> "strategist" ->
       prompts env (id ++ ".txt") = Some prompt ->
       P (reviewRequest prompt (formatMemoForPrompt memo) id)) ->
    Forall P (requests (flat_map task_events (reviewTasks env memo)))).
  { intros P HP.
    eapply Forall_impl; [|apply (tasks_requests env (formatMemoForPrompt memo) boardPersonas)].
    intros req (id & file & I & Pr & E).
    assert (N : In id (map fst boardPersonas))
      by (apply in_map_iff; exists (id, file); split; [reflexivity|exact I]).
    destruct (reviewer_names N) as (_ & NS & I').
    assert (F : file = id ++ ".txt").
    { clear -I. cbn in I.
      destruct I as [I|[I|[I|[I|[]]]]]; inversion I; subst; reflexivity. }
    subst file. rewrite E. apply HP; assumption. }
  by_cases env sid d; logs;
    try (constructor; fail);
    match goal with
    | H : memos d sid = Some ?m |- _ =>
        assert (m = memo) by congruence; subst m
    end;
    cbn [personaId req_options secretaryRequest strategistRequest tl app].
  - constructor; [|constructor]. cbn [req_instructions req_input personaId req_options].
    split; [assumption|]. split; [reflexivity|discriminate].
  - constructor.
    + cbn [req_instructions req_input personaId req_options secretaryRequest].
      split; [assumption|]. split; [reflexivity|discriminate].
    + apply T. intros prompt id I N Pr.
      cbn [reviewRequest req_instructions req_input personaId req_options].
      split; [exact Pr|]. split; [reflexivity|contradiction].
  - constructor.
    + cbn [req_instructions req_input personaId req_options secretaryRequest].
      split; [assumption|]. split; [reflexivity|discriminate].
    + rewrite ?app_nil_r. apply T. intros prompt id I N Pr.
      cbn [reviewRequest req_instructions req_input personaId req_options].
      split; [exact Pr|]. split; [reflexivity|contradiction].
  - constructor.
    + cbn [req_instructions req_input personaId req_options secretaryRequest].
      split; [assumption|]. split; [reflexivity|discriminate].
    + rewrite ?app_nil_r. apply T. intros prompt id I N Pr.
      cbn [reviewRequest req_instructions req_input personaId req_options].
      split; [exact Pr|]. split; [reflexivity|contradiction].
  - destruct (review_all env memo ltac:(assumption)) as (_ & _ & _ & L).
    constructor.
    + cbn [req_instructions req_input personaId req_options secretaryRequest].
      split; [assumption|]. split; [reflexivity|discriminate].
    + apply Forall_app. split.
      * rewrite ?app_nil_r. apply T. intros prompt id I N Pr.
        cbn [reviewRequest req_instructions req_input personaId req_options].
        split; [exact Pr|]. split; [reflexivity|contradiction].
      * constructor; [|constructor].
        cbn [req_instructions req_input personaId req_options].
        split; [assumption|]. split; [intros N; exfalso; apply N; reflexivity|]. intros _.
        rewrite ?app_nil_r.
        first [rewrite (firstn_exact _ _ L)|rewrite (firstn_whole _ L)]. assumption.
  - destruct (review_all env memo ltac:(assumption)) as (_ & _ & _ & L).
    constructor.
    + cbn [req_instructions req_input personaId req_options secretaryRequest].
      split; [assumption|]. split; [reflexivity|discriminate].
    + apply Forall_app. split.
      * rewrite ?app_nil_r. apply T. intros prompt id I N Pr.
        cbn [reviewRequest req_instructions req_input personaId req_options].
        split; [exact Pr|]. split; [reflexivity|contradiction].
      * constructor; [|constructor].
        cbn [req_instructions req_input personaId req_options].
        split; [assumption|]. split; [intros N; exfalso; apply N; reflexivity|]. intros _.
        rewrite ?app_nil_r.
        first [rewrite (firstn_exact _ _ L)|rewrite (firstn_whole _ L)]. assumption.
Qed.

Lemma run_inputs_witness :
  let lg := log (fst (runBoardMeeting (envWith provOk) "s1" (fresh db1))) in
  memos db1 "s1" = Some memo1 /\
  List.length (requests lg) = 6%nat /\
  Forall (fun req =>
            prompts (envWith provOk) (personaId (req_options req) ++ ".txt")
              = Some (req_instructions req) /\
            (personaId (req_options req) <> "strategist" ->
             req_input req = formatMemoForPrompt memo1) /\
            (personaId (req_options req) = "strategist" ->
             formatSynthesisInput memo1 (firstn 4 (tl (succeeded lg)))
             = Return (req_input req)))
    (requests lg).
Proof.
  cbv zeta. split; [reflexivity|]. split; [vm_compute; reflexivity|].
  exact (@run_inputs (envWith provOk) "s1" db1 memo1 eq_refl).
Defined.

(** X25. What a completed run persists of the tokens and of the texts:
    the tokens recorded in its rows add up to the total it reports less
    the tokens of the secretary, whose outcome is not persisted, and the
    rows keep the raw text of every reviewer and of the strategist. *)
Theorem run_tokens_persisted (env : Env) (sid : string) (d : Db) (result : BoardRunResult) :
  snd (runBoardMeeting env sid (fresh d)) = Return result ->
  let rows := inserted (log (fst (runBoardMeeting env sid (fresh d)))) in
  sumZ (map row_tokens_used rows)
    = totalTokens result - total (tokens (secretary result)) /\
  map row_raw_analysis rows
    = (map (fun r => raw (snd r)) (board result) ++ [raw (strategist result)])%list /\
  map row_persona_id rows = (map fst (board result) ++ ["strategist"])%list.
Proof.
  revert result. cbv zeta.
  by_cases env sid d; intros result X; try discriminate X.
  apply Return_inj in X. subst result. logs.
  cbn [app resultOf totalTokens secretary board strategist].
  rewrite !map_app, sumZ_app, rowsFrom_tokens, rowsFrom_raw, rowsFrom_personas, fold_left_totals.
  cbn [map responseRow row_tokens_used row_raw_analysis row_persona_id sumZ fold_right].
  repeat split. fold (sumZ (map (fun r => total (tokens (snd r))) (fulfilled (reviewTasks env memo)))).
  lia.
Qed.

Lemma run_tokens_persisted_witness :
  let run := runBoardMeeting (envWith provOk) "s1" (fresh db1) in
  exists result,
    snd run = Return result /\
    totalTokens result = 120 /\
    total (tokens (secretary result)) = 10 /\
    sumZ (map row_tokens_used (inserted (log (fst run)))) = 110.
Proof.
  cbv zeta.
  destruct (snd (runBoardMeeting (envWith provOk) "s1" (fresh db1))) as [result|t] eqn:E;
    [|exfalso; vm_compute in E; discriminate].
  exists result. split; [reflexivity|].
  destruct (@run_tokens_persisted (envWith provOk) "s1" db1 result E) as (T & _ & _).
  assert (R : Return result = snd (runBoardMeeting (envWith provOk) "s1" (fresh db1)))
    by (symmetry; exact E).
  assert (A : totalTokens result = 120).
  { apply (f_equal (fun r => match r with Return x => totalTokens x | Throw _ => 0 end)) in R.
    etransitivity; [exact R|]. vm_compute. reflexivity. }
  assert (B : total (tokens (secretary result)) = 10).
  { apply (f_equal (fun r => match r with
                            | Return x => total (tokens (secretary x))
                            | Throw _ => 0
                            end)) in R.
    etransitivity; [exact R|]. vm_compute. reflexivity. }
  split; [exact A|]. split; [exact B|]. rewrite T, A, B. reflexivity.
Defined.

(** X26. A run for a session that has no memo throws that no memo was
    found, without calling any persona and without writing a row; but it
    has already set the status of the session, when the session exists, to
    running, and leaves it there. *)
Theorem run_without_memo (env : Env) (sid : string) (d : Db) :
  memos d sid = None ->
  let st := fst (runBoardMeeting env sid (fresh d)) in
  snd (runBoardMeeting env sid (fresh d))
    = Throw (ThrownError (mkError "No memo found for session")) /\
  log st = [SetStatus sid "running"] /\
  responses (db st) = responses d /\
  sessions (db st) sid = match sessions d sid with Some _ => Some "running" | None => None end.
Proof.
  intros M. cbv zeta. by_cases env sid d; try congruence.
  logs. cbn [responses updateStatus]. repeat split. apply sessions_running.
Qed.

Lemma run_without_memo_witness :
  memos dbNoMemo "s1" = None /\
  snd (runBoardMeeting (envWith provOk) "s1" (fresh dbNoMemo))
    = Throw (ThrownError (mkError "No memo found for session")) /\
  sessions (db (fst (runBoardMeeting (envWith provOk) "s1" (fresh dbNoMemo)))) "s1"
    = Some "running".
Proof.
  split; [reflexivity|].
  destruct (@run_without_memo (envWith provOk) "s1" dbNoMemo eq_refl) as (A & _ & _ & B).
  split; [exact A|]. rewrite B. reflexivity.
Defined.



Lemma firstRejection_earliest (tasks : list Task) : forall tm t,
  firstRejection tasks = Some (tm, t) ->
  (exists task, In task tasks /\ task_result task = Throw t /\ task_time task = tm) /\
  (forall task t', In task tasks -> task_result task = Throw t' -> tm <= task_time task).
Proof.
  induction tasks as [|task r IH]; intros tm t H; cbn [firstRejection] in H; [discriminate|].
  destruct (task_result task) as [v|t0] eqn:E.
  - destruct (IH _ _ H) as ((x & I & R & T) & M). split.
    + exists x. split; [right; exact I|]. split; assumption.
    + intros y t' [<-|I'] R'; [congruence|apply (M _ _ I' R')].
  - destruct (firstRejection r) as [[tm1 t1]|] eqn:F.
    + destruct (IH _ _ eq_refl) as ((x & I & R & T) & M).
      destruct (Z.ltb_spec tm1 (task_time task)) as [L|L]; inversion H; subst; clear H.
      * split.
        -- exists x. split; [right; exact I|]. split; [exact R|reflexivity].
        -- intros y t' [<-|I'] R'; [lia|apply (M _ _ I' R')].
      * split.
        -- exists task. split; [left; reflexivity|]. split; [exact E|reflexivity].
        -- intros y t' [<-|I'] R'; [lia|]. pose proof (M _ _ I' R'). lia.
    + inversion H; subst; clear H. split.
      * exists task. split; [left; reflexivity|]. split; [exact E|reflexivity].
      * intros y t' [<-|I'] R'; [lia|exfalso].
        apply (firstRejection_some _ _ I' R' F).
Qed.

(** X28. When the secretary has returned and a reviewer fails (its call
    throws, or its prompt file cannot be read), the run throws what a
    failed reviewer threw, and it is one that no other failed reviewer
    precedes in time: with several failures the earliest surfaces, which
    need not be the one of the first persona. *)
Theorem run_throws_earliest_rejection (env : Env) (sid : string) (d : Db) (memo : Memo)
    (task : Task) (t' : Thrown) :
  memos d sid = Some memo ->
  In task (reviewTasks env memo) ->
  task_result task = Throw t' ->
  In "secretary" (map fst (succeeded (log (fst (runBoardMeeting env sid (fresh d)))))) ->
  exists first t,
    snd (runBoardMeeting env sid (fresh d)) = Throw t /\
    In first (reviewTasks env memo) /\
    task_result first = Throw t /\
    task_time first <= task_time task /\
    forall other t'', In other (reviewTasks env memo) -> task_result other = Throw t'' ->
                      task_time first <= task_time other.
Proof.
  intros M I R.
  by_cases env sid d; logs; cbn [map]; intros S; try (destruct S; fail);
    match goal with
    | H : memos d sid = Some ?m |- _ => assert (m = memo) by congruence; subst m
    end;
    try (exfalso; eapply firstRejection_some; eassumption).
  match goal with
  | H : firstRejection _ = Some _ |- _ =>
      destruct (firstRejection_earliest _ H) as ((x & Ix & Rx & Tx) & Mx)
  end.
  exists x, t. split; [reflexivity|]. split; [exact Ix|]. split; [exact Rx|].
  rewrite Tx. split; [apply (Mx _ _ I R)|exact Mx].
Qed.

Lemma run_throws_earliest_rejection_witness :
  let env := envWith provFinance503 in
  let task := reviewTask env (formatMemoForPrompt memo1) ("finance", "finance.txt") in
  exists first t,
    snd (runBoardMeeting env "s1" (fresh db1)) = Throw t /\
    In first (reviewTasks env memo1) /\
    task_result first = Throw t /\
    task_time first <= task_time task.
Proof.
  cbv zeta.
  destruct (@run_throws_earliest_rejection (envWith provFinance503) "s1" db1 memo1
              (reviewTask (envWith provFinance503) (formatMemoForPrompt memo1)
                 ("finance", "finance.txt"))
              (ThrownError (mkError "OpenAI Responses API error (503): Service Unavailable")))
    as (first & t & A & B & C & D & _).
  - reflexivity.
  - right. left. reflexivity.
  - vm_compute. reflexivity.
  - vm_compute. left. reflexivity.
  - exists first, t. repeat split; assumption.
Defined.

(** ** The route that runs the board meeting *)

Section RouteFacts.

Import SessionsRoute.

Variable env : Env.

Lemma call_undefined (req : Request) :
  snd (call env req) = Throw ThrownUndefined <-> retryAttempts env < 1.
Proof. unfold call. apply undefined_iff_no_budget. Qed.

Lemma call_defined (req : Request) (tr : list RetryEvent) (res : Result CompletionOutcome) :
  call env req = (tr, res) -> 1 <= retryAttempts env -> res <> Throw ThrownUndefined.
Proof.
  intros C B U. subst res.
  assert (X : snd (call env req) = Throw ThrownUndefined) by (rewrite C; reflexivity).
  apply call_undefined in X. lia.
Qed.

Lemma call_returned (req : Request) (tr : list RetryEvent) (o : CompletionOutcome) :
  call env req = (tr, Return o) -> 1 <= retryAttempts env.
Proof.
  intros C. destruct (Z.ltb_spec (retryAttempts env) 1) as [L|L]; [|exact L].
  apply (call_undefined req) in L. rewrite C in L. discriminate L.
Qed.

Lemma review_defined (memo : Memo) (tm : Z) (t : Thrown) :
  firstRejection (reviewTasks env memo) = Some (tm, t) ->
  1 <= retryAttempts env -> t <> ThrownUndefined.
Proof.
  intros F B U. subst t.
  destruct (firstRejection_source _ F) as (task & I & R).
  unfold reviewTasks in I. apply in_map_iff in I. destruct I as ([id file] & <- & I).
  destruct (task_cases env (formatMemoForPrompt memo) id file)
    as [(P & E)|(prompt & tr & res & P & C & E)]; rewrite E in R; cbn [task_result] in R.
  - discriminate R.
  - destruct res as [o|t]; [discriminate R|].
    eapply call_defined; [exact C|exact B|congruence].
Qed.

Lemma formatSynthesisInput_throws (memo : Memo)
    (boardResults : list (string * CompletionOutcome)) (t : Thrown) :
  formatSynthesisInput memo boardResults = Throw t -> t = ThrownError notAFunction.
Proof.
  unfold formatSynthesisInput. intros H.
  pose proof (boardBlocks_renderable boardResults) as B.
  destruct (forallb renderable boardResults).
  - destruct B as (blocks & E & _). rewrite E in H. discriminate H.
  - rewrite B in H. inversion H. reflexivity.
Qed.

End RouteFacts.

(** X29. The reply to the request that runs the board meeting of an
    existing session, whenever a reply is sent: status 200 with the result,
    which names the session and holds the four reviewer outcomes, exactly
    when the session ends as complete; otherwise status 500 with nothing
    but the message of what was thrown, and the session is left running. *)
Theorem post_run_reply (env : Env) (id : string) (d : Db) (s : string)
    (reply : SessionsRoute.Reply) :
  sessions d id = Some s ->
  snd (SessionsRoute.postRun env id (fresh d)) = Return reply ->
  (SessionsRoute.code reply = 200 /\
   sessions (db (fst (SessionsRoute.postRun env id (fresh d)))) id = Some "complete" /\
   exists result,
     SessionsRoute.body reply = SessionsRoute.ResultBody result /\
     sessionId result = id /\ status_of result = "complete" /\
     map fst (board result) = map fst boardPersonas) \/
  (SessionsRoute.code reply = 500 /\
   sessions (db (fst (SessionsRoute.postRun env id (fresh d)))) id = Some "running" /\
   exists e,
     snd (runBoardMeeting env id (fresh d)) = Throw (ThrownError e) /\
     SessionsRoute.body reply = SessionsRoute.ErrorBody (message e)).
Proof.
  intros S. unfold SessionsRoute.postRun.
  pose proof (@sessions_set d id "running" s S) as R1.
  by_cases env id d;
    try match goal with t : Thrown |- _ => destruct t as [|e] end;
    cbn [fst snd]; intros X; try discriminate X;
    apply Return_inj in X; subst reply;
    cbn [SessionsRoute.code SessionsRoute.body];
    cbn [db withLog withRows started finished fresh sessions];
    try (right; split; [reflexivity|]; split; [exact R1|]; eexists; split; reflexivity).
  left. split; [reflexivity|].
  split; [cbn [updateStatus sessions]; rewrite String.eqb_refl, S; reflexivity|].
  eexists. split; [reflexivity|].
  cbn [resultOf sessionId status_of board]. repeat split.
  apply review_all. assumption.
Qed.

Lemma post_run_reply_witness :
  let r := SessionsRoute.postRun (envWith provFinance503) "s1" (fresh db1) in
  snd r = Return {| SessionsRoute.code := 500;
                    SessionsRoute.body :=
                      SessionsRoute.ErrorBody
                        "OpenAI Responses API error (503): Service Unavailable" |} /\
  sessions (db (fst r)) "s1" = Some "running".
Proof.
  cbv zeta.
  assert (E : snd (SessionsRoute.postRun (envWith provFinance503) "s1" (fresh db1))
              = Return {| SessionsRoute.code := 500;
                          SessionsRoute.body :=
                            SessionsRoute.ErrorBody
                              "OpenAI Responses API error (503): Service Unavailable" |})
    by (vm_compute; reflexivity).
  split; [exact E|].
  destruct (@post_run_reply (envWith provFinance503) "s1" db1 "draft" _ eq_refl E)
    as [(C & _)|(_ & R & _)]; [discriminate C|exact R].
Defined.

(** X30. The handler of that request throws itself, and sends no reply,
    exactly when the retry budget of the client is below 1 and the run gets
    as far as its first call (the session has a memo and the prompt of the
    secretary can be read): the call then throws [undefined], of which the
    handler cannot read the message.  In every other case it replies. *)
Theorem post_run_without_reply (env : Env) (id : string) (d : Db) :
  (forall t, snd (SessionsRoute.postRun env id (fresh d)) = Throw t ->
             t = ThrownError SessionsRoute.cannotReadMessage) /\
  (snd (SessionsRoute.postRun env id (fresh d))
     = Throw (ThrownError SessionsRoute.cannotReadMessage)
   <-> retryAttempts env < 1 /\ memos d id <> None /\ prompts env "secretary.txt" <> None).
Proof.
  unfold SessionsRoute.postRun.
  by_cases env id d.
  - cbn [fst snd]. split; [intros t X; discriminate X|].
    split; [intros X; discriminate X|]. intros (_ & M & _). congruence.
  - cbn [fst snd]. split; [intros t X; discriminate X|].
    split; [intros X; discriminate X|]. intros (_ & _ & P). congruence.
  - pose proof (call_undefined env (secretaryRequest sp (formatMemoForPrompt memo))) as U.
    match goal with H : call env _ = _ |- _ => rewrite H in U end. cbn [snd] in U.
    destruct t as [|e]; cbn [fst snd].
    + split; [intros t X; inversion X; reflexivity|].
      split; [intros _|reflexivity].
      split; [apply U; reflexivity|]. split; congruence.
    + split; [intros t X; discriminate X|].
      split; [intros X; discriminate X|]. intros (B & _). apply U in B. discriminate B.
  - assert (B : 1 <= retryAttempts env) by (eapply call_returned; eassumption).
    assert (N : t <> ThrownUndefined) by (eapply review_defined; eassumption).
    destruct t as [|e]; [congruence|]. cbn [fst snd].
    split; [intros t X; discriminate X|]. split; [intros X; discriminate X|]. lia.
  - assert (B : 1 <= retryAttempts env) by (eapply call_returned; eassumption).
    cbn [fst snd].
    split; [intros t X; discriminate X|]. split; [intros X; discriminate X|]. lia.
  - assert (B : 1 <= retryAttempts env) by (eapply call_returned; eassumption).
    match goal with
    | H : formatSynthesisInput _ _ = Throw _ |- _ =>
        apply formatSynthesisInput_throws in H; subst t
    end.
    cbn [fst snd].
    split; [intros t X; discriminate X|]. split; [intros X; discriminate X|]. lia.
  - assert (B : 1 <= retryAttempts env) by (eapply call_returned; eassumption).
    assert (N : @Throw CompletionOutcome t <> Throw ThrownUndefined)
      by (eapply call_defined; eassumption).
    destruct t as [|e]; [congruence|]. cbn [fst snd].
    split; [intros t X; discriminate X|]. split; [intros X; discriminate X|]. lia.
  - assert (B : 1 <= retryAttempts env) by (eapply call_returned; eassumption).
    cbn [fst snd].
    split; [intros t X; discriminate X|]. split; [intros X; discriminate X|]. lia.
Qed.

Lemma post_run_without_reply_witness :
  snd (SessionsRoute.postRun envNoAttempt "s1" (fresh db1))
    = Throw (ThrownError SessionsRoute.cannotReadMessage) /\
  providerInvocations (log (fst (SessionsRoute.postRun envNoAttempt "s1" (fresh db1)))) = 0%nat.
Proof.
  split; [|vm_compute; reflexivity].
  apply (proj2 (proj2 (post_run_without_reply envNoAttempt "s1" db1))).
  split; [reflexivity|]. split; discriminate.
Defined.
